(* ===== verification/_CoqProject ===== *)
-Q . S2P
Prelude.v
Regex.v
Num.v
Table.v
Report.v
Settings.v
Depth.v
Splitter.v
Measurement.v
Metadata.v
Pipeline.v
