(* ===== verification/Prelude.v ===== *)
(** * CoreQC: a verification development of [src/CoreQC.py]

    CoreQC (one class, [CoreQC], 345 lines) checks well-log CSV files
    against a workbook of rules.  [main] resets the report, reads a path,
    loads the settings, collects the logs ([load_single] or [load_bulk]),
    runs [run_qc] on each log and, if the user answers [y], writes each log
    split into parts with [split_export].  [run_qc] chains the stages on
    [self.log_df]: [clean_log] (the Normalizer), [qc_metadata] (the
    MetadataValidator), [qc_data] (the MeasurementValidator) unless the
    test type was refused, and [qc_depth] (the DepthResolver).  Every
    finding goes through [raise_warning] or [raise_error] into the two
    lists of the report.

    ** Files, in dependency order
    - [Prelude]: Python's exceptions ([py_exc]), the result monad, the
      state-and-exception monad [st] of the methods with its inversion
      lemmas and the tactic [st_inv], the ASCII [str] methods (upper,
      lower, strip, endswith, removesuffix), the hint databases [coreqc]
      and [coreqc_rw].
    - [Regex]: the fragment of [re.match] the date check uses, as the list
      of remainders of a backtracking matcher, with one membership lemma
      per construct.
    - [Num]: the interface [FloatModel] of the float operations the code
      uses and its laws [FloatLaws]; [float(str)] on decimal literals; the
      instances exact rationals ([Qc], lawful) and binary64 ([PrimFloat],
      not lawful).
    - [Table]: a pandas [DataFrame] as column names and labelled rows of
      cells ([Missing] for NaN, [Text], [Num]); Python's [==], [!=] and
      [in] on cells; [loc], [iloc], column selection; [clean_log].
    - [Report]: the fields of the object ([qc_state]), [raise_warning],
      [raise_error], the rendered messages, and three postconditions of
      methods with their bind rules: [only_appends], [errors_grow_by],
      [keeps_report] (the report extends, a [PreOrder]); the refinement of
      the spec's single ordered report by the two lists.
    - [Settings]: the constants of [load_settings], the catalog of
      mnemonic tables and [load_settings] over a parsed workbook.
    - [Depth]: [qc_depth]'s [while] loop with fuel.
    - [Splitter]: [split_export], its parts by well-founded recursion
      (Equations).
    - [Measurement]: [qc_data], the mnemonic normalization of [re.sub],
      pandas' [min]/[max] on [object] columns.
    - [Metadata]: [qc_metadata] and the date pattern.
    - [Pipeline]: [run_qc], [main], [load_single], [load_bulk],
      [ask_split], [clear_vars], [save_report], [__init__]'s loop as
      [session]; the object's [self.logs], the written files and the
      prompt's input lines are an [app_state], the file system and the
      libraries an [env] record.

    Each operation is a function of the same name as the method, over the
    record of the fields it reads and writes, returning [Err] for the
    exception Python raises; the theorems quantify over every input.

    ** What the theorems show
    - Depth: for every fuel, a column the loop returns has no repeated
      present value, each cell bumped by 0.00001 some number of times; a
      flagged [str] that does not parse raises [ValueError]; a unique
      column is returned as is; with binary64 the loop never ends on the
      column [1e12, 1e12] (the increment is absorbed).
    - Splitter: the parts put back together give the measurement columns
      in order, each part has the metadata prefix and all the rows, the
      width boundary, the part names.
    - Settings: the mnemonic table of a sheet gives each mnemonic the
      unit and range of its first row, with the not-unique warning
      exactly when a mnemonic repeats.
    - Normalizer: [clean_log] returns exactly the kept rows with the
      header and the first row cleaned, raises [IndexError] when no row is
      left and [AttributeError] when the first row holds numbers and no
      [str], and leaves no empty row.
    - Metadata: the column loop is silent on a matching template; the
      date pattern accepts exactly the date shape (a final newline
      included); a run that returns read a [str] date and reports it
      exactly when the pattern rejects it; the invalid test type flag is
      set exactly when its error is reported; at most one warning and
      [metadata_cols + 3] errors; a unit-less column is reported
      ([nan != nan]).
    - Measurement: [qc_data] adds only range warnings and structural
      errors; a non-unique header gives one error; the normalization
      replaces each maximal run of digits and dots by one [XXXX] and
      leaves other names alone; the range check on numbers uses a true
      minimum and maximum, on [str] columns the string extremes, converted
      with [float] and skipped when one is not a number.
    - Report and Pipeline: [run_qc] runs its stages in order, skips
      [qc_data] exactly when the test type is invalid, and only extends the
      report; reporting refines the spec's ordered report, though the two
      lists lose the order between warnings and errors; [main] returns
      only when [run_qc] returned on every collected log; [ask_split]
      returns at the first y/n; [load_bulk] keeps a set of [.CSV] names.

    ** Bounds and fuel
    [resolve_depth] takes its fuel as an argument, and the theorems about
    the column it returns hold for every fuel.  [depth_fuel] gives
    [S (n * n)] passes for [n] cells, which the lemma
    [Depth.resolve_depth_terminates] shows enough for an arithmetic that
    satisfies [FloatLaws] (exact rationals): each pass fixes a longer
    prefix of the column or raises one value strictly, and a value can be
    raised at most [n] times before it escapes the values above it.  This
    is a fact of the exact model, not of the program: Python's binary64
    violates [FloatLaws], and on it the loop need not end
    ([Depth.depth_binary64_diverges]).  [session] takes its number of
    rounds; the program's own [while True] ends only by an exception.

    ** Assumptions on the libraries
    - pandas before 3.0 (no Copy-on-Write): the chained assignment
      [df['DEPTH'].loc[duplicated] = ...] of line 292 writes through to
      [df], as [qc_depth] models it; under Copy-on-Write it would
      change a copy and the loop would never make progress.
    - [df.iloc[0].str] (line 167) raises [AttributeError] when the first
      row holds no [str]; [df['UNIT'].str] (line 109) in [load_settings] does the
      same on a sheet whose UNIT column holds no [str] (an empty sheet
      excepted).

    ** Not modelled
    Printing (the banner of lines 14-33 and every [print]); the file
    system, [os.walk], [read_csv], [to_csv] and the Excel parser, which are
    the [env] record and the list of written tables; [print]'s own
    [df.loc] in [qc_metadata] is modelled, its output is not.  Python
    [float] is the [FloatModel] interface, with an exact instance and a
    binary64 instance; the [re] library only as far as lines 222 and 247
    use it; Unicode digits of [\d] and [float] spellings such as [inf] are
    outside the byte-string model.  The iteration order of the set
    [self.logs] is taken as insertion order. *)

From Stdlib Require Export ZArith Ascii String.
From stdpp Require Export base list strings gmap.
From Stdlib Require Import Lia DecimalString.

Declare Scope coreqc_scope.
Delimit Scope coreqc_scope with qc.
Open Scope coreqc_scope.

Create HintDb coreqc discriminated.
Create Rewrite HintDb coreqc_rw.

(** ** Python exceptions that the modelled code can raise *)

(** Every exception the QC pipeline can raise on some input.  [KeyError]
    carries the missing key (a column or row label rendered as a string).
    [AssertionError] carries the message of the failed [assert]; [EOFError]
    is what [input()] raises when the input is exhausted; [read_csv] of a
    path that names no file raises [FileNotFoundError].
    [NotConverged] is not a Python exception: it is what the model returns
    when a [while] loop runs out of fuel. *)
Inductive py_exc : Type :=
  | KeyError (key : string)
  | IndexError
  | TypeError
  | ValueError
  | AttributeError
  | AssertionError (msg : string)
  | EOFError
  | FileNotFoundError (path : string)
  | NotConverged.

#[export] Instance py_exc_eq_dec : EqDecision py_exc.
Proof. solve_decision. Defined.

(** ** The result of a Python computation: a value or a raised exception *)

Inductive result (A : Type) : Type :=
  | Ok (a : A)
  | Err (e : py_exc).
Arguments Ok {A} a.
Arguments Err {A} e.

#[export] Instance result_ret : MRet result := fun _ a => Ok a.
#[export] Instance result_bind : MBind result :=
  fun _ _ f m => match m with Ok a => f a | Err e => Err e end.
#[export] Instance result_fmap : FMap result :=
  fun _ _ f m => match m with Ok a => Ok (f a) | Err e => Err e end.

(** The value of a result, or a default when it raised. *)
Definition result_default {A} (d : A) (m : result A) : A :=
  match m with Ok a => a | Err _ => d end.

(** [l[i]] for a position [i >= 0]: [IndexError] past the end. *)
Definition py_index {A} (l : list A) (i : nat) : result A :=
  match l !! i with Some x => Ok x | None => Err IndexError end.

(** Python's [try: ... except E: ...]: recover from the exceptions of a
    list, re-raise the others. *)
Definition py_except {A} (handled : list py_exc) (m : result A)
    (handler : py_exc -> result A) : result A :=
  match m with
  | Ok a => Ok a
  | Err e => if decide (e ∈ handled) then handler e else Err e
  end.

(** [mapM] in the result monad: the first exception aborts the map. *)
Fixpoint mapM_res {A B} (f : A -> result B) (l : list A) : result (list B) :=
  match l with
  | [] => Ok []
  | x :: l' => y ← f x; ys ← mapM_res f l'; Ok (y :: ys)
  end.

(** ** A state monad over [result], for the methods of the [CoreQC] object *)

(** A method of the object reads and writes the object's fields ([S]) and
    may raise. *)
Definition st (S A : Type) : Type := S -> result (A * S).

#[export] Instance st_ret {S} : MRet (st S) := fun _ a s => Ok (a, s).
#[export] Instance st_bind {S} : MBind (st S) :=
  fun _ _ f m s => match m s with Ok (a, s') => f a s' | Err e => Err e end.

Definition st_get {S} : st S S := fun s => Ok (s, s).
Definition st_put {S} (s : S) : st S unit := fun _ => Ok (tt, s).
Definition st_modify {S} (f : S -> S) : st S unit := fun s => Ok (tt, f s).
Definition st_raise {S A} (e : py_exc) : st S A := fun _ => Err e.
Definition st_lift {S A} (m : result A) : st S A :=
  fun s => match m with Ok a => Ok (a, s) | Err e => Err e end.

(** Python's [for x in xs: body(x)] over a method. *)
Fixpoint st_forM {S A} (xs : list A) (body : A -> st S unit) : st S unit :=
  match xs with
  | [] => mret tt
  | x :: xs' => _ ← body x; st_forM xs' body
  end.

(** ** ASCII strings as Python [str] *)

(** [str.isspace] on the ASCII range: tab, line feed, vertical tab, form
    feed, carriage return, the four information separators 0x1c-0x1f, and
    space. *)
Definition is_py_space (c : ascii) : bool :=
  let n := nat_of_ascii c in
  ((9 <=? n) && (n <=? 13)) || ((28 <=? n) && (n <=? 32)).

(** [str.upper] on the ASCII range. *)
Definition ascii_upper (c : ascii) : ascii :=
  let n := nat_of_ascii c in
  if (97 <=? n) && (n <=? 122) then ascii_of_nat (n - 32) else c.

Definition py_upper (s : string) : string :=
  string_of_list_ascii (map ascii_upper (list_ascii_of_string s)).

(** [str.lower] on the ASCII range. *)
Definition ascii_lower (c : ascii) : ascii :=
  let n := nat_of_ascii c in
  if (65 <=? n) && (n <=? 90) then ascii_of_nat (n + 32) else c.
Definition py_lower (s : string) : string :=
  string_of_list_ascii (map ascii_lower (list_ascii_of_string s)).

(** [str.lstrip(chars)], [str.rstrip(chars)] and [str.strip(chars)] with the
    set of stripped characters given as a predicate. *)
Fixpoint lstrip_by (p : ascii -> bool) (l : list ascii) : list ascii :=
  match l with
  | [] => []
  | c :: l' => if p c then lstrip_by p l' else l
  end.

Definition strip_by (p : ascii -> bool) (s : string) : string :=
  string_of_list_ascii
    (rev (lstrip_by p (rev (lstrip_by p (list_ascii_of_string s))))).

(** [str.strip()] with no argument strips whitespace. *)
Definition py_strip (s : string) : string := strip_by is_py_space s.

(** [str.strip(chars)] with an explicit character set. *)
Definition py_strip_chars (chars : string) (s : string) : string :=
  strip_by (fun c => bool_decide (c ∈ list_ascii_of_string chars)) s.

(** [str.endswith(suffix)]. *)
Definition py_endswith (suffix s : string) : bool :=
  let n := String.length s in
  let k := String.length suffix in
  (k <=? n) && String.eqb (substring (n - k) k s) suffix.

(** [str.removesuffix(suffix)]. *)
Definition py_removesuffix (suffix s : string) : string :=
  if py_endswith suffix s
  then substring 0 (String.length s - String.length suffix) s else s.

(** [str(i)] for a natural number. *)
Definition py_str_nat (n : nat) : string :=
  NilEmpty.string_of_uint (Nat.to_uint n).

(** ** Generic lemmas shared by the components *)

Lemma bind_Ok {A B} (a : A) (f : A -> result B) : (Ok a ≫= f) = f a.
Proof. reflexivity. Qed.

Lemma bind_Err {A B} e (f : A -> result B) : (Err e ≫= f) = Err e.
Proof. reflexivity. Qed.

Lemma bind_eq_Ok {A B} (m : result A) (f : A -> result B) b :
  (m ≫= f) = Ok b <-> exists a, m = Ok a /\ f a = Ok b.
Proof.
  destruct m as [a|e]; simpl; split.
  - eauto.
  - by intros (? & [= ->] & ?).
  - done.
  - by intros (? & ? & ?).
Qed.

Lemma mapM_res_length {A B} (f : A -> result B) l l' :
  mapM_res f l = Ok l' -> length l' = length l.
Proof.
  revert l'; induction l as [|x l IH]; intros l' H; simpl in H.
  - by injection H as <-.
  - destruct (f x); [|done]. destruct (mapM_res f l) eqn:E; [|done].
    injection H as <-. simpl. by rewrite (IH _ eq_refl).
Qed.

Lemma mapM_res_Ok_Forall2 {A B} (f : A -> result B) l l' :
  mapM_res f l = Ok l' <-> Forall2 (fun x y => f x = Ok y) l l'.
Proof.
  revert l'; induction l as [|x l IH]; intros l'; simpl.
  - split; [intros [= <-]; constructor | by inversion 1].
  - split.
    + destruct (f x) eqn:Ef; [|done]. destruct (mapM_res f l) eqn:E; [|done].
      intros [= <-]. constructor; [done|]. by apply IH.
    + inversion 1 as [|? y ? ys Hf Hrest]; subst.
      rewrite Hf. apply IH in Hrest. by rewrite Hrest.
Qed.

Lemma ascii_upper_idem c : ascii_upper (ascii_upper c) = ascii_upper c.
Proof. destruct c as [[] [] [] [] [] [] [] []]; reflexivity. Qed.

Lemma py_upper_idem s : py_upper (py_upper s) = py_upper s.
Proof.
  unfold py_upper. rewrite list_ascii_of_string_of_list_ascii, map_map.
  f_equal. apply map_ext, ascii_upper_idem.
Qed.

#[export] Hint Rewrite @bind_Ok @bind_Err py_upper_idem : coreqc_rw.

(** Case analysis on a result in a hypothesis or the goal. *)
Ltac destruct_res :=
  repeat match goal with
  | H : context [match ?m with Ok _ => _ | Err _ => _ end] |- _ =>
      let E := fresh "E" in destruct m eqn:E
  | |- context [match ?m with Ok _ => _ | Err _ => _ end] =>
      let E := fresh "E" in destruct m eqn:E
  end.

(** ** Running a method: inversion of the state monad's combinators *)

Section StInv.
Context {S : Type}.

Lemma st_bind_Ok {A B} (m : st S A) (f : A -> st S B) (s : S) r :
  (m ≫= f) s = Ok r <-> exists a s1, m s = Ok (a, s1) /\ f a s1 = Ok r.
Proof.
  unfold mbind, st_bind. destruct (m s) as [[a s1]|e]; split; try done.
  - eauto.
  - by intros (? & ? & [= <- <-] & ?).
  - by intros (? & ? & ? & ?).
Qed.

Lemma st_lift_Ok {A} (m : result A) (s : S) a (s' : S) : st_lift m s = Ok (a, s') <-> m = Ok a /\ s' = s.
Proof. unfold st_lift. destruct m; split; try done; [by intros [= -> ->] | by intros [[= ->] ->]|]. by intros [? _]. Qed.

Lemma st_ret_Ok {A} (x : A) (s : S) a (s' : S) : (mret x : st S A) s = Ok (a, s') <-> a = x /\ s' = s.
Proof. split; [by intros [= -> ->] | by intros [-> ->]]. Qed.

Lemma st_get_Ok (s a s' : S) : st_get s = Ok (a, s') <-> a = s /\ s' = s.
Proof. split; [by intros [= -> ->] | by intros [-> ->]]. Qed.

Lemma st_modify_Ok (f : S -> S) (s : S) (a : unit) (s' : S) : st_modify f s = Ok (a, s') <-> s' = f s.
Proof. destruct a. split; [by intros [= ->] | by intros ->]. Qed.

(** A loop whose body changes nothing changes nothing. *)
Lemma st_forM_noop {A} (xs : list A) (body : A -> st S unit) (s : S) :
  (forall x, x ∈ xs -> body x s = Ok (tt, s)) -> st_forM xs body s = Ok (tt, s).
Proof.
  induction xs as [|x xs IH]; intros Hb; [done|]. simpl. apply st_bind_Ok.
  exists tt, s. split; [apply Hb; by left|]. apply IH. intros y Hy. apply Hb. by right.
Qed.

(** Each iteration of a loop that returns returned. *)
Lemma st_forM_Ok_each {A} (xs : list A) (body : A -> st S unit) (s s' : S) :
  st_forM xs body s = Ok (tt, s') -> forall x, x ∈ xs -> exists s1 s2, body x s1 = Ok (tt, s2).
Proof.
  revert s; induction xs as [|y xs IH]; intros s Hrun x Hx; [by apply elem_of_nil in Hx|].
  simpl in Hrun. apply st_bind_Ok in Hrun as ([] & s1 & Hy & Hrun).
  apply elem_of_cons in Hx as [->|Hx]; [by eauto|]. by eapply IH.
Qed.

(** A method that returns leaves the field [f] of the state as it was. *)
Definition keeps_field {B A} (f : S -> B) (m : st S A) : Prop :=
  forall s a s', m s = Ok (a, s') -> f s' = f s.

Section KeepsField.
Context {B : Type} (f : S -> B).

Lemma keeps_field_bind {A C} (m : st S A) (k : A -> st S C) :
  keeps_field f m -> (forall a, keeps_field f (k a)) -> keeps_field f (m ≫= k).
Proof.
  intros Hm Hk s c s' (a & s1 & H1 & H2)%st_bind_Ok. rewrite (Hk _ _ _ _ H2). by eapply Hm.
Qed.

Lemma keeps_field_ret {A} (x : A) : keeps_field f (mret x).
Proof. by intros s a s' [_ ->]%st_ret_Ok. Qed.

Lemma keeps_field_get : keeps_field f st_get.
Proof. by intros s a s' [_ ->]%st_get_Ok. Qed.

Lemma keeps_field_lift {A} (m : result A) : keeps_field f (st_lift m).
Proof. by intros s a s' [_ ->]%st_lift_Ok. Qed.

Lemma keeps_field_raise {A} e : keeps_field f (st_raise (A:=A) e).
Proof. done. Qed.

Lemma keeps_field_modify (g : S -> S) : (forall s, f (g s) = f s) -> keeps_field f (st_modify g).
Proof. intros Hg s [] s' ->%st_modify_Ok. apply Hg. Qed.

Lemma keeps_field_forM {A} (xs : list A) (body : A -> st S unit) :
  (forall x, keeps_field f (body x)) -> keeps_field f (st_forM xs body).
Proof.
  intros Hb. induction xs as [|x xs IH]; simpl; [apply keeps_field_ret|].
  by apply keeps_field_bind.
Qed.

End KeepsField.

End StInv.

(** Prove [keeps_field f m] for a method [m] composed of the combinators,
    given that each [st_modify] keeps the field by computation. *)
Ltac solve_keeps_field :=
  repeat first
    [ match goal with |- forall _, _ => intro end
    | apply keeps_field_bind | apply keeps_field_ret | apply keeps_field_get
    | apply keeps_field_lift | apply keeps_field_raise | apply keeps_field_forM
    | apply keeps_field_modify; by intros []
    | solve [eauto with coreqc]
    | case_match ].

(** Take apart a successful run [H : m s = Ok r] of a composed method. *)
Ltac st_inv H :=
  repeat match type of H with
  | (_ ≫= _) _ = Ok _ =>
      let a := fresh "a" in let s := fresh "s" in let H1 := fresh "Hrun" in
      apply st_bind_Ok in H as (a & s & H1 & H); try st_inv H1
  | st_lift _ _ = Ok _ => apply st_lift_Ok in H as [? ?]; subst
  | st_get _ = Ok _ => apply st_get_Ok in H as [? ?]; subst
  | st_modify _ _ = Ok _ => apply st_modify_Ok in H; subst
  | mret _ _ = Ok _ => apply st_ret_Ok in H as [? ?]; subst
  end.

(** ** Lemmas on the string functions *)

Lemma py_upper_app a b : py_upper (a +:+ b) = (py_upper a +:+ py_upper b)%string.
Proof.
  unfold py_upper. induction a as [|c a IH]; simpl; [done|].
  by rewrite IH.
Qed.

Lemma substring_app_length a b m k :
  substring (String.length a + m) k (a +:+ b) = substring m k b.
Proof. induction a as [|c a IH]; simpl; [done|]. apply IH. Qed.

Lemma length_string_app a b : String.length (a +:+ b) = String.length a + String.length b.
Proof. induction a as [|c a IH]; simpl; [done|]. by rewrite IH. Qed.

(** A suffix of [b] is a suffix of [a ++ b]. *)
Lemma py_endswith_app suffix a b :
  py_endswith suffix b = true -> py_endswith suffix (a +:+ b) = true.
Proof.
  unfold py_endswith. rewrite length_string_app.
  intros [Hk Hs]%andb_true_iff. apply Nat.leb_le in Hk.
  replace (String.length a + String.length b - String.length suffix)
    with (String.length a + (String.length b - String.length suffix)) by lia.
  rewrite substring_app_length, Hs, andb_true_r. apply Nat.leb_le. lia.
Qed.

(** [posixpath.join(root, f)] for a relative [f] and a [root] that does
    not end with a slash. *)
Definition posix_join (root f : string) : string := (root +:+ "/" +:+ f)%string.

Lemma list_ascii_of_string_app a b :
  list_ascii_of_string (a +:+ b) = list_ascii_of_string a ++ list_ascii_of_string b.
Proof. induction a as [|c a IH]; simpl; [done|]. by rewrite IH. Qed.

Lemma string_of_list_ascii_app l1 l2 :
  string_of_list_ascii (l1 ++ l2) = (string_of_list_ascii l1 +:+ string_of_list_ascii l2)%string.
Proof. induction l1 as [|c l1 IH]; simpl; [done|]. by rewrite IH. Qed.
