(* ===== verification/Regex.v ===== *)
(** * The fragment of Python's [re] that CoreQC uses

    [qc_metadata] checks the test date with [re.match(pattern, test_date)]
    (CoreQC.py lines 222-224).  The pattern uses character classes,
    literals, an alternation, counted repetition [{n}] and the anchors [^]
    and [$].  [re_rests r l] is the list of the suffixes of [l] that remain
    after [r] matched a prefix of [l], in the order the backtracking engine
    tries them; [re.match] succeeds when the list is not empty (an engine
    without lookaround finds a match whenever one exists).  [$] matches at
    the end of the string and also just before a final line feed, as in
    Python without [re.MULTILINE].  Strings are byte strings: [\d] is the
    ASCII digit class. *)

From S2P Require Import Prelude.

Inductive regex : Type :=
  | RClass (p : ascii -> bool)
  | RLit (s : string)
  | RAlt (r1 r2 : regex)
  | RSeq (r1 r2 : regex)
  | RRep (n : nat) (r : regex)
  | REnd.

Definition ascii_lf : ascii := Ascii.ascii_of_nat 10.

Fixpoint re_rests (r : regex) (l : list ascii) : list (list ascii) :=
  match r with
  | RClass p => match l with c :: l' => if p c then [l'] else [] | [] => [] end
  | RLit s =>
      let k := list_ascii_of_string s in
      if bool_decide (take (length k) l = k) then [drop (length k) l] else []
  | RAlt r1 r2 => re_rests r1 l ++ re_rests r2 l
  | RSeq r1 r2 => re_rests r1 l ≫= re_rests r2
  | RRep n r => Nat.iter n (fun ls => ls ≫= re_rests r) [l]
  | REnd =>
      match l with
      | [] => [[]]
      | [c] => if bool_decide (c = ascii_lf) then [l] else []
      | _ => []
      end
  end.

(** [re.match(r, s) is not None]. *)
Definition py_re_match (r : regex) (s : string) : bool :=
  match re_rests r (list_ascii_of_string s) with [] => false | _ => true end.

(** [\d] on bytes. *)
Definition is_digit (c : ascii) : bool :=
  let n := nat_of_ascii c in (48 <=? n) && (n <=? 57).

(** [(s1|s2|...)] for literal alternatives. *)
Fixpoint re_alts (ss : list string) : regex :=
  match ss with
  | [] => RClass (fun _ => false)
  | s :: ss' => RAlt (RLit s) (re_alts ss')
  end.

(** ** Membership in the remainders, construct by construct *)

Lemma py_re_match_true r s :
  py_re_match r s = true <-> exists x, x ∈ re_rests r (list_ascii_of_string s).
Proof.
  unfold py_re_match. destruct (re_rests r _) as [|y ys]; split; try done.
  - intros [x Hx]. by apply elem_of_nil in Hx.
  - intros _. exists y. by left.
Qed.

Lemma re_rests_seq r1 r2 l x :
  x ∈ re_rests (RSeq r1 r2) l <-> exists y, y ∈ re_rests r1 l /\ x ∈ re_rests r2 y.
Proof. simpl. rewrite list_elem_of_bind. naive_solver. Qed.

Lemma re_rests_lit s l x :
  x ∈ re_rests (RLit s) l <-> l = list_ascii_of_string s ++ x.
Proof.
  simpl. case_bool_decide as Hp.
  - rewrite list_elem_of_singleton. split.
    + intros ->. rewrite <- Hp at 1. by rewrite take_drop.
    + intros ->. by rewrite drop_app_length.
  - split; [by intros ?%elem_of_nil|]. intros ->. by rewrite take_app_length in Hp.
Qed.

Lemma re_rests_alts ss l x :
  x ∈ re_rests (re_alts ss) l <-> exists s, s ∈ ss /\ l = list_ascii_of_string s ++ x.
Proof.
  induction ss as [|s ss IH]; simpl.
  - destruct l as [|c l]; split; try (by intros ?%elem_of_nil); by intros (? & ?%elem_of_nil & _).
  - rewrite elem_of_app, IH. fold re_rests. rewrite (re_rests_lit s l x). setoid_rewrite elem_of_cons.
    naive_solver.
Qed.

Lemma re_rests_class p l x :
  x ∈ re_rests (RClass p) l <-> exists c, l = c :: x /\ p c = true.
Proof.
  simpl. destruct l as [|c l].
  - split; [by intros ?%elem_of_nil | by intros (? & ? & _)].
  - destruct (p c) eqn:Hp; rewrite ?list_elem_of_singleton; split.
    + intros ->. eauto.
    + by intros (? & [= -> ->] & _).
    + by intros ?%elem_of_nil.
    + intros (? & [= -> ->] & ?). congruence.
Qed.

Lemma iter_bind_nil {A} (f : A -> list A) n : Nat.iter n (fun ls => ls ≫= f) [] = [].
Proof. induction n as [|n IH]; simpl; [done|]. by rewrite IH. Qed.

(** [c{n}]: [n] characters of the class. *)
Lemma re_rests_rep_class n p l x :
  x ∈ re_rests (RRep n (RClass p)) l <->
  exists d, l = d ++ x /\ length d = n /\ Forall (fun c => p c = true) d.
Proof.
  revert l x. induction n as [|n IH]; intros l x.
  - simpl. rewrite list_elem_of_singleton.
    split; [intros ->; by exists [] | by intros ([|] & -> & ? & _)].
  - change (re_rests (RRep (S n) (RClass p)) l)
      with (Nat.iter (S n) (fun ls => ls ≫= re_rests (RClass p)) [l]).
    rewrite Nat.iter_succ_r. simpl. rewrite app_nil_r. destruct l as [|c l].
    + rewrite iter_bind_nil. split; [by intros ?%elem_of_nil|].
      by intros ([|] & ? & ? & _); simplify_eq/=.
    + destruct (p c) eqn:Hc.
      * transitivity (exists d, l = d ++ x /\ length d = n /\ Forall (fun c => p c = true) d);
          [exact (IH l x)|].
        split; [intros (d & -> & <- & Hd); exists (c :: d); simpl; by auto|].
        intros ([|c' d] & Heq & Hlen & Hd); simplify_eq/=. apply Forall_cons in Hd as [_ Hd]. eauto.
      * rewrite iter_bind_nil. split; [by intros ?%elem_of_nil|].
        intros ([|c' d] & Heq & Hlen & Hd); simplify_eq/=. apply Forall_cons in Hd as [Hc' _]. congruence.
Qed.

Lemma re_rests_end l x :
  x ∈ re_rests REnd l <-> x = l /\ (l = [] \/ l = [ascii_lf]).
Proof.
  simpl. destruct l as [|c [|c' l]].
  - rewrite list_elem_of_singleton. naive_solver.
  - case_bool_decide as Hc; [rewrite list_elem_of_singleton; subst; naive_solver|].
    split; [by intros ?%elem_of_nil|]. intros (_ & [|[=]]); [done|congruence].
  - split; [by intros ?%elem_of_nil|]. by intros (_ & [|]).
Qed.
