(* ===== verification/Num.v ===== *)
(** * Numbers: the interface the QC code uses of Python's [float]

    The code does three things with floats: it converts a cell's text with
    [float(...)] (range checks in [qc_data], [astype(float)] in
    [qc_depth]), it compares floats ([==] inside [duplicated()], [<] and
    [>] against the settings' MIN and MAX), and it adds the literal
    [0.00001] to a depth.  [FloatModel] is that interface; the validators
    and the depth resolver are written against it.  [FloatLaws] states what
    an exact arithmetic guarantees and is what the correctness theorems
    assume.  Two instances: [Qc] (canonical rationals, exact) and
    [PrimFloat.float] (IEEE binary64, what CPython computes), which
    violates [FloatLaws] and on which [Depth.v] shows the loop of
    [qc_depth] never terminating. *)

From S2P Require Import Prelude.
From Stdlib Require Import QArith Qcanon PrimFloat Uint63.

(** ** The interface *)

Class FloatModel (F : Type) := {
  (** [f_of_decimal neg m e] is the float nearest to [(-1)^neg * m * 10^e]. *)
  f_of_decimal : bool -> Z -> Z -> F;
  f_add : F -> F -> F;
  f_eqb : F -> F -> bool;
  f_ltb : F -> F -> bool;
}.

Section Parse.
Context `{FloatModel F}.

(** The literal [0.00001] of [qc_depth]. *)
Definition depth_inc : F := f_of_decimal false 1 (-5).

(** The literal [0.0]. *)
Definition f_zero : F := f_of_decimal false 0 0.

Definition digit_val (c : ascii) : option Z :=
  let n := nat_of_ascii c in
  if (48 <=? n) && (n <=? 57) then Some (Z.of_nat (n - 48)) else None.

(** The maximal run of ASCII digits at the front of a string. *)
Fixpoint take_digits (l : list ascii) : list Z * list ascii :=
  match l with
  | c :: l' =>
      match digit_val c with
      | Some d => let '(ds, r) := take_digits l' in (d :: ds, r)
      | None => ([], l)
      end
  | [] => ([], [])
  end.

Definition digits_to_Z (ds : list Z) : Z := fold_left (fun acc d => acc * 10 + d)%Z ds 0%Z.

Definition take_sign (l : list ascii) : bool * list ascii :=
  match l with
  | "-"%char :: r => (true, r)
  | "+"%char :: r => (false, r)
  | _ => (false, l)
  end.

(** The optional exponent part [e[+-]ddd]: it must end the string. *)
Definition parse_exponent (l : list ascii) : option Z :=
  match l with
  | [] => Some 0%Z
  | c :: r =>
      if bool_decide (c = "e"%char \/ c = "E"%char) then
        let '(neg, r1) := take_sign r in
        match take_digits r1 with
        | (d :: ds, []) => let z := digits_to_Z (d :: ds) in Some (if neg then - z else z)%Z
        | _ => None
        end
      else None
  end.

(** The decimal literal grammar of [float(str)] after whitespace is
    stripped: [[+-]] [digits [. digits*] | . digits] [exponent].
    Returns the sign, the integer mantissa and the decimal exponent. *)
Definition parse_decimal (l : list ascii) : option (bool * Z * Z) :=
  let '(neg, l1) := take_sign l in
  let '(ip, l2) := take_digits l1 in
  let '(fp, l3) :=
    match l2 with
    | "."%char :: r => take_digits r
    | _ => ([], l2)
    end in
  match ip, fp with
  | [], [] => None
  | _, _ =>
      e ← parse_exponent l3;
      Some (neg, digits_to_Z (ip ++ fp), (e - Z.of_nat (length fp))%Z)
  end.

(** Python's [float(s)] on a [str]: strip whitespace, then parse. *)
Definition py_float (s : string) : option F :=
  '(neg, m, e) ← parse_decimal (list_ascii_of_string (py_strip s));
  Some (f_of_decimal neg m e).

End Parse.

(** ** What an exact arithmetic satisfies *)

Class FloatLaws (F : Type) `{FloatModel F} := {
  f_eqb_spec x y : reflect (x = y) (f_eqb x y);
  f_ltb_irrefl x : f_ltb x x = false;
  f_ltb_trans x y z : f_ltb x y = true -> f_ltb y z = true -> f_ltb x z = true;
  f_ltb_total x y : f_ltb x y = false -> f_ltb y x = false -> x = y;
  (** Adding a positive number gives a strictly larger one: no absorption. *)
  f_ltb_add_pos x y : f_ltb f_zero y = true -> f_ltb x (f_add x y) = true;
  f_of_decimal_pos m e : (0 < m)%Z -> f_ltb f_zero (f_of_decimal false m e) = true;
}.

Section Laws.
Context `{FloatLaws F}.

Lemma depth_inc_pos : f_ltb f_zero depth_inc = true.
Proof. apply f_of_decimal_pos. lia. Qed.

(** The key fact of the depth resolver: bumping strictly increases. *)
Lemma f_ltb_bump x : f_ltb x (f_add x depth_inc) = true.
Proof. apply f_ltb_add_pos, depth_inc_pos. Qed.

Lemma f_eqb_true x y : f_eqb x y = true <-> x = y.
Proof. destruct (f_eqb_spec x y); split; congruence. Qed.

Lemma f_eqb_refl x : f_eqb x x = true.
Proof. by apply f_eqb_true. Qed.

Lemma f_ltb_neq x y : f_ltb x y = true -> x <> y.
Proof. intros Hlt ->. by rewrite f_ltb_irrefl in Hlt. Qed.

Lemma f_ltb_asym x y : f_ltb x y = true -> f_ltb y x = false.
Proof.
  intros Hxy. destruct (f_ltb y x) eqn:Hyx; [|done].
  pose proof (f_ltb_trans _ _ _ Hxy Hyx) as Hxx. by rewrite f_ltb_irrefl in Hxx.
Qed.

End Laws.

#[export] Hint Resolve f_ltb_bump f_eqb_refl : coreqc.

(** ** Exact instance: canonical rationals *)

Definition Q_of_decimal (neg : bool) (m e : Z) : Q :=
  let q := if (0 <=? e)%Z then inject_Z (m * 10 ^ e) else Qmake m (Z.to_pos (10 ^ (- e))) in
  if neg then Qopp q else q.

#[export] Instance Qc_float : FloatModel Qc := {
  f_of_decimal neg m e := Q2Qc (Q_of_decimal neg m e);
  f_add := Qcplus;
  f_eqb x y := bool_decide (x = y);
  f_ltb x y := match Qccompare x y with Lt => true | _ => false end;
}.

Lemma Qc_ltb_iff (x y : Qc) : f_ltb x y = true <-> (x < y)%Qc.
Proof.
  simpl. rewrite Qclt_alt. destruct (x ?= y)%Qc; split; congruence.
Qed.

Lemma Qc_ltb_false (x y : Qc) : f_ltb x y = false <-> (y <= x)%Qc.
Proof.
  rewrite <- not_true_iff_false, Qc_ltb_iff. split.
  - apply Qcnot_lt_le.
  - intros Hle Hlt. by apply (Qclt_not_le x y).
Qed.

#[export] Instance Qc_float_laws : FloatLaws Qc.
Proof.
  split.
  - intros x y. apply bool_decide_reflect.
  - intros x. apply Qc_ltb_false, Qcle_refl.
  - intros x y z. rewrite !Qc_ltb_iff. apply Qclt_trans.
  - intros x y. rewrite !Qc_ltb_false. intros H1 H2. by apply Qcle_antisym.
  - intros x y. rewrite !Qc_ltb_iff. intros Hy.
    rewrite <- (Qcplus_0_r x) at 1. by apply Qcplus_lt_mono_l.
  - intros m e Hm. apply Qc_ltb_iff.
    unfold f_zero, Qclt. simpl. rewrite !Qred_correct.
    unfold Q_of_decimal. simpl.
    destruct (0 <=? e)%Z eqn:He.
    + unfold Qlt; simpl. apply Z.leb_le in He. nia.
    + unfold Qlt; simpl. lia.
Qed.

(** ** Binary64 instance: what CPython computes *)

(** [10^n] in binary64, exact for [n <= 22]. *)
Fixpoint float_pow10 (n : nat) : PrimFloat.float :=
  match n with
  | O => 1%float
  | S n' => (10 * float_pow10 n')%float
  end.

(** One multiplication or division of two exact operands: correctly rounded
    (so equal to CPython's [float(str)]) whenever [|m| < 2^53] and
    [|e| <= 22], which covers every literal used below. *)
Definition prim_of_decimal (neg : bool) (m e : Z) : PrimFloat.float :=
  let x := PrimFloat.of_uint63 (Uint63.of_Z (Z.abs m)) in
  let q := if (0 <=? e)%Z then (x * float_pow10 (Z.to_nat e))%float
           else (x / float_pow10 (Z.to_nat (- e)))%float in
  if neg then PrimFloat.opp q else q.

#[export] Instance prim_float : FloatModel PrimFloat.float := {
  f_of_decimal := prim_of_decimal;
  f_add := PrimFloat.add;
  f_eqb := PrimFloat.eqb;
  f_ltb := PrimFloat.ltb;
}.
