(* ===== verification/Table.v ===== *)
(** * The log table ([self.log_df]) and the Normalizer ([clean_log])

    A pandas [DataFrame] read by [pd.read_csv]: an ordered list of column
    names and a list of rows, each with its index label (pandas keeps the
    labels of the file's rows: [dropna] does not renumber them, and the
    code addresses rows both by position, [iloc], and by label, [loc]).
    A cell is missing ([NaN]), a [str] (a column holding any text has
    dtype [object] and keeps the file's text) or a [float].  Row 0 of the
    file is the units row.

    [clean_log] (CoreQC.py lines 156-169) is modelled with its three
    statements and the exception the third can raise. *)

From S2P Require Import Prelude Num.

(** ** Cells and Python's comparisons on them *)

Inductive cell (F : Type) : Type :=
  | Missing
  | Text (s : string)
  | Num (x : F).
Arguments Missing {F}.
Arguments Text {F} s.
Arguments Num {F} x.

Record table (F : Type) : Type := mk_table {
  tcolumns : list string;
  trows : list (nat * list (cell F));
}.
Arguments mk_table {F} tcolumns trows.
Arguments tcolumns {F} t.
Arguments trows {F} t.

Section Table.
Context {F : Type} `{FloatModel F}.
Abbreviation cell := (cell F).
Abbreviation table := (table F).

(** [pd.notna]. *)
Definition is_present (c : cell) : bool :=
  match c with Missing => false | _ => true end.

Definition is_text (c : cell) : bool :=
  match c with Text _ => true | _ => false end.

Definition is_num (c : cell) : bool :=
  match c with Num _ => true | _ => false end.

(** Python's [a == b] on two values of a cell: [NaN] equals nothing, a
    [str] never equals a [float]. *)
Definition py_eq (a b : cell) : bool :=
  match a, b with
  | Text s, Text t => String.eqb s t
  | Num x, Num y => f_eqb x y
  | _, _ => false
  end.

(** Python's [a != b]: the negation of [==], so [nan != nan] holds. *)
Definition py_ne (a b : cell) : bool := negb (py_eq a b).

(** [x in arr] for a numpy array of values: [(arr == x).any()]. *)
Definition py_in (c : cell) (arr : list cell) : bool := existsb (py_eq c) arr.

(** ** Table access *)

Definition ncols (t : table) : nat := length (tcolumns t).

(** Every row has one cell per column and the row labels are distinct. *)
Definition table_wf (t : table) : Prop :=
  Forall (fun r => length r.2 = ncols t) (trows t) /\ NoDup (map fst (trows t)).

(** The position of the first column with a given name. *)
Definition col_index (name : string) (t : table) : option nat :=
  list_find (fun c => c = name) (tcolumns t) ≫= fun '(i, _) => Some i.

(** The cells of the column at position [i], top to bottom. *)
Definition column_at (i : nat) (t : table) : list cell :=
  map (fun r => default Missing (r.2 !! i)) (trows t).

(** [df[name]]: [KeyError] when there is no such column. *)
Definition column (name : string) (t : table) : result (list cell) :=
  match col_index name t with
  | Some i => Ok (column_at i t)
  | None => Err (KeyError name)
  end.

(** [df.loc[label, name]]: [KeyError] for an absent label or column. *)
Definition loc (label : nat) (name : string) (t : table) : result cell :=
  match col_index name t with
  | None => Err (KeyError name)
  | Some i =>
      match list_find (fun r => r.1 = label) (trows t) with
      | Some (_, r) => Ok (default Missing (r.2 !! i))
      | None => Err (KeyError (py_str_nat label))
      end
  end.

(** [df.iloc[r, c]]: [IndexError] out of range. *)
Definition iloc (r c : nat) (t : table) : result cell :=
  match trows t !! r with
  | Some row => match row.2 !! c with Some x => Ok x | None => Err IndexError end
  | None => Err IndexError
  end.

(** [df.iloc[:, idxs]] for a list of in-range column positions. *)
Definition select_cols (idxs : list nat) (t : table) : table :=
  mk_table (omap (fun i => tcolumns t !! i) idxs)
           ((fun r => (r.1, omap (fun i => r.2 !! i) idxs)) <$> trows t).

(** The cells of the row at position [k] ([df.iloc[k]]), empty past the end. *)
Definition row_cells (k : nat) (t : table) : list cell := default [] (snd <$> trows t !! k).

(** [df.iloc[:, :n]] and [df.iloc[:, n:]]. *)
Definition take_cols (n : nat) (t : table) : table :=
  mk_table (take n (tcolumns t)) (map (fun r => (r.1, take n r.2)) (trows t)).
Definition drop_cols (n : nat) (t : table) : table :=
  mk_table (drop n (tcolumns t)) (map (fun r => (r.1, drop n r.2)) (trows t)).

(** [df[name] = col] for an existing column. *)
Definition set_column_at (i : nat) (col : list cell) (t : table) : table :=
  mk_table (tcolumns t)
           (zip_with (fun r c => (r.1, <[i := c]> r.2)) (trows t) col).

(** ** The Normalizer: [clean_log] *)

(** [df.dropna(how='all')]: drop the rows whose every cell is missing. *)
Definition dropna_all (t : table) : table :=
  mk_table (tcolumns t) (filter (fun r => existsb is_present r.2 = true) (trows t)).

(** [lambda x: str(x).strip().upper()] on a header. *)
Definition clean_header (x : string) : string := py_upper (py_strip x).

(** [s.str.strip('()[]').str.upper()] on one value of a [str] series:
    values that are not [str] become [NaN]. *)
Definition clean_unit_cell (c : cell) : cell :=
  match c with
  | Text s => Text (py_upper (py_strip_chars "()[]" s))
  | _ => Missing
  end.

(** The [.str] accessor on the row [df.iloc[0]]: pandas refuses it with
    [AttributeError] when the row holds floats and no [str]. *)
Definition clean_units_row (row : list cell) : result (list cell) :=
  if existsb is_text row || negb (existsb is_num row)
  then Ok (map clean_unit_cell row)
  else Err AttributeError.

(** [clean_log]: drop empty rows, clean the headers, clean the first
    remaining row (the units row); [IndexError] when no row is left. *)
Definition clean_log (t : table) : result table :=
  let t1 := dropna_all t in
  let cols := map clean_header (tcolumns t1) in
  match trows t1 with
  | [] => Err IndexError
  | (lbl, r0) :: rest =>
      r0' ← clean_units_row r0;
      Ok (mk_table cols ((lbl, r0') :: rest))
  end.

End Table.

Arguments is_present {F} c.

Section TableLemmas.
Context {F : Type} `{FloatModel F}.

Lemma length_column_at i (t : table F) : length (column_at i t) = length (trows t).
Proof. apply length_map. Qed.

(** Writing a column back and reading it again gives the written column. *)
Lemma column_at_set_column_at i (col : list (cell F)) (t : table F) :
  Forall (fun r => i < length r.2) (trows t) -> length col = length (trows t) ->
  column_at i (set_column_at i col t) = col.
Proof.
  unfold column_at, set_column_at. simpl. revert col.
  induction (trows t) as [|r rs IH]; intros [|c col] Hlen Hcol; simpl in *; try done.
  apply Forall_cons in Hlen as [Hr Hrs].
  rewrite list_lookup_insert_eq by done. simpl. f_equal. apply IH; [done | lia].
Qed.

Lemma column_at_set_column_at_ne i j (col : list (cell F)) (t : table F) :
  i <> j -> length col = length (trows t) ->
  column_at j (set_column_at i col t) = column_at j t.
Proof.
  unfold column_at, set_column_at. simpl. intros Hne. revert col.
  induction (trows t) as [|r rs IH]; intros [|c col] Hlen; simpl in *; try done.
  rewrite list_lookup_insert_ne by done. f_equal. apply IH. lia.
Qed.

Lemma col_index_lt name i (t : table F) : col_index name t = Some i -> i < ncols t.
Proof.
  unfold col_index, ncols. destruct (list_find _ _) as [[j x]|] eqn:E; simpl; [|done].
  intros [= <-]. apply list_find_Some in E as (Hj & _). by eapply lookup_lt_Some.
Qed.

Lemma table_wf_col_lt name i (t : table F) :
  table_wf t -> col_index name t = Some i -> Forall (fun r => i < length r.2) (trows t).
Proof.
  intros [Hrows _] Hi%col_index_lt. eapply Forall_impl; [exact Hrows|]. simpl. lia.
Qed.

Lemma set_column_at_columns i (col : list (cell F)) (t : table F) :
  tcolumns (set_column_at i col t) = tcolumns t.
Proof. done. Qed.

End TableLemmas.

(** ** What [clean_log] guarantees *)

Section CleanLog.
Context {F : Type} `{FloatModel F}.

Lemma Forall_filter_sat {A} (P : A -> Prop) `{!forall x, Decision (P x)} (l : list A) :
  Forall P (filter P l).
Proof. rewrite Forall_forall. by intros x [? _]%list_elem_of_filter. Qed.

(** A units row that held a value still holds one once cleaned. *)
Lemma clean_units_row_present (r r' : list (cell F)) :
  existsb is_present r = true -> clean_units_row r = Ok r' -> existsb is_present r' = true.
Proof.
  unfold clean_units_row. intros Hp. destruct (existsb is_text r) eqn:Ht; simpl.
  - intros [= <-]. apply existsb_exists in Ht as ([] & Hin & ?); try done.
    apply existsb_exists. eexists. split; [apply in_map, Hin | done].
  - destruct (existsb is_num r) eqn:Hn; [done|]. exfalso.
    apply existsb_exists in Hp as ([|s|x] & Hin & ?); try done.
    + apply Bool.not_true_iff_false in Ht. apply Ht, existsb_exists. by exists (Text s).
    + apply Bool.not_true_iff_false in Hn. apply Hn, existsb_exists. by exists (Num x).
Qed.

(** The rows [dropna(how='all')] keeps. *)
Abbreviation kept_rows t := (filter (fun r : nat * list (cell F) => existsb is_present r.2 = true) (trows t)).


(** C25: [clean_log] raises exactly in two cases: [IndexError] when every
    row is empty, [AttributeError] when the first row left holds a
    number and no [str]. *)
Theorem clean_log_err_iff (t : table F) e :
  clean_log t = Err e <->
  (kept_rows t = [] /\ e = IndexError) \/
  (exists lbl r0 rest, kept_rows t = (lbl, r0) :: rest /\
     existsb is_text r0 = false /\ existsb is_num r0 = true /\ e = AttributeError).
Proof.
  unfold clean_log, clean_units_row. simpl. destruct (kept_rows t) as [|[lbl r0] rest].
  - split; [intros [= <-]; by left|]. by intros [[_ ->]|(? & ? & ? & ? & _)].
  - destruct (existsb is_text r0) eqn:Ht, (existsb is_num r0) eqn:Hn; simpl; split.
    all: first [ intros Heq; discriminate Heq
               | intros Heq; injection Heq as <-; right; by exists lbl, r0, rest
               | intros [[Hk _]|(? & ? & ? & [= -> -> ->] & Ht' & Hn' & ->)];
                 first [discriminate Hk | congruence | done] ].
Qed.

(** C20: after [clean_log] no row is all missing: [dropna] removed those,
    and cleaning the units row keeps one of its values. *)
Theorem clean_log_no_empty_rows (t t' : table F) :
  clean_log t = Ok t' -> Forall (fun r => existsb is_present r.2 = true) (trows t').
Proof.
  unfold clean_log. pose proof (Forall_filter_sat (fun r : nat * list (cell F) => existsb is_present r.2 = true)
                                 (trows t)) as Hall.
  change (filter _ (trows t)) with (trows (dropna_all t)) in Hall.
  destruct (trows (dropna_all t)) as [|[lbl r0] rest] eqn:Hrows; [done|].
  destruct (clean_units_row r0) as [r0'|] eqn:Hr0; [|done]. intros [= <-].
  apply Forall_cons in Hall as [Hr Hrest]. simpl. constructor; [|done].
  by eapply clean_units_row_present.
Qed.

End CleanLog.

(** ** Concrete tables *)

From Stdlib Require Import QArith Qcanon.
Open Scope nat_scope.

(** A file with untrimmed lower-case headers, bracketed units and an
    empty line. *)
Definition raw_log : table Qc :=
  mk_table [" depth "; "gr"]
    [(0, [Text "(m)"; Text "[api]"]); (1, [Missing; Missing]); (2, [Text "100.0"; Text "10"])]%string.

Lemma clean_log_no_empty_rows_witness :
  let t' := result_default raw_log (clean_log raw_log) in
  clean_log raw_log = Ok t' /\ Forall (fun r => existsb is_present r.2 = true) (trows t').
Proof.
  intros t'. assert (clean_log raw_log = Ok t') as Hrun by reflexivity.
  split; [exact Hrun | exact (clean_log_no_empty_rows _ _ Hrun)].
Defined.
