(* ===== verification/Report.v ===== *)
(** * The Report and the state of the [CoreQC] object

    [raise_warning] and [raise_error] (CoreQC.py lines 332-342) format a
    message and append it to [self.warnings] or [self.errors]; nothing ever
    removes an entry (the lists are reset only at the start of [main]).  A
    notice keeps the five arguments of the call, and [render_notice] gives
    the text the code builds.  The fields of the object that the QC methods
    read and write are the record [qc_state]; a method is a computation of
    [st qc_state] (state and Python exceptions, from the prelude). *)

From S2P Require Import Prelude Num Table.

Inductive severity : Type := SevWarning | SevError.

#[export] Instance severity_eq_dec : EqDecision severity.
Proof. solve_decision. Defined.

(** The arguments of one [raise_warning] or [raise_error] call. *)
Record notice (F : Type) : Type := mk_notice {
  n_severity : severity;
  n_item : string;
  n_value : cell F;
  n_type : string;
  n_message : string;
}.
Arguments mk_notice {F} n_severity n_item n_value n_type n_message.
Arguments n_severity {F} _.
Arguments n_item {F} _.
Arguments n_value {F} _.
Arguments n_type {F} _.
Arguments n_message {F} _.

(** The fields of the object that the QC pipeline uses. *)
Record qc_state (F : Type) : Type := mk_qc_state {
  log_df : table F;
  lab_name : cell F;
  test_type : cell F;
  invalid_testtype : bool;
  sample_type : cell F;
  test_date : cell F;
  warnings : list (notice F);
  errors : list (notice F);
}.
Arguments mk_qc_state {F}.
Arguments log_df {F} _.
Arguments lab_name {F} _.
Arguments test_type {F} _.
Arguments invalid_testtype {F} _.
Arguments sample_type {F} _.
Arguments test_date {F} _.
Arguments warnings {F} _.
Arguments errors {F} _.

Section Report.
Context {F : Type} `{FloatModel F}.
Abbreviation cell := (cell F).
Abbreviation state := (qc_state F).

Definition set_warnings (w : list (notice F)) (s : state) : state :=
  mk_qc_state (log_df s) (lab_name s) (test_type s) (invalid_testtype s)
              (sample_type s) (test_date s) w (errors s).

Definition set_errors (e : list (notice F)) (s : state) : state :=
  mk_qc_state (log_df s) (lab_name s) (test_type s) (invalid_testtype s)
              (sample_type s) (test_date s) (warnings s) e.

Definition set_log_df (df : table F) (s : state) : state :=
  mk_qc_state df (lab_name s) (test_type s) (invalid_testtype s)
              (sample_type s) (test_date s) (warnings s) (errors s).

Definition set_invalid_testtype (b : bool) (s : state) : state :=
  mk_qc_state (log_df s) (lab_name s) (test_type s) b
              (sample_type s) (test_date s) (warnings s) (errors s).

(** [self.lab_name = lab_name; self.test_type = test_type; ...] (lines 227-230). *)
Definition set_identity (lab tt sample date : cell) (s : state) : state :=
  mk_qc_state (log_df s) lab tt (invalid_testtype s) sample date (warnings s) (errors s).

(** [raise_warning(item, value, type='value', message='is not recognized')] *)
Definition raise_warning (item : string) (value : cell) (type : string) (message : string)
    : st state unit :=
  st_modify (fun s => set_warnings (warnings s ++ [mk_notice SevWarning item value type message]) s).

(** [raise_error(item, value, type='value', message='is invalid')] *)
Definition raise_error (item : string) (value : cell) (type : string) (message : string)
    : st state unit :=
  st_modify (fun s => set_errors (errors s ++ [mk_notice SevError item value type message]) s).

(** The f-strings of lines 334 and 340, given how a float is printed. *)
Definition render_notice (show : F -> string) (n : notice F) : string :=
  let v := match n_value n with Text s => s | Missing => "nan" | Num x => show x end in
  match n_severity n with
  | SevWarning => "WARNING:   " +:+ n_item n +:+ " " +:+ v +:+ " " +:+ n_type n +:+ " " +:+ n_message n +:+ "."
  | SevError => "ERROR:      " +:+ n_item n +:+ " " +:+ v +:+ " " +:+ n_type n +:+ " " +:+ n_message n +:+ "!"
  end%string.

(** The report only grows: the old warnings and errors are a prefix of
    the new ones. *)
Definition report_extends (s s' : state) : Prop :=
  (exists w, warnings s' = warnings s ++ w) /\ (exists e, errors s' = errors s ++ e).

(** A method that changes nothing but the report, appending warnings that
    satisfy [Pw] and errors that satisfy [Pe]. *)
Definition only_appends {A} (Pw Pe : notice F -> Prop) (m : st state A) : Prop :=
  forall s a s', m s = Ok (a, s') ->
  exists (w e : list (notice F)),
    s' = set_errors (errors s ++ e) (set_warnings (warnings s ++ w) s) /\
    Forall Pw w /\ Forall Pe e.

Lemma set_errors_warnings_nil (s : state) :
  set_errors (errors s ++ []) (set_warnings (warnings s ++ []) s) = s.
Proof. destruct s; unfold set_errors, set_warnings; simpl; by rewrite !app_nil_r. Qed.

Lemma only_appends_ret {A} Pw Pe (a : A) : only_appends Pw Pe (mret a).
Proof.
  intros s a' s' [= _ <-]. exists [], []. split; [|done]. by rewrite set_errors_warnings_nil.
Qed.

Lemma only_appends_get Pw Pe : only_appends Pw Pe st_get.
Proof.
  intros s a' s' [= _ <-]. exists [], []. split; [|done]. by rewrite set_errors_warnings_nil.
Qed.

Lemma only_appends_lift {A} Pw Pe (m : result A) : only_appends Pw Pe (st_lift m).
Proof.
  intros s a s' Hm. unfold st_lift in Hm. destruct m; [|done]. injection Hm as _ <-.
  exists [], []. split; [|done]. by rewrite set_errors_warnings_nil.
Qed.

Lemma only_appends_bind {A B} Pw Pe (m : st state A) (f : A -> st state B) :
  only_appends Pw Pe m -> (forall a, only_appends Pw Pe (f a)) -> only_appends Pw Pe (m ≫= f).
Proof.
  intros Hm Hf s b s'' Hrun. unfold mbind, st_bind in Hrun.
  destruct (m s) as [[a s']|] eqn:E; [|done].
  destruct (Hm _ _ _ E) as (w1 & e1 & -> & Hw1 & He1).
  destruct (Hf _ _ _ _ Hrun) as (w2 & e2 & -> & Hw2 & He2).
  exists (w1 ++ w2), (e1 ++ e2). split; [|split; by apply Forall_app].
  destruct s; unfold set_errors, set_warnings; simpl. by rewrite !app_assoc.
Qed.

Lemma only_appends_forM {A} Pw Pe (xs : list A) (body : A -> st state unit) :
  (forall x, x ∈ xs -> only_appends Pw Pe (body x)) -> only_appends Pw Pe (st_forM xs body).
Proof.
  induction xs as [|x xs IH]; intros Hbody; simpl; [apply only_appends_ret|].
  apply only_appends_bind; [apply Hbody; left|]. intros _. apply IH.
  intros y Hy. apply Hbody. by right.
Qed.

Lemma only_appends_warning (Pw Pe : notice F -> Prop) item value type message :
  Pw (mk_notice SevWarning item value type message) ->
  only_appends Pw Pe (raise_warning item value type message).
Proof.
  intros HP s a s' [= _ <-]. exists [mk_notice SevWarning item value type message], [].
  split; [|split; [by constructor | done]].
  destruct s; unfold set_errors, set_warnings; simpl. by rewrite app_nil_r.
Qed.

Lemma only_appends_error (Pw Pe : notice F -> Prop) item value type message :
  Pe (mk_notice SevError item value type message) ->
  only_appends Pw Pe (raise_error item value type message).
Proof.
  intros HP s a s' [= _ <-]. exists [], [mk_notice SevError item value type message].
  split; [|split; [done | by constructor]].
  destruct s; unfold set_errors, set_warnings; simpl. by rewrite app_nil_r.
Qed.

(** Appending only is a particular way of extending the report. *)
Lemma only_appends_extends {A} Pw Pe (m : st state A) s a s' :
  only_appends Pw Pe m -> m s = Ok (a, s') -> report_extends s s'.
Proof.
  intros Hm Hrun. destruct (Hm _ _ _ Hrun) as (w & e & -> & _ & _).
  split; [exists w | exists e]; by destruct s.
Qed.

(** A method that changes nothing but the error list, appending at most
    [k] errors that satisfy [Pe]. *)
Definition errors_grow_by {A} (Pe : notice F -> Prop) (k : nat) (m : st state A) : Prop :=
  forall s a s', m s = Ok (a, s') ->
  exists e, s' = set_errors (errors s ++ e) s /\ Forall Pe e /\ length e <= k.

Lemma set_errors_twice (s : state) e1 e2 :
  set_errors (errors (set_errors (errors s ++ e1) s) ++ e2) (set_errors (errors s ++ e1) s) =
  set_errors (errors s ++ e1 ++ e2) s.
Proof. destruct s; unfold set_errors; simpl. by rewrite app_assoc. Qed.

Lemma set_errors_nil (s : state) : set_errors (errors s ++ []) s = s.
Proof. destruct s; unfold set_errors; simpl. by rewrite app_nil_r. Qed.

Lemma raise_warning_Ok item value type message (s : state) a s' :
  raise_warning item value type message s = Ok (a, s') <->
  s' = set_warnings (warnings s ++ [mk_notice SevWarning item value type message]) s.
Proof. destruct a. split; [by intros [= ->] | by intros ->]. Qed.

Lemma raise_error_Ok item value type message (s : state) a s' :
  raise_error item value type message s = Ok (a, s') <->
  s' = set_errors (errors s ++ [mk_notice SevError item value type message]) s.
Proof. destruct a. split; [by intros [= ->] | by intros ->]. Qed.

Lemma errors_grow_ret {A} Pe k (x : A) : errors_grow_by Pe k (mret x).
Proof. intros s a s' [_ ->]%st_ret_Ok. exists []. rewrite set_errors_nil. split_and!; [done|done|simpl; lia]. Qed.

Lemma errors_grow_error Pe k item value type message :
  1 <= k -> Pe (mk_notice SevError item value type message) ->
  errors_grow_by Pe k (raise_error item value type message).
Proof. intros Hk HP s a s' ->%raise_error_Ok. eexists. split_and!; [done|by constructor|simpl; lia]. Qed.

Lemma errors_grow_bind {A B} Pe k1 k2 (m : st state A) (f : A -> st state B) :
  errors_grow_by Pe k1 m -> (forall a, errors_grow_by Pe k2 (f a)) ->
  errors_grow_by Pe (k1 + k2) (m ≫= f).
Proof.
  intros Hm Hf s b s'' (a & s' & Hrun1 & Hrun2)%st_bind_Ok.
  destruct (Hm _ _ _ Hrun1) as (e1 & -> & He1 & Hl1).
  destruct (Hf _ _ _ _ Hrun2) as (e2 & -> & He2 & Hl2).
  exists (e1 ++ e2). rewrite set_errors_twice, Forall_app, length_app. split_and!; [done..|lia].
Qed.

Lemma errors_grow_lift {A} Pe k (m : result A) : errors_grow_by Pe k (st_lift m).
Proof. intros s a s' [_ ->]%st_lift_Ok. exists []. rewrite set_errors_nil. split_and!; [done|done|simpl; lia]. Qed.

Lemma errors_grow_forM {A} Pe (xs : list A) (body : A -> st state unit) :
  (forall x, errors_grow_by Pe 1 (body x)) -> errors_grow_by Pe (length xs) (st_forM xs body).
Proof.
  intros Hb. induction xs as [|x xs IH]; simpl; [apply errors_grow_ret|].
  apply (errors_grow_bind _ 1 (length xs)); [apply Hb | intros; apply IH].
Qed.

#[export] Instance report_extends_preorder : PreOrder report_extends.
Proof.
  split.
  - intros s. split; exists []; by rewrite app_nil_r.
  - intros s1 s2 s3 [[w1 Hw1] [e1 He1]] [[w2 Hw2] [e2 He2]].
    split; [exists (w1 ++ w2) | exists (e1 ++ e2)]; by rewrite app_assoc, <- ?Hw1, <- ?He1.
Qed.

(** A method after which the report extends the one before. *)
Definition keeps_report {A} (m : st state A) : Prop :=
  forall s a s', m s = Ok (a, s') -> report_extends s s'.

Lemma keeps_report_bind {A B} (m : st state A) (f : A -> st state B) :
  keeps_report m -> (forall a, keeps_report (f a)) -> keeps_report (m ≫= f).
Proof.
  intros Hm Hf s b s'' (a & s' & H1 & H2)%st_bind_Ok. etrans; [by eapply Hm | by eapply Hf].
Qed.

Lemma keeps_report_ret {A} (x : A) : keeps_report (mret x).
Proof. intros s a s' [_ ->]%st_ret_Ok. reflexivity. Qed.

Lemma keeps_report_get : keeps_report st_get.
Proof. intros s a s' [_ ->]%st_get_Ok. reflexivity. Qed.

Lemma keeps_report_lift {A} (m : result A) : keeps_report (st_lift m).
Proof. intros s a s' [_ ->]%st_lift_Ok. reflexivity. Qed.

(** A change of the other fields keeps the report. *)
Lemma keeps_report_modify (f : state -> state) :
  (forall s, warnings (f s) = warnings s /\ errors (f s) = errors s) -> keeps_report (st_modify f).
Proof.
  intros Hf s a s' ->%st_modify_Ok. destruct (Hf s) as [Hw He].
  split; [exists [] | exists []]; by rewrite app_nil_r.
Qed.

Lemma only_appends_keeps {A} Pw Pe (m : st state A) : only_appends Pw Pe m -> keeps_report m.
Proof. intros Hm s a s' Hrun. by eapply only_appends_extends. Qed.

(** ** The report of the spec: one sequence of records in arrival order *)

Definition is_warning (n : notice F) : bool :=
  match n_severity n with SevWarning => true | SevError => false end.

(** Report one record: [raise_warning] or [raise_error] by its severity. *)
Definition emit (n : notice F) : st state unit :=
  match n_severity n with
  | SevWarning => raise_warning (n_item n) (n_value n) (n_type n) (n_message n)
  | SevError => raise_error (n_item n) (n_value n) (n_type n) (n_message n)
  end.

(** The abstraction from the object's two lists to the spec's sequence:
    the warnings and the errors are the sequence split by severity. *)
Definition report_abs (r : list (notice F)) (s : state) : Prop :=
  warnings s = List.filter is_warning r /\ errors s = List.filter (fun n => negb (is_warning n)) r.

Lemma emit_run n s :
  emit n s = Ok (tt, set_errors (errors s ++ List.filter (fun n => negb (is_warning n)) [n])
                      (set_warnings (warnings s ++ List.filter is_warning [n]) s)).
Proof. destruct s, n as [[] ? ? ? ?]; unfold emit, set_errors, set_warnings; simpl; by rewrite ?app_nil_r. Qed.

End Report.

#[export] Hint Resolve only_appends_ret only_appends_get only_appends_lift
  only_appends_bind only_appends_forM : coreqc.
#[export] Hint Resolve keeps_report_bind keeps_report_ret keeps_report_get keeps_report_lift
  only_appends_keeps : coreqc.

Section Refinement.
Context {F : Type} `{FloatModel F}.

(** C18: reporting a sequence of records one by one refines the spec's
    report: from a state whose two lists are the split of [r], the run
    appends each record to the list of its severity and leaves the other
    fields alone, so the new lists are the split of [r ++ ns]. *)
Theorem emit_refines (r ns : list (notice F)) (s : qc_state F) :
  report_abs r s ->
  exists s', st_forM ns emit s = Ok (tt, s') /\ report_abs (r ++ ns) s' /\
    s' = set_errors (errors s' ) (set_warnings (warnings s') s).
Proof.
  revert r s; induction ns as [|n ns IH]; intros r s [Hw He]; simpl.
  - exists s. rewrite app_nil_r. split_and!; [done|done|by destruct s].
  - destruct (IH (r ++ [n]) (set_errors (errors s ++ List.filter (fun n => negb (is_warning n)) [n])
                               (set_warnings (warnings s ++ List.filter is_warning [n]) s)))
      as (s' & Hrun & [Hw' He'] & Hs').
    { unfold set_errors, set_warnings. split; cbn [warnings errors]; rewrite List.filter_app; congruence. }
    exists s'. rewrite <- app_assoc in Hw', He'. split_and!; [|by split|].
    + apply st_bind_Ok. eexists tt, _. split; [apply emit_run | exact Hrun].
    + rewrite Hs'. by destruct s.
Qed.



End Refinement.

Lemma emit_refines_witness :
  let s := mk_qc_state (mk_table [] []) Missing Missing false Missing Missing [] [] : qc_state unit in
  let w := mk_notice SevWarning "CREP_LAB_NAME" Missing "value" "is not recognized" in
  let e := mk_notice SevError "CREP_TESTTYPE" Missing "value" "is invalid" in
  report_abs [] s /\
  exists s', st_forM [w; e] emit s = Ok (tt, s') /\ report_abs ([] ++ [w; e]) s' /\
    s' = set_errors (errors s') (set_warnings (warnings s') s).
Proof.
  intros s w e. assert (report_abs [] s) as Habs by done.
  split; [exact Habs | exact (emit_refines [] [w; e] s Habs)].
Defined.

