(* ===== verification/Settings.v ===== *)
(** * The settings: [load_settings] (CoreQC.py lines 97-126)

    The constants [load_settings] stores on the object (lines 120-124):
    the number of metadata columns, the width above which a log is split,
    the width of a split part and the log file extension.  The schema
    catalog read from [QC_Settings.xlsx] (the GENERAL and TEMPLATE sheets
    and one mnemonic sheet per test type): the upper-casing of MNEMONIC
    and UNIT, the warning and [drop_duplicates] of a sheet with repeated
    mnemonics, [set_index], and [load_settings] over the parsed workbook. *)

From S2P Require Import Prelude Num Table Report.

(** [self.metadata_cols = 7] *)
Definition metadata_cols : nat := 7.
(** [self.data_col_cap = 10] *)
Definition data_col_cap : nat := 10.
(** [self.data_cols_segment = 8] *)
Definition data_cols_segment : nat := 8.
(** [self.log_indicator = '.CSV'] *)
Definition log_indicator : string := ".CSV".

(** Keep the constants folded under [simpl]; they still compute. *)
#[global] Arguments metadata_cols : simpl never.
#[global] Arguments data_col_cap : simpl never.
#[global] Arguments data_cols_segment : simpl never.

(** ** The schema catalog *)

(** One row of a test-type sheet: the columns MNEMONIC, UNIT, MIN, MAX
    (MIN and MAX are numbers or empty). *)
Record mnem_row (F : Type) : Type := mk_mnem_row {
  r_mnemonic : string;
  r_unit : cell F;
  r_min : option F;
  r_max : option F;
}.
Arguments mk_mnem_row {F}.
Arguments r_mnemonic {F} _.
Arguments r_unit {F} _.
Arguments r_min {F} _.
Arguments r_max {F} _.

(** What [mnems.loc[colx, ...]] returns for a mnemonic. *)
Record mnem_entry (F : Type) : Type := mk_mnem_entry {
  m_unit : cell F;
  m_min : option F;
  m_max : option F;
}.
Arguments mk_mnem_entry {F}.
Arguments m_unit {F} _.
Arguments m_min {F} _.
Arguments m_max {F} _.

(** The settings the validators read: the GENERAL sheet's three lists of
    accepted values, the TEMPLATE sheet's header and first row (the
    units), and the mnemonic table of each test-type sheet. *)
Record settings (F : Type) : Type := mk_settings {
  general_lab_name : list (cell F);
  general_test_type : list (cell F);
  general_sample_type : list (cell F);
  template_columns : list string;
  template_units : list (cell F);
  mnemonics : gmap string (gmap string (mnem_entry F));
}.
Arguments mk_settings {F}.
Arguments general_lab_name {F} _.
Arguments general_test_type {F} _.
Arguments general_sample_type {F} _.
Arguments template_columns {F} _.
Arguments template_units {F} _.
Arguments mnemonics {F} _.

Section Catalog.
Context {F : Type} `{FloatModel F}.

(** [df['MNEMONIC'].str.upper()] and [df['UNIT'].str.upper()] on one row. *)
Definition upper_row (r : mnem_row F) : mnem_row F :=
  mk_mnem_row (py_upper (r_mnemonic r))
              (match r_unit r with Text u => Text (py_upper u) | _ => Missing end)
              (r_min r) (r_max r).

(** [df.drop_duplicates(subset='MNEMONIC')]: keep the first row of each
    mnemonic, in order. *)
Fixpoint drop_duplicate_mnemonics (seen : list string) (rows : list (mnem_row F)) : list (mnem_row F) :=
  match rows with
  | [] => []
  | r :: rs =>
      if decide (r_mnemonic r ∈ seen) then drop_duplicate_mnemonics seen rs
      else r :: drop_duplicate_mnemonics (r_mnemonic r :: seen) rs
  end.

(** [df.set_index('MNEMONIC')] on rows with distinct mnemonics. *)
Definition index_mnemonics (rows : list (mnem_row F)) : gmap string (mnem_entry F) :=
  list_to_map ((fun r => (r_mnemonic r, mk_mnem_entry (r_unit r) (r_min r) (r_max r))) <$> rows).

(** [df['UNIT'].str] exists when the column holds a [str], or when the
    sheet has no row (an empty [object] column); a UNIT column of numbers
    or blanks only is a [float] column, and [.str] raises [AttributeError]. *)
Definition unit_column_has_str (rows : list (mnem_row F)) : bool :=
  bool_decide (rows = []) || existsb (fun r => is_text (r_unit r)) rows.

(** The body of the loop over the test-type sheets (lines 107-114). *)
Definition load_mnemonic_sheet (sheet : string) (rows : list (mnem_row F))
    : st (qc_state F) (gmap string (mnem_entry F)) :=
  if negb (unit_column_has_str rows) then st_raise AttributeError else
  let rows := upper_row <$> rows in
  if bool_decide (NoDup (r_mnemonic <$> rows)) then mret (index_mnemonics rows)
  else
    _ ← raise_warning sheet (Text "mnemonic are not unique in QC_Settings.xlsx") "" "";
    mret (index_mnemonics (drop_duplicate_mnemonics [] rows)).

(** [for sheet in xl.sheet_names[2:]: ... mnemonics[sheet] = df] *)
Fixpoint load_mnemonics (sheets : list (string * list (mnem_row F)))
    (acc : gmap string (gmap string (mnem_entry F)))
    : st (qc_state F) (gmap string (gmap string (mnem_entry F))) :=
  match sheets with
  | [] => mret acc
  | (name, rows) :: rest =>
      m ← load_mnemonic_sheet name rows;
      load_mnemonics rest (<[name := m]> acc)
  end.

(** The parsed workbook [QC_Settings.xlsx]: the columns LAB_NAME,
    TEST_TYPE and SAMPLE_TYPE of the GENERAL sheet, the TEMPLATE sheet's
    header and first row, and the rows of the sheets after the second. *)
Record workbook : Type := mk_workbook {
  wb_lab_name : list (cell F);
  wb_test_type : list (cell F);
  wb_sample_type : list (cell F);
  wb_template_columns : list string;
  wb_template_units : list (cell F);
  wb_sheets : list (string * list (mnem_row F));
}.

(** [load_settings]: the catalog, and the warnings of the mnemonic sheets;
    the constants of lines 120-124 are the definitions above. *)
Definition load_settings (wb : workbook) : st (qc_state F) (settings F) :=
  mnems ← load_mnemonics (wb_sheets wb) ∅;
  mret (mk_settings (wb_lab_name wb) (wb_test_type wb) (wb_sample_type wb)
                    (wb_template_columns wb) (wb_template_units wb) mnems).

End Catalog.

Arguments workbook F : clear implicits.

(** ** What the catalog holds *)

Section CatalogLemmas.
Context {F : Type}.

(** The first row of a sheet that names a mnemonic: what the spec's
    dictionary gives for it. *)
Fixpoint first_row (k : string) (rows : list (mnem_row F)) : option (mnem_row F) :=
  match rows with
  | [] => None
  | r :: rs => if String.eqb (r_mnemonic r) k then Some r else first_row k rs
  end.

Definition entry_of (r : mnem_row F) : mnem_entry F := mk_mnem_entry (r_unit r) (r_min r) (r_max r).

(** [list_to_map] keeps the first binding of a key. *)
Lemma index_mnemonics_lookup (rows : list (mnem_row F)) k :
  index_mnemonics rows !! k = entry_of <$> first_row k rows.
Proof.
  induction rows as [|r rs IH]; [done|]. unfold index_mnemonics in *. simpl.
  destruct (String.eqb_spec (r_mnemonic r) k) as [<-|Hne].
  - by rewrite lookup_insert_eq.
  - by rewrite lookup_insert_ne by done.
Qed.

(** Dropping the later rows of a mnemonic keeps the first row of every
    mnemonic not yet seen. *)
Lemma first_row_drop_duplicates seen (rows : list (mnem_row F)) k :
  k ∉ seen -> first_row k (drop_duplicate_mnemonics seen rows) = first_row k rows.
Proof.
  revert seen; induction rows as [|r rs IH]; intros seen Hk; [done|]. simpl.
  case_decide as Hseen.
  - destruct (String.eqb (r_mnemonic r) k) eqn:E; [|by apply IH].
    apply String.eqb_eq in E. subst k. done.
  - cbn [first_row]. destruct (String.eqb (r_mnemonic r) k) eqn:E; [done|].
    apply String.eqb_neq in E. apply IH. rewrite elem_of_cons. by intros [->|?].
Qed.

(** C31: the mnemonic table [load_settings] builds for a sheet gives, for
    every mnemonic, the unit, MIN and MAX of the first row that names it
    once upper-cased; the sheet adds the not-unique warning exactly when
    two rows name the same mnemonic, and changes nothing else. *)
Theorem load_mnemonic_sheet_spec sheet (rows : list (mnem_row F)) (s : qc_state F) m s' :
  load_mnemonic_sheet sheet rows s = Ok (m, s') ->
  (forall k, m !! k = entry_of <$> first_row k (upper_row <$> rows)) /\
  s' = if bool_decide (NoDup (r_mnemonic <$> (upper_row <$> rows))) then s
       else set_warnings (warnings s ++ [mk_notice SevWarning sheet
                (Text "mnemonic are not unique in QC_Settings.xlsx") "" ""]) s.
Proof.
  unfold load_mnemonic_sheet. destruct (unit_column_has_str rows); [simpl|done]. case_bool_decide.
  - intros [= <- <-]. split; [apply index_mnemonics_lookup | done].
  - intros (? & s1 & ->%raise_warning_Ok & [= <- <-])%st_bind_Ok. split; [|done].
    intros k. rewrite index_mnemonics_lookup. f_equal. apply first_row_drop_duplicates, not_elem_of_nil.
Qed.

End CatalogLemmas.

Lemma load_mnemonic_sheet_spec_witness :
  let rows := [mk_mnem_row "gr" (Text "api") None None; mk_mnem_row "GR" (Text "gapi") None None;
               mk_mnem_row "RHOB" (Text "g/cc") None None]%string : list (mnem_row unit) in
  let s := mk_qc_state (mk_table [] []) Missing Missing false Missing Missing [] [] in
  let r := result_default (∅, s) (load_mnemonic_sheet "GAMMA" rows s) in
  load_mnemonic_sheet "GAMMA" rows s = Ok (r.1, r.2) /\
  ((forall k, r.1 !! k = entry_of <$> first_row k (upper_row <$> rows)) /\
   r.2 = if bool_decide (NoDup (r_mnemonic <$> (upper_row <$> rows))) then s
         else set_warnings (warnings s ++ [mk_notice SevWarning "GAMMA"
                (Text "mnemonic are not unique in QC_Settings.xlsx") "" ""]) s).
Proof.
  intros rows s r. assert (load_mnemonic_sheet "GAMMA" rows s = Ok (r.1, r.2)) as Hrun by reflexivity.
  split; [exact Hrun | exact (load_mnemonic_sheet_spec _ _ _ _ _ Hrun)].
Defined.
