(* ===== verification/Depth.v ===== *)
(** * The DepthResolver: [qc_depth] (CoreQC.py lines 283-295)

    [qc_depth] computes the mask [df['DEPTH'].notna() & df['DEPTH'].duplicated()]
    (a value is flagged when it is present and equal, as a Python object,
    to an earlier value of the column), then, while the mask has a [True],
    replaces every flagged value [v] by [float(v) + 0.00001] and recomputes
    the mask.  The model keeps the column as cells: the units row (row 0)
    is part of the column, a value read from the file is a [str] in an
    [object] column and becomes a [float] when it is first bumped, and a
    [str] never equals a [float].  The assignment of line 292 is taken to
    write through to [df] (pandas before Copy-on-Write).  The [while] loop
    is [resolve_depth] with fuel; [depth_fuel] is a bound proved
    sufficient for an exact arithmetic ([FloatLaws]) only: under binary64
    the loop can run forever. *)

From S2P Require Import Prelude Num Table.

Section Depth.
Context {F : Type} `{FloatModel F}.
Abbreviation cell := (cell F).
Abbreviation table := (table F).

(** ** The operations *)

(** [s.duplicated(keep='first')] masked by [s.notna()], with the values
    already seen passed along. *)
Fixpoint dup_mask_from (seen : list cell) (col : list cell) : list bool :=
  match col with
  | [] => []
  | c :: col' => (is_present c && py_in c seen) :: dup_mask_from (c :: seen) col'
  end.

Definition duplicated (col : list cell) : list bool := dup_mask_from [] col.

(** [duplicated.any()]. *)
Definition any_dup (col : list cell) : bool := existsb id (duplicated col).

(** [duplicated.sum()]: the number printed before the loop. *)
Definition count_dup (col : list cell) : nat := length (List.filter id (duplicated col)).

(** [.astype(float) + 0.00001] on one selected value: a [str] that does
    not parse makes [astype] raise [ValueError]. *)
Definition bump_cell (c : cell) : result cell :=
  match c with
  | Text s =>
      match py_float s with
      | Some x => Ok (Num (f_add x depth_inc))
      | None => Err ValueError
      end
  | Num x => Ok (Num (f_add x depth_inc))
  | Missing => Ok Missing
  end.

(** [df['DEPTH'].loc[duplicated] = df['DEPTH'].loc[duplicated].astype(float) + 0.00001] *)
Definition bump_duplicated (col : list cell) : result (list cell) :=
  mapM_res (fun '(d, c) => if d : bool then bump_cell c else Ok c)
           (zip (duplicated col) col).

(** [while duplicated.any(): ...] with fuel; out of fuel is [NotConverged]. *)
Fixpoint resolve_depth (fuel : nat) (col : list cell) : result (list cell) :=
  if any_dup col then
    match fuel with
    | O => Err NotConverged
    | S fuel' => col' ← bump_duplicated col; resolve_depth fuel' col'
    end
  else Ok col.

(** Enough fuel for a column of [n] cells (proved in [resolve_depth_terminates]). *)
Definition depth_fuel (col : list cell) : nat := S (length col * length col).

(** [qc_depth]: look up the DEPTH column, resolve it, write it back.
    Returns the count printed on the first pass with the new table. *)
Definition qc_depth (t : table) : result (nat * table) :=
  match col_index "DEPTH" t with
  | None => Err (KeyError "DEPTH")
  | Some i =>
      let col := column_at i t in
      col' ← resolve_depth (depth_fuel col) col;
      Ok (count_dup col, set_column_at i col' t)
  end.

(** ** A total version of one pass, used by the proofs *)

(** [bump_cell] where it succeeds; a [str] that does not parse is kept. *)
Definition pbump (c : cell) : cell :=
  match c with
  | Text s => match py_float s with Some x => Num (f_add x depth_inc) | None => c end
  | Num x => Num (f_add x depth_inc)
  | Missing => Missing
  end.

Definition pstep (col : list cell) : list cell :=
  zip_with (fun (d : bool) c => if d then pbump c else c) (duplicated col) col.

(** No present value equals an earlier one. *)
Definition dup_free (col : list cell) : Prop := Forall (fun d => d = false) (duplicated col).

(** A property of every (flag, value) pair of the column. *)
Definition all_flags (f : bool -> cell -> bool) (col : list cell) : bool :=
  forallb (fun '(d, c) => f d c) (zip (duplicated col) col).

(** Every flagged [str] parses as a float: the first pass does not raise. *)
Definition flagged_texts_parse (col : list cell) : bool :=
  all_flags (fun d c =>
    negb d || match c with Text s => bool_decide (is_Some (py_float s)) | _ => true end) col.

(** No flagged value is a [str]. *)
Definition no_flagged_text (col : list cell) : bool :=
  all_flags (fun d c => negb (d && is_text c)) col.

(** The last cell after one pass, given the cells before it. *)
Definition last_step (l : list cell) (c : cell) : cell :=
  if is_present c && py_in c l then pbump c else c.

(** The last cell after [k] passes. *)
Fixpoint chain (l : list cell) (c : cell) (k : nat) : cell :=
  match k with
  | O => c
  | S k' => last_step (Nat.iter k' pstep l) (chain l c k')
  end.

End Depth.

(** ** Structure of one pass: appending a cell at the end *)

Section DepthStructure.
Context {F : Type} `{FloatModel F}.
Abbreviation cell := (cell F).

Lemma py_in_rev (c : cell) l : py_in c (rev l) = py_in c l.
Proof.
  unfold py_in. induction l as [|x l IH]; simpl; [done|].
  rewrite existsb_app, IH. simpl. rewrite orb_false_r. apply orb_comm.
Qed.

Lemma py_in_app (c : cell) l1 l2 : py_in c (l1 ++ l2) = py_in c l1 || py_in c l2.
Proof. apply existsb_app. Qed.

Lemma dup_mask_from_app (seen l r : list cell) :
  dup_mask_from seen (l ++ r) = dup_mask_from seen l ++ dup_mask_from (rev l ++ seen) r.
Proof.
  revert seen; induction l as [|c l IH]; intros seen; simpl; [done|].
  rewrite IH, <- app_assoc. done.
Qed.

Lemma length_dup_mask_from (seen l : list cell) : length (dup_mask_from seen l) = length l.
Proof. revert seen; induction l; intros; simpl; auto. Qed.

Lemma length_duplicated (l : list cell) : length (duplicated l) = length l.
Proof. apply length_dup_mask_from. Qed.

Lemma duplicated_snoc (l : list cell) c :
  duplicated (l ++ [c]) = duplicated l ++ [is_present c && py_in c l].
Proof.
  unfold duplicated. rewrite dup_mask_from_app, app_nil_r. simpl.
  by rewrite py_in_rev.
Qed.

Lemma pstep_snoc (l : list cell) c : pstep (l ++ [c]) = pstep l ++ [last_step l c].
Proof.
  unfold pstep. rewrite duplicated_snoc, zip_with_app; [done|].
  apply length_duplicated.
Qed.

Lemma length_pstep (l : list cell) : length (pstep l) = length l.
Proof. unfold pstep. rewrite length_zip_with, length_duplicated. lia. Qed.

Lemma length_iter_pstep k (l : list cell) : length (Nat.iter k pstep l) = length l.
Proof. induction k; simpl; [done|]. by rewrite length_pstep. Qed.

Lemma all_flags_snoc f (l : list cell) c :
  all_flags f (l ++ [c]) = all_flags f l && f (is_present c && py_in c l) c.
Proof.
  unfold all_flags. rewrite duplicated_snoc.
  rewrite zip_with_app by apply length_duplicated.
  rewrite forallb_app. simpl. by rewrite andb_true_r.
Qed.

Lemma dup_free_snoc (l : list cell) c :
  dup_free (l ++ [c]) <-> dup_free l /\ (is_present c && py_in c l) = false.
Proof.
  unfold dup_free. rewrite duplicated_snoc, Forall_app, Forall_singleton. done.
Qed.

Lemma any_dup_false (l : list cell) : any_dup l = false <-> dup_free l.
Proof.
  unfold any_dup, dup_free. induction (duplicated l) as [|d m IH]; simpl.
  - split; [constructor | done].
  - rewrite orb_false_iff, Forall_cons, IH. unfold id. done.
Qed.

Lemma pstep_dup_free (l : list cell) : dup_free l -> pstep l = l.
Proof.
  induction l as [|c l IH] using rev_ind; intros Hfree; [done|].
  apply dup_free_snoc in Hfree as [Hl Hc].
  rewrite pstep_snoc, IH by done. unfold last_step. by rewrite Hc.
Qed.

Lemma iter_pstep_snoc k (l : list cell) c :
  Nat.iter k pstep (l ++ [c]) = Nat.iter k pstep l ++ [chain l c k].
Proof.
  induction k as [|k IH]; simpl; [done|].
  by rewrite IH, pstep_snoc.
Qed.

End DepthStructure.

(** ** The [str] values of the column: only the first pass can raise *)

Section DepthTexts.
Context {F : Type} `{FloatModel F}.
Abbreviation cell := (cell F).

Lemma pbump_Text (c : cell) s : pbump c = Text s -> c = Text s.
Proof. destruct c as [|s'|x]; simpl; try done. by destruct (py_float s'). Qed.

Lemma py_eq_Text (c : cell) s : py_eq (Text s) c = true <-> c = Text s.
Proof.
  destruct c as [|s'|x]; simpl; try done.
  rewrite String.eqb_eq. naive_solver.
Qed.

Lemma py_in_Text s (l : list cell) : py_in (Text s) l = true <-> Text s ∈ l.
Proof.
  unfold py_in. rewrite existsb_exists, list_elem_of_In. split.
  - intros (c & Hin & Hc%py_eq_Text). by subst.
  - intros Hin. exists (Text s). split; [done|]. by apply py_eq_Text.
Qed.

(** A [str] left after a pass was already in the column. *)
Lemma text_in_pstep s (l : list cell) : Text s ∈ pstep l -> Text s ∈ l.
Proof.
  unfold pstep. intros (d & c & Heq & _ & Hc)%elem_of_zip_with.
  destruct d; [symmetry in Heq; apply pbump_Text in Heq|]; by subst.
Qed.

(** The monadic pass computes [pstep] when no flagged [str] fails to parse. *)
Lemma mapM_bump_zip (m : list bool) (l : list cell) :
  forallb (fun '(d, c) =>
             negb d || match c with Text s => bool_decide (is_Some (py_float s)) | _ => true end)
          (zip m l) = true ->
  mapM_res (fun '(d, c) => if d : bool then bump_cell c else Ok c) (zip m l)
  = Ok (zip_with (fun (d : bool) c => if d then pbump c else c) m l).
Proof.
  revert l; induction m as [|d m IH]; intros [|c l] Hok; simpl in *; try done.
  apply andb_prop in Hok as [Hc Hrest]. rewrite (IH l Hrest).
  destruct d; simpl; [|done].
  destruct c as [|s|x]; simpl; try done.
  destruct (py_float s); [done|]. by compute in Hc.
Qed.

Lemma bump_duplicated_pstep (col : list cell) :
  flagged_texts_parse col = true -> bump_duplicated col = Ok (pstep col).
Proof. apply mapM_bump_zip. Qed.

Lemma all_flags_impl (f g : bool -> cell -> bool) (col : list cell) :
  (forall d c, f d c = true -> g d c = true) ->
  all_flags f col = true -> all_flags g col = true.
Proof.
  intros Hfg. unfold all_flags. rewrite !forallb_forall.
  intros Hf [d c] Hin. apply Hfg, (Hf (d, c) Hin).
Qed.

Lemma flagged_texts_parse_no_text (col : list cell) :
  no_flagged_text col = true -> flagged_texts_parse col = true.
Proof.
  apply all_flags_impl. intros [] [|s|x]; simpl; done.
Qed.

(** After a pass that does not raise, no flagged value is a [str]. *)
Lemma no_flagged_text_pstep (col : list cell) :
  flagged_texts_parse col = true -> no_flagged_text (pstep col) = true.
Proof.
  unfold flagged_texts_parse, no_flagged_text.
  induction col as [|c l IH] using rev_ind; intros Hparse; [done|].
  rewrite all_flags_snoc in Hparse. apply andb_prop in Hparse as [Hl Hc].
  rewrite pstep_snoc, all_flags_snoc, IH by done. simpl.
  unfold last_step. destruct (is_present c && py_in c l) eqn:Hf.
  - destruct c as [|s|x]; simpl in *; rewrite ?andb_false_r; try done.
    destruct (py_float s); simpl in *; rewrite ?andb_false_r; [done|]. by compute in Hc.
  - destruct c as [|s|x]; simpl in *; rewrite ?andb_false_r; try done.
    rewrite andb_true_r. apply negb_true_iff, not_true_iff_false.
    intros Hin%py_in_Text. apply text_in_pstep, py_in_Text in Hin. congruence.
Qed.

Lemma no_flagged_text_iter k (col : list cell) :
  no_flagged_text col = true -> no_flagged_text (Nat.iter k pstep col) = true.
Proof.
  intros Hcol. induction k as [|k IH]; simpl; [done|].
  by apply no_flagged_text_pstep, flagged_texts_parse_no_text.
Qed.

End DepthTexts.

(** ** Convergence under exact arithmetic *)

Section DepthConverge.
Context {F : Type} `{FloatLaws F}.
Abbreviation cell := (cell F).

Definition bump_num (x : F) : F := f_add x depth_inc.

Lemma py_eq_Num (x : F) (c : cell) : py_eq (Num x) c = true <-> c = Num x.
Proof.
  destruct c as [|s|y]; simpl; try done.
  rewrite f_eqb_true. naive_solver.
Qed.

Lemma py_in_Num x (l : list cell) : py_in (Num x) l = true <-> Num x ∈ l.
Proof.
  unfold py_in. rewrite existsb_exists, list_elem_of_In. split.
  - intros (c & Hin & Hc%py_eq_Num). by subst.
  - intros Hin. exists (Num x). split; [done|]. by apply py_eq_Num.
Qed.

Lemma iter_bump_lt x i j :
  i < j -> f_ltb (Nat.iter i bump_num x) (Nat.iter j bump_num x) = true.
Proof.
  induction j as [|j IH]; intros Hij; [lia|]. simpl.
  destruct (decide (i = j)) as [->|Hne]; [apply f_ltb_bump|].
  eapply f_ltb_trans; [apply IH; lia | apply f_ltb_bump].
Qed.

#[local] Instance iter_bump_inj (x : F) : Inj eq eq (fun j : nat => Nat.iter j bump_num x).
Proof.
  intros i j Heq. destruct (Nat.lt_total i j) as [Hlt|[?|Hlt]]; [|done|].
  - apply iter_bump_lt with (x := x) in Hlt. rewrite Heq, f_ltb_irrefl in Hlt. done.
  - apply iter_bump_lt with (x := x) in Hlt. rewrite Heq, f_ltb_irrefl in Hlt. done.
Qed.

(** Pigeonhole: a column of [length L] cells holds at most [length L] of
    the pairwise distinct values [x], [x + inc], [x + 2 inc], ... *)
Lemma bumps_in_bound (L : list cell) x n :
  (forall j, j < n -> Num (Nat.iter j bump_num x) ∈ L) -> n <= length L.
Proof.
  intros Hin.
  set (vals := (fun j => Num (Nat.iter j bump_num x)) <$> seq 0 n).
  assert (Hnd : NoDup vals).
  { apply NoDup_fmap_2; [|apply NoDup_seq].
    intros i j [= Heq]. exact (iter_bump_inj x i j Heq). }
  replace n with (length vals) by (unfold vals; by rewrite length_fmap, length_seq).
  apply NoDup_incl_length; [by apply NoDup_ListNoDup|].
  intros c Hc%list_elem_of_In. apply list_elem_of_In.
  apply list_elem_of_fmap in Hc as (j & -> & Hj%elem_of_seq). apply Hin. lia.
Qed.

Definition flagged (L : list cell) (c : cell) : bool := is_present c && py_in c L.

Lemma bounded_search (P : nat -> bool) n :
  (exists j, j <= n /\ P j = false) \/ (forall j, j <= n -> P j = true).
Proof.
  induction n as [|n [IH|IH]].
  - destruct (P 0) eqn:E; [right; intros j Hj; by replace j with 0 by lia | left; eauto].
  - left. destruct IH as (j & ? & ?). exists j. split; [lia | done].
  - destruct (P (S n)) eqn:E; [right | left; eauto].
    intros j Hj. destruct (decide (j = S n)) as [->|]; [done | apply IH; lia].
Qed.

(** The last cell, bumped while it equals a cell of a fixed prefix, leaves
    it within [length L] passes. *)
Lemma chain_escapes (L : list cell) d :
  (flagged L d && is_text d) = false ->
  exists j, j <= length L /\ flagged L (Nat.iter j (last_step L) d) = false.
Proof.
  intros Htext.
  destruct (bounded_search (fun j => flagged L (Nat.iter j (last_step L) d)) (length L))
    as [Hex|Hall]; [done|exfalso].
  pose proof (Hall 0 ltac:(lia)) as Hd. simpl in Hd. rewrite Hd in Htext.
  destruct d as [|s|x]; try done.
  assert (Hiter : forall j, j <= length L -> Nat.iter j (last_step L) (Num x) = Num (Nat.iter j bump_num x)).
  { induction j as [|j IH]; intros Hj; [done|].
    simpl. rewrite IH by lia. unfold last_step.
    pose proof (Hall j ltac:(lia)) as Hf. rewrite IH in Hf by lia.
    unfold flagged in Hf. by rewrite Hf. }
  assert (Hb : S (length L) <= length L); [|lia].
  apply bumps_in_bound with (x := x). intros j Hj.
  pose proof (Hall j ltac:(lia)) as Hf. rewrite Hiter in Hf by lia.
  apply andb_prop in Hf as [_ Hf]. by apply py_in_Num.
Qed.

Lemma iter_pstep_fixed j K (l : list cell) :
  dup_free (Nat.iter K pstep l) -> Nat.iter (j + K) pstep l = Nat.iter K pstep l.
Proof.
  intros Hfree. induction j as [|j IH]; simpl; [done|].
  rewrite IH. by apply pstep_dup_free.
Qed.

Lemma chain_after_fixed (l : list cell) c K j :
  dup_free (Nat.iter K pstep l) ->
  chain l c (j + K) = Nat.iter j (last_step (Nat.iter K pstep l)) (chain l c K).
Proof.
  intros Hfree. induction j as [|j IH]; [done|].
  change (S j + K) with (S (j + K)). cbn [chain Nat.iter].
  by rewrite IH, iter_pstep_fixed.
Qed.

(** Within [n * n] passes a column of [n] cells has no duplicate left,
    provided no flagged value is a [str]. *)
Lemma pstep_converges (l : list cell) :
  no_flagged_text l = true ->
  exists K, K <= length l * length l /\ dup_free (Nat.iter K pstep l).
Proof.
  induction l as [|c l IH] using rev_ind; intros Htext.
  - exists 0. split; [lia | constructor].
  - assert (Hl : no_flagged_text l = true).
    { unfold no_flagged_text in *. rewrite all_flags_snoc in Htext.
      by apply andb_prop in Htext as [? _]. }
    destruct (IH Hl) as (K0 & HK0 & Hfree0).
    pose proof (no_flagged_text_iter K0 (l ++ [c]) Htext) as Hinv.
    unfold no_flagged_text in Hinv. rewrite iter_pstep_snoc, all_flags_snoc in Hinv.
    apply andb_prop in Hinv as [_ Hd].
    destruct (chain_escapes (Nat.iter K0 pstep l) (chain l c K0)) as (j & Hj & Hesc).
    { unfold flagged. by apply negb_true_iff. }
    exists (j + K0). split.
    + rewrite length_iter_pstep in Hj. rewrite length_app. simpl. nia.
    + rewrite iter_pstep_snoc, dup_free_snoc, iter_pstep_fixed by done.
      split; [done|]. by rewrite chain_after_fixed.
Qed.

End DepthConverge.

(** ** The loop of [qc_depth] *)

Section DepthLoop.
Context {F : Type} `{FloatModel F}.
Abbreviation cell := (cell F).

Lemma dup_free_any_dup (l : list cell) : ~ dup_free l -> any_dup l = true.
Proof. intros Hn. destruct (any_dup l) eqn:E; [done|]. by apply any_dup_false in E. Qed.

(** Each cell of the output is its input bumped some number of times. *)
Definition bumped_from (col col' : list cell) : Prop :=
  Forall2 (fun c c' => exists k, c' = Nat.iter k pbump c) col col'.

Lemma bumped_from_refl (col : list cell) : bumped_from col col.
Proof. apply Forall_Forall2_diag, Forall_forall. intros c _. by exists 0. Qed.

Lemma bumped_from_pstep (col col' : list cell) :
  bumped_from col col' -> bumped_from col (pstep col').
Proof.
  unfold bumped_from, pstep. intros Hrel.
  assert (Hlen : length (duplicated col') = length col') by apply length_duplicated.
  revert Hlen. generalize (duplicated col') as m. revert Hrel.
  induction 1 as [|c c' l l' [k Hk] Hrel IH]; intros [|d m] Hlen; simpl in *; try done.
  constructor; [|apply IH; lia].
  destruct d; [exists (S k) | exists k]; by subst.
Qed.

Lemma bumped_from_iter k (col : list cell) : bumped_from col (Nat.iter k pstep col).
Proof.
  induction k as [|k IH]; simpl; [apply bumped_from_refl | by apply bumped_from_pstep].
Qed.

(** With no flagged [str] left, the loop follows [pstep] and stops at the
    first duplicate-free column. *)
Lemma resolve_depth_iter fuel K (l : list cell) :
  no_flagged_text l = true -> K <= fuel -> dup_free (Nat.iter K pstep l) ->
  exists K', resolve_depth fuel l = Ok (Nat.iter K' pstep l) /\ dup_free (Nat.iter K' pstep l).
Proof.
  revert K l. induction fuel as [|fuel IH]; intros K l Htext HK Hfree; simpl.
  - replace K with 0 in Hfree by lia. simpl in Hfree.
    apply any_dup_false in Hfree as Hd. rewrite Hd. by exists 0.
  - destruct (any_dup l) eqn:Hd.
    + destruct K as [|K].
      { simpl in Hfree. apply any_dup_false in Hfree. congruence. }
      rewrite bump_duplicated_pstep by by apply flagged_texts_parse_no_text. simpl.
      rewrite Nat.iter_succ_r in Hfree.
      destruct (IH K (pstep l)) as (K' & Hres & HK'); [|lia|done|].
      { by apply no_flagged_text_pstep, flagged_texts_parse_no_text. }
      exists (S K'). by rewrite Nat.iter_succ_r.
    + exists 0. split; [done|]. by apply any_dup_false.
Qed.

End DepthLoop.

(** ** The mask against its specification *)

Section DepthSpec.
Context {F : Type} `{FloatModel F}.
Abbreviation cell := (cell F).

(** Reference definition: no present value equals, as a Python object, a
    value above it in the column. *)
Definition dup_free_spec (col : list cell) : Prop :=
  forall i j a b, i < j -> col !! i = Some a -> col !! j = Some b ->
  is_present b = true -> py_eq b a = false.

Lemma py_in_false (c : cell) l : py_in c l = false <-> forall a, a ∈ l -> py_eq c a = false.
Proof.
  unfold py_in. rewrite <- not_true_iff_false, existsb_exists. split.
  - intros Hn a Ha%list_elem_of_In. apply not_true_iff_false. intros Heq. eauto.
  - intros Hall (a & Ha%list_elem_of_In & Heq). by rewrite Hall in Heq.
Qed.

Lemma dup_free_spec_snoc (l : list cell) c :
  dup_free_spec (l ++ [c]) <->
  dup_free_spec l /\ (is_present c = true -> forall a, a ∈ l -> py_eq c a = false).
Proof.
  split.
  - intros Hs. split.
    + intros i j a b Hij Ha Hb. apply (Hs i j); try done.
      * rewrite lookup_app_l; [done|]. apply lookup_lt_Some in Ha. lia.
      * rewrite lookup_app_l; [done|]. by eapply lookup_lt_Some.
    + intros Hc a (i & Ha)%list_elem_of_lookup. apply (Hs i (length l)); try done.
      * by eapply lookup_lt_Some.
      * rewrite lookup_app_l; [done|]. by eapply lookup_lt_Some.
      * by rewrite list_lookup_middle.
  - intros [Hs Hc] i j a b Hij Ha Hb Hpb.
    apply lookup_lt_Some in Hb as Hj. rewrite length_app in Hj. simpl in Hj.
    assert (Hi : i < length l) by lia.
    rewrite lookup_app_l in Ha by done.
    destruct (decide (j = length l)) as [->|Hne].
    + rewrite list_lookup_middle in Hb by done. injection Hb as <-.
      apply Hc; [done|]. by eapply list_elem_of_lookup_2.
    + rewrite lookup_app_l in Hb by lia. by apply (Hs i j).
Qed.

(** The pandas mask computes the reference definition. *)
Lemma dup_free_iff_spec (col : list cell) : dup_free col <-> dup_free_spec col.
Proof.
  induction col as [|c l IH] using rev_ind.
  - split; [intros _ i j a b _ Ha; done | constructor].
  - rewrite dup_free_snoc, dup_free_spec_snoc, IH.
    apply and_iff_compat_l. rewrite andb_false_iff, <- py_in_false.
    destruct (is_present c); naive_solver.
Qed.

End DepthSpec.

(** ** Error paths of one pass *)

Section DepthErrors.
Context {F : Type} `{FloatModel F}.
Abbreviation cell := (cell F).

Lemma resolve_depth_S fuel (col : list cell) :
  resolve_depth (S fuel) col =
  if any_dup col then bump_duplicated col ≫= resolve_depth fuel else Ok col.
Proof. reflexivity. Qed.

Lemma mapM_bump_zip_err (m : list bool) (l : list cell) :
  forallb (fun '(d, c) =>
             negb d || match c with Text s => bool_decide (is_Some (py_float s)) | _ => true end)
          (zip m l) = false ->
  mapM_res (fun '(d, c) => if d : bool then bump_cell c else Ok c) (zip m l) = Err ValueError.
Proof.
  revert l; induction m as [|d m IH]; intros [|c l] Hko; simpl in *; try done.
  apply andb_false_iff in Hko as [Hc|Hrest].
  - destruct d; [|done]. destruct c as [|s|x]; try done.
    simpl. destruct (py_float s) eqn:E; [by compute in Hc | done].
  - rewrite (IH l Hrest).
    destruct d; [|done]. destruct c as [|s|x]; simpl; try done.
    by destruct (py_float s).
Qed.

Lemma flagged_texts_parse_no_dup (col : list cell) :
  any_dup col = false -> flagged_texts_parse col = true.
Proof.
  intros Hd%any_dup_false. unfold flagged_texts_parse, all_flags, dup_free in *.
  apply forallb_forall. intros [d c] Hin%list_elem_of_In.
  apply elem_of_zip_with in Hin as (d' & c' & [= -> ->] & Hd' & _).
  rewrite Forall_forall in Hd. by rewrite (Hd d' Hd').
Qed.

End DepthErrors.

(** ** Properties of [qc_depth] *)

Section DepthTheorems.
Context {F : Type} `{FloatLaws F}.
Abbreviation cell := (cell F).

(** Under exact arithmetic ([FloatLaws]: the increment is never absorbed)
    the loop converges within [depth_fuel] passes when the flagged texts
    parse.  This is a fact of the model with exact floats, not of the
    program: binary64 is not such a model ([prim_float_not_exact]) and the
    loop of the program can run for ever ([depth_binary64_diverges]).  It
    shows that [depth_fuel], the pass bound the spec asks a
    reimplementation to enforce, is enough when no increment is lost. *)
Lemma resolve_depth_terminates (col : list cell) :
  flagged_texts_parse col = true ->
  exists col', resolve_depth (depth_fuel col) col = Ok col' /\
               dup_free_spec col' /\ bumped_from col col'.
Proof.
  intros Hparse. unfold depth_fuel. rewrite resolve_depth_S.
  destruct (any_dup col) eqn:Hd.
  2: { exists col. split; [done|]. split; [by apply dup_free_iff_spec, any_dup_false
                                          | apply bumped_from_refl]. }
  rewrite bump_duplicated_pstep by done. simpl.
  pose proof (no_flagged_text_pstep col Hparse) as Htext.
  destruct (pstep_converges (pstep col) Htext) as (K & HK & Hfree).
  rewrite length_pstep in HK.
  destruct (resolve_depth_iter (length col * length col) K (pstep col))
    as (K' & Hres & Hfree'); try done.
  exists (Nat.iter K' pstep (pstep col)).
  split; [done|]. split; [by apply dup_free_iff_spec|].
  rewrite <- Nat.iter_succ_r. apply bumped_from_iter.
Qed.

End DepthTheorems.

Section DepthTheoremsModel.
Context {F : Type} `{FloatModel F}.
Abbreviation cell := (cell F).

(** C2: Whatever the fuel, a column returned by the loop has no present
    value equal to a value above it. *)
Theorem resolve_depth_sound fuel (col col' : list cell) :
  resolve_depth fuel col = Ok col' -> dup_free_spec col'.
Proof.
  revert col. induction fuel as [|fuel IH]; intros col Hres; simpl in Hres.
  - destruct (any_dup col) eqn:Hd; [done|]. injection Hres as <-.
    by apply dup_free_iff_spec, any_dup_false.
  - destruct (any_dup col) eqn:Hd.
    + apply bind_eq_Ok in Hres as (col1 & _ & Hres). by apply (IH col1).
    + injection Hres as <-. by apply dup_free_iff_spec, any_dup_false.
Qed.

(** C3: When a flagged [str] of the DEPTH column does not parse as a
    float, the first pass raises [ValueError] ([astype(float)]). *)
Theorem resolve_depth_value_error fuel (col : list cell) :
  flagged_texts_parse col = false -> resolve_depth (S fuel) col = Err ValueError.
Proof.
  intros Hko. rewrite resolve_depth_S.
  destruct (any_dup col) eqn:Hd.
  - unfold bump_duplicated. rewrite mapM_bump_zip_err by done. done.
  - by rewrite flagged_texts_parse_no_dup in Hko.
Qed.

(** C4: A DEPTH column whose present values are already pairwise distinct
    is returned unchanged, and the count printed is zero. *)
Theorem resolve_depth_unique fuel (col : list cell) :
  dup_free_spec col -> resolve_depth fuel col = Ok col /\ count_dup col = 0.
Proof.
  intros Hs%dup_free_iff_spec. pose proof Hs as Hd%any_dup_false.
  split; [by destruct fuel; simpl; rewrite Hd|].
  unfold count_dup, dup_free in *. induction Hs as [|d m -> _ IH]; simpl; [done|]. done.
Qed.

End DepthTheoremsModel.

(** ** Concrete columns: the spec's scenario, and two behaviours of the code *)

From Stdlib Require Import QArith Qcanon PrimFloat.
Open Scope nat_scope.

(** The DEPTH column of the spec's scenario: the units row, then three equal
    depths, as [read_csv] gives them ([str] values of an [object] column). *)
Definition depth_scenario_col : list (cell Qc) :=
  [Text "M"; Text "100.0"; Text "100.0"; Text "100.0"]%string.

(** [float(v) == float(w)] for two cells, [False] when one is missing or
    does not parse. *)
Definition same_float {F} `{FloatModel F} (a b : cell F) : bool :=
  let val c := match c with Text s => py_float s | Num x => Some x | Missing => None end in
  match val a, val b with Some x, Some y => f_eqb x y | _, _ => false end.

(** The spec's scenario: [100.0, 100.0, 100.0] becomes
    [100.0, 100.00001, 100.00002] (the units row is untouched). *)
Example depth_scenario_run :
  match resolve_depth (depth_fuel depth_scenario_col) depth_scenario_col with
  | Ok [u; a; b; c] =>
      py_eq u (Text "M") && same_float a (Text "100.0")
      && same_float b (Text "100.00001") && same_float c (Text "100.00002") = true
  | _ => False
  end.
Proof. vm_compute. reflexivity. Qed.

Lemma resolve_depth_sound_witness :
  dup_free_spec (result_default [] (resolve_depth 5 depth_scenario_col)).
Proof.
  apply (resolve_depth_sound 5 depth_scenario_col). vm_compute. reflexivity.
Defined.

Definition depth_bad_col : list (cell Qc) := [Text "M"; Text "n/a"; Text "n/a"]%string.

Lemma resolve_depth_value_error_witness :
  flagged_texts_parse depth_bad_col = false /\ resolve_depth 3 depth_bad_col = Err ValueError.
Proof.
  split; [vm_compute; reflexivity|].
  apply resolve_depth_value_error. vm_compute. reflexivity.
Defined.

Definition depth_unique_col : list (cell Qc) :=
  [Text "M"; Text "100.0"; Missing; Text "100.5"; Missing]%string.

Lemma resolve_depth_unique_witness :
  dup_free_spec depth_unique_col /\
  resolve_depth 0 depth_unique_col = Ok depth_unique_col /\ count_dup depth_unique_col = 0.
Proof.
  assert (Hs : dup_free_spec depth_unique_col).
  { apply dup_free_iff_spec. vm_compute. repeat constructor. }
  split; [exact Hs|]. apply (resolve_depth_unique 0 depth_unique_col Hs).
Defined.

(** Under IEEE binary64, [x + 0.00001 == x] once [x] is large enough that
    the increment is below half an ulp.  A float DEPTH column (blank units
    cell, so [read_csv] parses the column as [float64]) with two such equal
    depths is a fixed point of a pass that still has a duplicate. *)
Definition depth_big_col : list (cell PrimFloat.float) := [Missing; Num 1e12%float; Num 1e12%float].

(** C6: Under binary64 the loop of [qc_depth] never ends on the float
    column [NaN, 1e12, 1e12]: no fuel is enough. *)
Theorem depth_binary64_diverges fuel :
  resolve_depth fuel depth_big_col = Err NotConverged.
Proof.
  assert (Hd : any_dup depth_big_col = true) by (vm_compute; reflexivity).
  assert (Hb : bump_duplicated depth_big_col = Ok depth_big_col) by (vm_compute; reflexivity).
  induction fuel as [|fuel IH].
  - vm_compute. reflexivity.
  - rewrite resolve_depth_S, Hd, Hb. exact IH.
Qed.

(** Binary64 addition absorbs the depth increment: it is not a model of
    [FloatLaws], the hypothesis of [resolve_depth_terminates]. *)
Lemma prim_float_not_exact : FloatLaws PrimFloat.float -> False.
Proof.
  intros Hl. pose proof (@f_ltb_add_pos _ _ Hl 1e12%float depth_inc) as Habs.
  vm_compute in Habs. discriminate Habs. reflexivity.
Qed.

