(* ===== verification/Splitter.v ===== *)
(** * The Splitter: [split_export] (CoreQC.py lines 297-327)

    [split_export(log)] reads the log file again, writes it back, and, when
    the table has at least [metadata_cols + data_col_cap] columns, writes
    the parts [np.r_[:7, first:last]] for [first = 7, 15, 23, ...] to files
    named after the upper-cased log path.  The model returns the list of
    writes (path and table) in the order the code performs them; reading
    and writing the CSV files is external. The [while first_col <
    total_cols] loop is [split_parts], defined by well-founded recursion on
    [total_cols - first_col]. *)

From S2P Require Import Prelude Num Table Settings.
From Equations Require Import Equations.

(** ** The loop over the parts *)

(** One iteration per part: the part number [i] and the column positions
    [np.r_[:metadata_cols, first_col:last_col]] (or [first_col:total_cols]
    for the last part). *)
Equations? split_parts (i first_col total_cols : nat) : list (nat * list nat)
  by wf (total_cols - first_col) lt :=
  split_parts i first_col total_cols with lt_dec first_col total_cols => {
    | left _ =>
        (i, if first_col + data_cols_segment <? total_cols
            then seq 0 metadata_cols ++ seq first_col data_cols_segment
            else seq 0 metadata_cols ++ seq first_col (total_cols - first_col))
        :: split_parts (S i) (first_col + data_cols_segment) total_cols;
    | right _ => [] }.
Proof. unfold data_cols_segment. lia. Qed.

(** [f'{log.upper().removesuffix(".CSV")}_{i}.csv'] *)
Definition savename (log : string) (i : nat) : string :=
  (py_removesuffix ".CSV" (py_upper log) +:+ "_" +:+ py_str_nat i +:+ ".csv")%string.

Section Splitter.
Context {F : Type} `{FloatModel F}.

(** [split_export]: the table [df] is what [pd.read_csv(log)] returns. *)
Definition split_export (log : string) (df : table F) : list (string * table F) :=
  (log, df) ::
  (if ncols df <? metadata_cols + data_col_cap then []
   else map (fun '(i, idxs) => (savename log i, select_cols idxs df))
            (split_parts 1 metadata_cols (ncols df))).

End Splitter.

(** ** The column positions of the parts *)

Lemma split_parts_done i first_col total_cols :
  total_cols <= first_col -> split_parts i first_col total_cols = [].
Proof.
  intros Hle. rewrite split_parts_equation_1.
  destruct (lt_dec first_col total_cols); [lia|]. reflexivity.
Qed.

Lemma split_parts_step i first_col total_cols :
  first_col < total_cols ->
  split_parts i first_col total_cols =
  (i, if first_col + data_cols_segment <? total_cols
      then seq 0 metadata_cols ++ seq first_col data_cols_segment
      else seq 0 metadata_cols ++ seq first_col (total_cols - first_col))
  :: split_parts (S i) (first_col + data_cols_segment) total_cols.
Proof.
  intros Hlt. rewrite split_parts_equation_1.
  destruct (lt_dec first_col total_cols); [|lia]. reflexivity.
Qed.

Lemma drop_meta_app (s : list nat) : drop metadata_cols (seq 0 metadata_cols ++ s) = s.
Proof. apply drop_app_length'. by rewrite length_seq. Qed.

Lemma take_meta_app (s : list nat) : take metadata_cols (seq 0 metadata_cols ++ s) = seq 0 metadata_cols.
Proof. apply take_app_length'. by rewrite length_seq. Qed.

(** The data positions of the parts, concatenated in order, are
    [first_col, ..., total_cols - 1]. *)
Lemma split_parts_data i first_col total_cols :
  concat (map (fun p => drop metadata_cols p.2) (split_parts i first_col total_cols))
  = seq first_col (total_cols - first_col).
Proof.
  funelim (split_parts i first_col total_cols).
  - rewrite map_cons, concat_cons. cbv beta. cbn [snd].
    destruct (Nat.ltb_spec (first_col + data_cols_segment) total_cols) as [Hl|Hl].
    + rewrite drop_meta_app. rewrite H.
      replace (total_cols - first_col) with
        (data_cols_segment + (total_cols - (first_col + data_cols_segment))) by lia.
      by rewrite seq_app.
    + rewrite drop_meta_app.
      rewrite split_parts_done by lia. by rewrite app_nil_r.
  - replace (total_cols - first_col) with 0 by lia. done.
Qed.

(** Every part starts with the metadata positions and names only positions
    of the table. *)
Lemma split_parts_shape i first_col total_cols :
  metadata_cols <= first_col ->
  Forall (fun p => take metadata_cols p.2 = seq 0 metadata_cols /\
                   Forall (fun k => k < total_cols) p.2 /\
                   length p.2 <= metadata_cols + data_cols_segment)
         (split_parts i first_col total_cols).
Proof.
  funelim (split_parts i first_col total_cols); intros Hm.
  - constructor; [|apply H; unfold data_cols_segment in *; lia].
    cbv beta. cbn [snd].
    destruct (Nat.ltb_spec (first_col + data_cols_segment) total_cols) as [Hl|Hl];
      (split; [apply take_meta_app|]);
      rewrite length_app, !length_seq; (split; [|lia]);
      apply Forall_app; split; apply Forall_forall; intros k Hk%elem_of_seq; lia.
  - constructor.
Qed.

(** The parts are numbered [i, i+1, ...]. *)
Lemma split_parts_numbers i first_col total_cols :
  map fst (split_parts i first_col total_cols)
  = seq i (length (split_parts i first_col total_cols)).
Proof.
  funelim (split_parts i first_col total_cols).
  - simpl. by rewrite H.
  - done.
Qed.

(** ** Reading the parts' cells *)

Section SplitLists.
Context {A : Type}.

Lemma omap_lookup_seq (x : list A) a n :
  a + n <= length x -> omap (fun i => x !! i) (seq a n) = take n (drop a x).
Proof.
  revert a; induction n as [|n IH]; intros a Hlen; [done|].
  rewrite seq_S, omap_app, IH by lia. simpl.
  destruct (lookup_lt_is_Some_2 x (a + n)) as [y Hy]; [lia|]. rewrite Hy. simpl.
  assert (Hd : drop a x !! n = Some y) by (by rewrite lookup_drop).
  by rewrite (take_S_r _ _ _ Hd).
Qed.

Lemma omap_concat {B} (f : B -> option A) (ls : list (list B)) :
  omap f (concat ls) = concat (map (omap f) ls).
Proof. induction ls as [|l ls IH]; simpl; [done|]. by rewrite omap_app, IH. Qed.

(** The cells of a part past the metadata are the cells at its data positions. *)
Lemma drop_omap_part (x : list A) (idxs : list nat) :
  take metadata_cols idxs = seq 0 metadata_cols -> metadata_cols <= length x ->
  drop metadata_cols (omap (fun i => x !! i) idxs)
  = omap (fun i => x !! i) (drop metadata_cols idxs).
Proof.
  intros Htake Hlen. rewrite <- (take_drop metadata_cols idxs) at 1.
  rewrite omap_app, Htake, omap_lookup_seq by lia.
  apply drop_app_length'. rewrite length_take, length_drop. lia.
Qed.

(** The first cells of a part are the metadata cells. *)
Lemma take_omap_part (x : list A) (idxs : list nat) :
  take metadata_cols idxs = seq 0 metadata_cols -> metadata_cols <= length x ->
  take metadata_cols (omap (fun i => x !! i) idxs) = take metadata_cols x.
Proof.
  intros Htake Hlen. rewrite <- (take_drop metadata_cols idxs) at 1.
  rewrite omap_app, Htake, omap_lookup_seq by lia.
  rewrite take_app_length'; [done|]. rewrite length_take, length_drop. lia.
Qed.

(** Round trip on one list (the header or a row): the data cells of the
    parts, concatenated in part order, are the data cells of the list. *)
Lemma parts_roundtrip i (x : list A) :
  metadata_cols <= length x ->
  concat (map (fun p => drop metadata_cols (omap (fun k => x !! k) p.2))
              (split_parts i metadata_cols (length x)))
  = drop metadata_cols x.
Proof.
  intros Hlen.
  pose proof (split_parts_shape i metadata_cols (length x) (le_n _)) as Hshape.
  rewrite (map_ext_in _ (fun p => omap (fun k => x !! k) (drop metadata_cols p.2))).
  - rewrite <- (map_map (fun p => drop metadata_cols p.2) (omap (fun k => x !! k))).
    rewrite <- omap_concat, split_parts_data, omap_lookup_seq by lia.
    apply take_ge. rewrite length_drop. lia.
  - intros p Hp%list_elem_of_In. rewrite Forall_forall in Hshape.
    destruct (Hshape p Hp) as (Htake & _). by apply drop_omap_part.
Qed.

End SplitLists.

(** ** Properties of [split_export] *)

Section SplitTheorems.
Context {F : Type} `{FloatModel F}.

Lemma split_export_wide log (df : table F) :
  metadata_cols + data_col_cap <= ncols df ->
  tail (split_export log df) =
  map (fun '(i, idxs) => (savename log i, select_cols idxs df))
      (split_parts 1 metadata_cols (ncols df)).
Proof.
  intros Hw. unfold split_export.
  destruct (Nat.ltb_spec (ncols df) (metadata_cols + data_col_cap)); [lia | done].
Qed.

Lemma row_cells_select k idxs (df : table F) r :
  trows df !! k = Some r -> row_cells k (select_cols idxs df) = omap (fun i => r.2 !! i) idxs.
Proof. intros Hk. unfold row_cells, select_cols. simpl. by rewrite list_lookup_fmap, Hk. Qed.

Lemma row_cells_some k (df : table F) :
  k < length (trows df) -> exists r, trows df !! k = Some r /\ row_cells k df = r.2.
Proof.
  intros Hk. destruct (lookup_lt_is_Some_2 _ _ Hk) as [r Hr].
  exists r. unfold row_cells. by rewrite Hr.
Qed.

Lemma length_omap_le {A B} (f : A -> option B) (l : list A) : length (omap f l) <= length l.
Proof.
  induction l as [|x l IH]; simpl; [lia|]. unfold omap in IH.
  destruct (f x); simpl; lia.
Qed.

Lemma wf_row_length (df : table F) r :
  table_wf df -> r ∈ trows df -> length r.2 = ncols df.
Proof. intros [Hrows _] Hr. rewrite Forall_forall in Hrows. by apply Hrows. Qed.

(** C8: When [split_export] splits a well-formed table, the data columns
    of the parts, concatenated in part order, are exactly the table's data
    columns: for the header and for every row. *)
Theorem split_export_roundtrip log (df : table F) :
  table_wf df -> metadata_cols + data_col_cap <= ncols df ->
  concat (map (fun w => drop metadata_cols (tcolumns w.2)) (tail (split_export log df)))
    = drop metadata_cols (tcolumns df) /\
  forall k, k < length (trows df) ->
  concat (map (fun w => drop metadata_cols (row_cells k w.2)) (tail (split_export log df)))
    = drop metadata_cols (row_cells k df).
Proof.
  intros Hwf Hwide. rewrite split_export_wide by done. rewrite !map_map.
  assert (Hm : metadata_cols <= ncols df) by (unfold data_col_cap in Hwide; lia).
  split.
  - rewrite <- parts_roundtrip with (i := 1) by exact Hm.
    apply f_equal, map_ext. by intros [i idxs].
  - intros k Hk. rewrite map_map. destruct (row_cells_some k df Hk) as (r & Hr & ->).
    assert (Hlen : length r.2 = ncols df) by (eapply wf_row_length; [done|];
      by eapply list_elem_of_lookup_2).
    rewrite <- parts_roundtrip with (i := 1) by lia. rewrite Hlen.
    apply f_equal, map_ext. intros [i idxs]. simpl. by rewrite (row_cells_select k idxs df r).
Qed.

End SplitTheorems.

Section SplitShape.
Context {F : Type} `{FloatModel F}.

(** C9: Every part written by [split_export] on a well-formed wide table
    has the table's metadata header and, row by row, its metadata cells, the
    same row labels in the same order, and at most
    [metadata_cols + data_cols_segment] columns. *)
Theorem split_export_parts_shape log (df : table F) :
  table_wf df -> metadata_cols + data_col_cap <= ncols df ->
  Forall (fun w =>
    take metadata_cols (tcolumns w.2) = take metadata_cols (tcolumns df) /\
    map fst (trows w.2) = map fst (trows df) /\
    ncols w.2 <= metadata_cols + data_cols_segment /\
    (forall k, k < length (trows df) ->
       take metadata_cols (row_cells k w.2) = take metadata_cols (row_cells k df)))
    (tail (split_export log df)).
Proof.
  intros Hwf Hwide. rewrite split_export_wide by done.
  assert (Hm : metadata_cols <= ncols df) by (unfold data_col_cap in Hwide; lia).
  pose proof (split_parts_shape 1 metadata_cols (ncols df) (le_n _)) as Hshape.
  apply Forall_map. eapply Forall_impl; [exact Hshape|].
  intros [i idxs] (Htake & _ & Hlen). cbn [snd] in Htake, Hlen. simpl. split; [|split; [|split]].
  - by apply take_omap_part.
  - unfold select_cols. simpl. rewrite <- list_fmap_compose. done.
  - unfold ncols, select_cols. cbn [tcolumns].
    pose proof (length_omap_le (fun i => tcolumns df !! i) idxs).
    unfold metadata_cols, data_cols_segment in *. lia.
  - intros k Hk. destruct (row_cells_some k df Hk) as (r & Hr & ->).
    rewrite (row_cells_select k idxs df r Hr). apply take_omap_part; [done|].
    rewrite (wf_row_length df r Hwf) by by eapply list_elem_of_lookup_2. done.
Qed.

(** C10: The split boundary: a table with fewer than
    [metadata_cols + data_col_cap] (17) columns is only written back, and a
    table with at least that many columns gives at least two parts. *)
Theorem split_export_boundary log (df : table F) :
  (ncols df < metadata_cols + data_col_cap -> split_export log df = [(log, df)]) /\
  (metadata_cols + data_col_cap <= ncols df -> 2 <= length (tail (split_export log df))).
Proof.
  split; intros Hc.
  - unfold split_export. destruct (Nat.ltb_spec (ncols df) (metadata_cols + data_col_cap)); [done|lia].
  - rewrite split_export_wide, length_map by done.
    unfold data_col_cap, metadata_cols in Hc.
    rewrite split_parts_step by (unfold metadata_cols; lia). simpl.
    rewrite split_parts_step by (unfold metadata_cols, data_cols_segment; lia). simpl. lia.
Qed.

(** C11: The parts are written to [savename log 1], [savename log 2], ...
    in order. *)
Theorem split_export_names log (df : table F) :
  metadata_cols + data_col_cap <= ncols df ->
  map fst (tail (split_export log df)) = map (savename log) (seq 1 (length (tail (split_export log df)))).
Proof.
  intros Hw. rewrite split_export_wide, length_map by done.
  rewrite map_map, <- split_parts_numbers, map_map. apply map_ext. by intros [i idxs].
Qed.

End SplitShape.

(** The whole path is upper-cased, directories included: on a file system
    that distinguishes case the parts go to a directory that is not the
    log's. *)
Example savename_uppercases_path :
  savename "/data/logs/well_a.csv" 1 = "/DATA/LOGS/WELL_A_1.csv"%string.
Proof. reflexivity. Qed.

From Stdlib Require Import Qcanon.
Open Scope nat_scope.

(** A wide log: a header of [n] columns, a units row and one data row. *)
Definition wide_table (n : nat) : table Qc :=
  mk_table (map (fun i => "C" +:+ py_str_nat i)%string (seq 0 n))
           [(0, replicate n (Text "U"%string)); (1, replicate n Missing)].

Lemma wide_table_wf n : table_wf (wide_table n).
Proof.
  split.
  - repeat constructor; cbn [snd]; unfold ncols, wide_table; cbn [tcolumns];
      by rewrite length_replicate, length_map, length_seq.
  - repeat constructor; set_solver.
Qed.

Lemma split_export_roundtrip_witness :
  table_wf (wide_table 17) /\ metadata_cols + data_col_cap <= ncols (wide_table 17) /\
  (concat (map (fun w => drop metadata_cols (tcolumns w.2)) (tail (split_export "w.csv" (wide_table 17))))
     = drop metadata_cols (tcolumns (wide_table 17)) /\
   forall k, k < length (trows (wide_table 17)) ->
   concat (map (fun w => drop metadata_cols (row_cells k w.2)) (tail (split_export "w.csv" (wide_table 17))))
     = drop metadata_cols (row_cells k (wide_table 17))).
Proof.
  assert (Hw : metadata_cols + data_col_cap <= ncols (wide_table 17)) by (vm_compute; lia).
  split; [apply wide_table_wf|]. split; [exact Hw|].
  apply split_export_roundtrip; [apply wide_table_wf | exact Hw].
Defined.

Lemma split_export_parts_shape_witness :
  Forall (fun w =>
    take metadata_cols (tcolumns w.2) = take metadata_cols (tcolumns (wide_table 20)) /\
    map fst (trows w.2) = map fst (trows (wide_table 20)) /\
    ncols w.2 <= metadata_cols + data_cols_segment /\
    (forall k, k < length (trows (wide_table 20)) ->
       take metadata_cols (row_cells k w.2) = take metadata_cols (row_cells k (wide_table 20))))
    (tail (split_export "w.csv" (wide_table 20))).
Proof. apply split_export_parts_shape; [apply wide_table_wf | vm_compute; lia]. Defined.

Lemma split_export_boundary_witness :
  split_export "w.csv" (wide_table 16) = [("w.csv"%string, wide_table 16)] /\
  2 <= length (tail (split_export "w.csv" (wide_table 17))).
Proof.
  split; [apply (split_export_boundary "w.csv" (wide_table 16)) | apply (split_export_boundary "w.csv" (wide_table 17))];
    vm_compute; lia.
Defined.

Lemma split_export_names_witness :
  map fst (tail (split_export "w.csv" (wide_table 17)))
  = map (savename "w.csv") (seq 1 (length (tail (split_export "w.csv" (wide_table 17))))).
Proof. apply split_export_names. vm_compute. lia. Defined.
