(* ===== verification/Measurement.v ===== *)
(** * The MeasurementValidator: [qc_data] (CoreQC.py lines 232-281)

    [qc_data] looks up the mnemonic table of the log's test type, refuses
    a log whose measurement columns are not unique (one error, then
    [return]), and checks each measurement column: its name with digit and
    dot runs replaced by [XXXX] must be a mnemonic of the table (else an
    error and [continue]); its unit (row label 0) must equal the table's
    unit (else an error); then the minimum and maximum of the data rows
    (labels [1:]) are converted with [float] inside a [try] that skips the
    range check on [TypeError] or [ValueError], and each is compared with
    MIN and MAX (a warning when out of range).

    pandas computes [min()] and [max()] of an [object] column of [str]
    values by comparing the strings, and raises [TypeError] when [str]
    values meet missing ones (filled with [inf]) or floats: [col_min_max]
    writes out these cases. *)

From S2P Require Import Prelude Num Table Report Settings.
From Stdlib Require OrderedTypeEx.

(** ** Mnemonic normalization: [re.sub("[0-9.]+", "XXXX", col)] *)

Definition is_digit_or_dot (c : ascii) : bool :=
  let n := nat_of_ascii c in ((48 <=? n) && (n <=? 57)) || (n =? 46).

(** Replace each maximal run of digits and dots by [XXXX]; [in_run] says
    whether the previous character was in a run. *)
Fixpoint sub_runs (in_run : bool) (l : list ascii) : list ascii :=
  match l with
  | [] => []
  | c :: l' =>
      if is_digit_or_dot c then
        if in_run then sub_runs true l' else list_ascii_of_string "XXXX" ++ sub_runs true l'
      else c :: sub_runs false l'
  end.

Definition mnem_normalize (col : string) : string :=
  string_of_list_ascii (sub_runs false (list_ascii_of_string col)).

(** ** Minimum and maximum of a column *)

(** Python's [a < b] on two [str]: code point order. *)
Definition str_ltb (a b : string) : bool :=
  match String.compare a b with Lt => true | _ => false end.

Section MinMax.
Context {F : Type} `{FloatModel F}.
Abbreviation cell := (cell F).

Definition min_by {A} (ltb : A -> A -> bool) (x : A) (xs : list A) : A :=
  fold_left (fun m y => if ltb y m then y else m) xs x.
Definition max_by {A} (ltb : A -> A -> bool) (x : A) (xs : list A) : A :=
  fold_left (fun m y => if ltb m y then y else m) xs x.

Definition texts (cs : list cell) : list string :=
  omap (fun c => match c with Text s => Some s | _ => None end) cs.
Definition nums (cs : list cell) : list F :=
  omap (fun c => match c with Num x => Some x | _ => None end) cs.

(** [float(s.min())], [float(s.max())] on the data rows of a column:
    [Ok None] when pandas returns [NaN] (no value: no comparison holds),
    [Err] for the exceptions the [try] catches. *)
Definition col_min_max (data : list cell) : result (option (F * F)) :=
  if negb (existsb is_present data) then Ok None
  else if existsb is_text data then
    if forallb is_text data then
      match texts data with
      | s :: ss =>
          match py_float (min_by str_ltb s ss), py_float (max_by str_ltb s ss) with
          | Some a, Some b => Ok (Some (a, b))
          | _, _ => Err ValueError
          end
      | [] => Ok None
      end
    else Err TypeError
  else
    match nums data with
    | x :: xs => Ok (Some (min_by f_ltb x xs, max_by f_ltb x xs))
    | [] => Ok None
    end.

End MinMax.

(** ** [qc_data] *)

Section QcData.
Context {F : Type} `{FloatModel F}.
Abbreviation cell := (cell F).
Abbreviation state := (qc_state F).

(** [df.loc[1:, col]]: the cells of the rows labelled 1 and above. *)
Definition data_cells (col : string) (df : table F) : result (list cell) :=
  match col_index col df with
  | Some i => Ok (map (fun r => default Missing (r.2 !! i)) (filter (fun r => 1 <= r.1) (trows df)))
  | None => Err (KeyError col)
  end.

(** [if MIN is not np.nan and df_min < MIN: raise_warning(...)]: an empty
    MIN ([None]) gives no warning.  The code tests identity with [np.nan],
    which a [numpy.float64] NaN read from the sheet fails, but [df_min <
    nan] is false, so the behaviour is the same. *)
Definition check_min (col : string) (e : mnem_entry F) (mn : F) : st state unit :=
  match m_min e with
  | Some lo => if f_ltb mn lo then raise_warning col (Num mn) "min value" "is not in expected range" else mret tt
  | None => mret tt
  end.

Definition check_max (col : string) (e : mnem_entry F) (mx : F) : st state unit :=
  match m_max e with
  | Some hi => if f_ltb hi mx then raise_warning col (Num mx) "max value" "is not in expected range" else mret tt
  | None => mret tt
  end.

(** The body of [for col in df.columns] (lines 243-281). *)
Definition check_column (mnems : gmap string (mnem_entry F)) (df : table F) (col : string)
    : st state unit :=
  match mnems !! mnem_normalize col with
  | None => raise_error col (Text "") "mnemonic" "is invalid"
  | Some e =>
      df_unit ← st_lift (loc 0 col df);
      _ ← (if py_ne df_unit (m_unit e) then raise_error col df_unit "unit" "is invalid" else mret tt);
      range ← st_lift (py_except [TypeError; ValueError]
                         (data_cells col df ≫= col_min_max) (fun _ => Ok None));
      match range with
      | None => mret tt
      | Some (mn, mx) => _ ← check_min col e mn; check_max col e mx
      end
  end.

(** [self.mnemonics[self.test_type]]: [KeyError] with the key; the key
    of a missing or float test type is written ["nan"]. *)
Definition test_type_mnemonics (cfg : settings F) (tt : cell) : result (gmap string (mnem_entry F)) :=
  match tt with
  | Text t => match mnemonics cfg !! t with Some m => Ok m | None => Err (KeyError t) end
  | _ => Err (KeyError "nan")
  end.

(** [qc_data] *)
Definition qc_data (cfg : settings F) : st state unit :=
  s ← st_get;
  let df := drop_cols metadata_cols (log_df s) in
  mnems ← st_lift (test_type_mnemonics cfg (test_type s));
  if bool_decide (NoDup (tcolumns df))
  then st_forM (tcolumns df) (check_column mnems df)
  else raise_error "" (Text "") "value" "MNEMONICS ARE NOT UNIQUE!".

End QcData.

(** ** Minimum and maximum over a strict total order *)

Section MinMaxOrder.
Context {A : Type} (ltb : A -> A -> bool).
Hypothesis ltb_irrefl : forall x, ltb x x = false.
Hypothesis ltb_trans : forall x y z, ltb x y = true -> ltb y z = true -> ltb x z = true.
Hypothesis ltb_total : forall x y, ltb x y = false -> ltb y x = false -> x = y.

Lemma ltb_false_trans x y z : ltb x y = false -> ltb y z = false -> ltb x z = false.
Proof.
  intros Hxy Hyz. destruct (ltb x z) eqn:Hxz; [|done]. exfalso.
  destruct (ltb y x) eqn:Hyx.
  - pose proof (ltb_trans _ _ _ Hyx Hxz) as Hyz'. congruence.
  - assert (x = y) as -> by (apply ltb_total; done). congruence.
Qed.

Lemma min_by_spec x xs :
  min_by ltb x xs ∈ x :: xs /\ forall y, y ∈ x :: xs -> ltb y (min_by ltb x xs) = false.
Proof.
  revert x; induction xs as [|y ys IH]; intros x; simpl.
  - split; [by left|]. intros y Hy. apply list_elem_of_singleton in Hy as ->. apply ltb_irrefl.
  - unfold min_by in *. destruct (IH (if ltb y x then y else x)) as [Hin Hle].
    case_eq (ltb y x); intros Hyx; rewrite Hyx in Hin, Hle;
      (split; [rewrite elem_of_cons in Hin; rewrite !elem_of_cons; tauto|]);
      intros z Hz; rewrite !elem_of_cons in Hz; destruct Hz as [->|[->|Hz]];
      try (apply Hle; by (left + right)).
    + destruct (ltb x _) eqn:Hzm; [|done].
      pose proof (ltb_trans _ _ _ Hyx Hzm) as Hym. rewrite Hle in Hym; [done | by left].
    + apply (ltb_false_trans _ x); [done | apply Hle; by left].
Qed.

Lemma max_by_spec x xs :
  max_by ltb x xs ∈ x :: xs /\ forall y, y ∈ x :: xs -> ltb (max_by ltb x xs) y = false.
Proof.
  revert x; induction xs as [|y ys IH]; intros x; simpl.
  - split; [by left|]. intros y Hy. apply list_elem_of_singleton in Hy as ->. apply ltb_irrefl.
  - unfold max_by in *. destruct (IH (if ltb x y then y else x)) as [Hin Hle].
    case_eq (ltb x y); intros Hxy; rewrite Hxy in Hin, Hle;
      (split; [rewrite elem_of_cons in Hin; rewrite !elem_of_cons; tauto|]);
      intros z Hz; rewrite !elem_of_cons in Hz; destruct Hz as [->|[->|Hz]];
      try (apply Hle; by (left + right)).
    + destruct (ltb _ x) eqn:Hmz; [|done].
      pose proof (ltb_trans _ _ _ Hmz Hxy) as Hmy. rewrite Hle in Hmy; [done | by left].
    + apply (ltb_false_trans _ x); [apply Hle; by left | done].
Qed.

End MinMaxOrder.

(** ** Mnemonic normalization *)

Lemma sub_runs_plain b l :
  Forall (fun c => is_digit_or_dot c = false) l -> sub_runs b l = l.
Proof.
  revert b; induction l as [|c l IH]; intros b Hl; [done|].
  apply Forall_cons in Hl as [Hc Hl]. simpl. rewrite Hc. f_equal. by apply IH.
Qed.

(** Whether the last character of [l] was in a run, starting from [b]. *)
Fixpoint run_after (b : bool) (l : list ascii) : bool :=
  match l with
  | [] => b
  | c :: l' => run_after (is_digit_or_dot c) l'
  end.

Lemma sub_runs_app b l1 l2 :
  sub_runs b (l1 ++ l2) = sub_runs b l1 ++ sub_runs (run_after b l1) l2.
Proof.
  revert b; induction l1 as [|c l1 IH]; intros b; [done|]. simpl.
  destruct (is_digit_or_dot c); [destruct b|]; by rewrite IH.
Qed.

(** A non-empty run becomes one [XXXX], and what follows is after a run. *)
Lemma sub_runs_digits d :
  d <> [] -> Forall (fun c => is_digit_or_dot c = true) d ->
  sub_runs false d = list_ascii_of_string "XXXX" /\ run_after false d = true.
Proof.
  intros Hne Hd. destruct d as [|c d]; [done|]. apply Forall_cons in Hd as [Hc Hd]. simpl. rewrite Hc.
  clear Hne. induction Hd as [|c' d Hc' _ IH]; [done|]. simpl. by rewrite Hc'.
Qed.

(** A text that does not start with a digit or dot is replaced the same
    way after a run or not. *)
Lemma sub_runs_restart b l :
  (forall c, head l = Some c -> is_digit_or_dot c = false) -> sub_runs b l = sub_runs false l.
Proof. destruct l as [|c l]; intros Hl; [done|]. simpl. by rewrite (Hl c eq_refl). Qed.

(** After a text that ends out of any run, the state is out of a run. *)
Lemma run_after_plain b l :
  (forall c, last l = Some c -> is_digit_or_dot c = false) -> l <> [] -> run_after b l = false.
Proof.
  revert b; induction l as [|c l IH]; intros b Hl Hne; [done|]. simpl.
  destruct l as [|c' l]; [by apply Hl|]. apply IH; [|done]. intros c'' Hc. apply Hl. done.
Qed.

(** C26: [re.sub("[0-9.]+", "XXXX", col)] replaces each maximal run of
    digits and dots by one [XXXX]: a run [d] between a text [a] that does
    not end with a digit or dot and a text [b] that does not start with
    one is replaced on its own by [XXXX], whatever its length. *)
Theorem mnem_normalize_run (a d b : string) :
  list_ascii_of_string d <> [] ->
  Forall (fun c => is_digit_or_dot c = true) (list_ascii_of_string d) ->
  (forall c, last (list_ascii_of_string a) = Some c -> is_digit_or_dot c = false) ->
  (forall c, head (list_ascii_of_string b) = Some c -> is_digit_or_dot c = false) ->
  mnem_normalize (a +:+ d +:+ b) = (mnem_normalize a +:+ "XXXX" +:+ mnem_normalize b)%string.
Proof.
  intros Hne Hd Ha Hb. unfold mnem_normalize. rewrite !list_ascii_of_string_app, !sub_runs_app.
  destruct (sub_runs_digits _ Hne Hd) as [Hx Hr].
  assert (run_after false (list_ascii_of_string a) = false) as Hra.
  { destruct (decide (list_ascii_of_string a = [])) as [->|Hne']; [done|]. by apply run_after_plain. }
  rewrite Hra, Hx, Hr, (sub_runs_restart true) by done.
  by rewrite !string_of_list_ascii_app.
Qed.

(** C27: a name without digits and dots is its own normal form. *)
Theorem mnem_normalize_plain s :
  Forall (fun c => is_digit_or_dot c = false) (list_ascii_of_string s) -> mnem_normalize s = s.
Proof.
  intros Hs. unfold mnem_normalize. rewrite sub_runs_plain by done.
  apply string_of_list_ascii_of_string.
Qed.

(** ** The range check over a numeric column computes the true extremes *)

Section NumericRange.
Context {F : Type} `{FloatLaws F}.

Lemma nums_present (data : list (cell F)) : nums data <> [] -> existsb is_present data = true.
Proof.
  by induction data as [|[|s|x] data IH].
Qed.

Lemma existsb_text_false (data : list (cell F)) :
  Forall (fun c => is_text c = false) data -> existsb is_text data = false.
Proof. induction 1 as [|c data Hc _ IH]; simpl; [done|]. by rewrite Hc, IH. Qed.

(** C17: on a column of numbers (and missing values), [col_min_max]
    returns a minimum and a maximum of the numbers: no number is below
    the one or above the other. *)
Theorem col_min_max_numeric (data : list (cell F)) :
  Forall (fun c => is_text c = false) data -> nums data <> [] ->
  exists mn mx, col_min_max data = Ok (Some (mn, mx)) /\
    mn ∈ nums data /\ mx ∈ nums data /\
    forall y, y ∈ nums data -> f_ltb y mn = false /\ f_ltb mx y = false.
Proof.
  intros Htext Hnums. unfold col_min_max.
  rewrite nums_present, existsb_text_false by done. simpl.
  destruct (nums data) as [|x xs]; [done|].
  destruct (min_by_spec f_ltb f_ltb_irrefl f_ltb_trans f_ltb_total x xs) as [Hmin Hlo].
  destruct (max_by_spec f_ltb f_ltb_irrefl f_ltb_trans f_ltb_total x xs) as [Hmax Hhi].
  eexists _, _. split; [reflexivity|]. split_and!; [done..|]. eauto.
Qed.

End NumericRange.

(** ** What [qc_data] adds to the report *)

Section QcDataReport.
Context {F : Type} `{FloatModel F}.

(** Range warnings, and structural errors. *)
Definition data_warning (n : notice F) : Prop :=
  n_severity n = SevWarning /\ (n_type n = "min value" \/ n_type n = "max value")%string /\
  n_message n = "is not in expected range"%string.
Definition data_error (n : notice F) : Prop :=
  n_severity n = SevError /\ (n_type n = "mnemonic" \/ n_type n = "unit" \/ n_type n = "value")%string.

Ltac solve_data_notice := unfold data_warning, data_error; simpl; naive_solver.

Lemma check_column_appends mnems df col :
  only_appends data_warning data_error (check_column mnems df col).
Proof.
  unfold check_column. destruct (mnems !! _) as [e|];
    [|apply only_appends_error; solve_data_notice].
  apply only_appends_bind; [apply only_appends_lift|intros u].
  apply only_appends_bind;
    [case_match; [apply only_appends_error; solve_data_notice|apply only_appends_ret]|intros _].
  apply only_appends_bind; [apply only_appends_lift|intros [[mn mx]|]]; [|apply only_appends_ret].
  apply only_appends_bind; [unfold check_min|intros _; unfold check_max];
    repeat case_match; (apply only_appends_warning; solve_data_notice) || apply only_appends_ret.
Qed.

(** C13: [qc_data] changes nothing but the report; it adds only range
    warnings and structural errors. *)
Theorem qc_data_only_appends cfg : only_appends data_warning data_error (qc_data cfg).
Proof.
  unfold qc_data. apply only_appends_bind; [apply only_appends_get|intros s].
  apply only_appends_bind; [apply only_appends_lift|intros m].
  case_bool_decide; [apply only_appends_forM; intros; apply check_column_appends|].
  apply only_appends_error. solve_data_notice.
Qed.

(** C22: measurement columns that are not unique give one error and no
    column is checked. *)
Theorem qc_data_not_unique cfg (s : qc_state F) m :
  test_type_mnemonics cfg (test_type s) = Ok m ->
  ~ NoDup (tcolumns (drop_cols metadata_cols (log_df s))) ->
  qc_data cfg s =
    Ok (tt, set_errors (errors s ++ [mk_notice SevError "" (Text "") "value" "MNEMONICS ARE NOT UNIQUE!"]) s).
Proof.
  intros Hm Hnd. unfold qc_data. apply st_bind_Ok. exists s, s. split; [done|].
  apply st_bind_Ok. exists m, s. split; [by apply st_lift_Ok|].
  by rewrite bool_decide_false by done.
Qed.

End QcDataReport.

(** ** The range check over a column of strings *)

Lemma str_ltb_irrefl x : str_ltb x x = false.
Proof.
  unfold str_ltb. by rewrite (proj2 (OrderedTypeEx.String_as_OT.cmp_eq x x) eq_refl : String.compare x x = Eq).
Qed.

Lemma str_ltb_lt x y : str_ltb x y = true <-> OrderedTypeEx.String_as_OT.lt x y.
Proof.
  rewrite <- OrderedTypeEx.String_as_OT.cmp_lt. unfold str_ltb, OrderedTypeEx.String_as_OT.cmp.
  by destruct (String.compare x y).
Qed.

Lemma str_ltb_trans x y z : str_ltb x y = true -> str_ltb y z = true -> str_ltb x z = true.
Proof. rewrite !str_ltb_lt. apply OrderedTypeEx.String_as_OT.lt_trans. Qed.

Lemma str_ltb_total x y : str_ltb x y = false -> str_ltb y x = false -> x = y.
Proof.
  unfold str_ltb. rewrite (String.compare_antisym y x).
  destruct (String.compare x y) eqn:E; try done. intros _ _. by apply String.compare_eq_iff.
Qed.

Section TextRange.
Context {F : Type} `{FloatModel F}.

(** The warnings of lines 270-281 for a minimum [a] and a maximum [b]. *)
Definition range_warnings (col : string) (e : mnem_entry F) (a b : F) : list (notice F) :=
  (match m_min e with
   | Some lo => if f_ltb a lo then [mk_notice SevWarning col (Num a) "min value" "is not in expected range"] else []
   | None => [] end) ++
  (match m_max e with
   | Some hi => if f_ltb hi b then [mk_notice SevWarning col (Num b) "max value" "is not in expected range"] else []
   | None => [] end).

Lemma texts_forall_text (data : list (cell F)) :
  Forall (fun c => is_text c = true) data -> data <> [] ->
  texts data <> [] /\ existsb is_present data = true /\ existsb is_text data = true /\
  forallb is_text data = true.
Proof.
  intros Hf Hne. destruct Hf as [|[|t|x] data Hc Hf]; try done. simpl. split_and!; [done..|].
  apply forallb_forall. intros c Hin%list_elem_of_In. by eapply Forall_forall in Hf.
Qed.

(** C5: on a column of [str] values, [min()] and [max()] compare the
    strings: the range check takes the smallest and the largest string in
    code point order, converts them with [float], skips the check when
    either is not a number (the [ValueError] caught at line 268), and
    otherwise warns exactly when the minimum is below MIN or the maximum
    above MAX.  The other values are never converted. *)
Theorem check_column_text_range mnems (df : table F) col e u data (s : qc_state F) :
  mnems !! mnem_normalize col = Some e ->
  loc 0 col df = Ok u -> py_ne u (m_unit e) = false ->
  data_cells col df = Ok data -> data <> [] -> Forall (fun c => is_text c = true) data ->
  exists smin smax, smin ∈ texts data /\ smax ∈ texts data /\
    (forall y, y ∈ texts data -> str_ltb y smin = false /\ str_ltb smax y = false) /\
    check_column mnems df col s =
      match py_float smin, py_float smax with
      | Some a, Some b => Ok (tt, set_warnings (warnings s ++ range_warnings col e a b) s)
      | _, _ => Ok (tt, s)
      end.
Proof.
  intros Hm Hu Hne Hd Hdne Hf.
  destruct (texts_forall_text data Hf Hdne) as (Htx & Hp & Ht & Hall).
  destruct (texts data) as [|x xs] eqn:Htexts; [done|].
  destruct (min_by_spec str_ltb str_ltb_irrefl str_ltb_trans str_ltb_total x xs) as [Hmin Hlo].
  destruct (max_by_spec str_ltb str_ltb_irrefl str_ltb_trans str_ltb_total x xs) as [Hmax Hhi].
  exists (min_by str_ltb x xs), (max_by str_ltb x xs). split_and!; [done|done|naive_solver|].
  unfold check_column. rewrite Hm. unfold mbind, st_bind, st_lift. rewrite Hu, Hne, Hd. simpl.
  unfold col_min_max. rewrite Hp, Ht, Hall, Htexts. simpl.
  destruct (py_float (min_by _ x xs)) as [a|]; [destruct (py_float (max_by _ x xs)) as [b|]|];
    simpl; [|done|done].
  unfold check_min, check_max, range_warnings, raise_warning, st_modify.
  destruct s; destruct (m_min e) as [lo|]; [destruct (f_ltb a lo)|]; destruct (m_max e) as [hi|];
    try destruct (f_ltb hi b); cbn; by rewrite ?app_nil_r, <-?app_assoc.
Qed.

End TextRange.

(** ** Concrete logs *)

From Stdlib Require Import QArith Qcanon.
Open Scope nat_scope.

(** Seven metadata columns. *)
Definition meta7 : list string :=
  ["CREP_LAB_NAME"; "CREP_TESTTYPE"; "CREP_SAMPLETYPE"; "CREP_TEST_DATE";
   "CREP_WELL"; "CREP_SAMPLE_ID"; "DEPTH"]%string.

(** A log with measurement columns [names], their units row and data rows
    of [str] values, as [read_csv] gives them (the units row makes every
    column an [object] column). *)
Definition data_log (names units : list string) (vals : list (list string)) : table Qc :=
  mk_table (meta7 ++ names)
    ((0, replicate 7 (Text "") ++ (Text <$> units))
       :: imap (fun i row => (S i, replicate 7 Missing ++ (Text <$> row))) vals).

Definition gamma_mnems (lo hi : option Qc) : gmap string (mnem_entry Qc) :=
  {[ "GRXXXX" := mk_mnem_entry (Text "API") lo hi ]}.

Definition gamma_settings (lo hi : option Qc) : settings Qc :=
  mk_settings [] [] [] [] [] {[ "GAMMA" := gamma_mnems lo hi ]}.

Definition gamma_state (t : table Qc) : qc_state Qc :=
  mk_qc_state t Missing (Text "GAMMA") false Missing Missing [] [].

Definition qc250 : Qc := f_of_decimal false 250 0.

Example mnem_normalize_examples :
  mnem_normalize "GR12.5" = "GRXXXX" /\ mnem_normalize "RES1_2" = "RESXXXX_XXXX".
Proof. split; reflexivity. Qed.

Lemma mnem_normalize_plain_witness :
  Forall (fun c => is_digit_or_dot c = false) (list_ascii_of_string "GR") /\
  mnem_normalize "GR" = "GR".
Proof. split; [repeat constructor | apply mnem_normalize_plain; repeat constructor]. Defined.

Lemma mnem_normalize_run_witness :
  mnem_normalize ("GR" +:+ "12.5" +:+ "_A") = (mnem_normalize "GR" +:+ "XXXX" +:+ mnem_normalize "_A")%string.
Proof.
  apply mnem_normalize_run; [discriminate | repeat constructor | |];
    intros c Hc; vm_compute in Hc; injection Hc as <-; reflexivity.
Defined.

Lemma check_column_text_range_witness :
  let q95 := f_of_decimal false 95 (-1) in
  let df := data_log ["GR1"] ["API"] [["9"]; ["10"]] in
  let data : list (cell Qc) := [Text "9"; Text "10"] in
  exists smin smax, smin ∈ texts data /\ smax ∈ texts data /\
    (forall y, y ∈ texts data -> str_ltb y smin = false /\ str_ltb smax y = false) /\
    check_column (gamma_mnems None (Some q95)) df "GR1" (gamma_state df) =
      match py_float smin, py_float smax with
      | Some a, Some b =>
          Ok (tt, set_warnings (warnings (gamma_state df) ++
                  range_warnings "GR1" (mk_mnem_entry (Text "API") None (Some q95)) a b) (gamma_state df))
      | _, _ => Ok (tt, gamma_state df)
      end.
Proof.
  intros q95 df data. apply (check_column_text_range _ _ _ _ (Text "API"));
    [reflexivity | reflexivity | reflexivity | reflexivity | discriminate | repeat constructor].
Defined.

Lemma col_min_max_numeric_witness :
  let data : list (cell Qc) := [Missing; Num qc250; Num f_zero] in
  Forall (fun c => is_text c = false) data /\ nums data <> [] /\
  exists mn mx, col_min_max data = Ok (Some (mn, mx)) /\
    mn ∈ nums data /\ mx ∈ nums data /\
    forall y, y ∈ nums data -> f_ltb y mn = false /\ f_ltb mx y = false.
Proof.
  intros data. split_and!; [repeat constructor | discriminate |].
  apply col_min_max_numeric; [repeat constructor | discriminate].
Defined.

Lemma qc_data_not_unique_witness :
  let s := gamma_state (data_log ["GR1"; "GR1"] ["API"; "API"] [["10"; "20"]]) in
  test_type_mnemonics (gamma_settings None None) (test_type s) = Ok (gamma_mnems None None) /\
  ~ NoDup (tcolumns (drop_cols metadata_cols (log_df s))) /\
  qc_data (gamma_settings None None) s =
    Ok (tt, set_errors (errors s ++ [mk_notice SevError "" (Text "") "value" "MNEMONICS ARE NOT UNIQUE!"]) s).
Proof.
  intros s. assert (~ NoDup (tcolumns (drop_cols metadata_cols (log_df s)))) as Hnd.
  { apply (bool_decide_eq_false_1 (NoDup (tcolumns (drop_cols metadata_cols (log_df s))))). vm_compute. reflexivity. }
  split_and!; [reflexivity | exact Hnd | apply (qc_data_not_unique _ _ (gamma_mnems None None)); [reflexivity | exact Hnd]].
Defined.
