(* ===== verification/Metadata.v ===== *)
(** * The MetadataValidator: [qc_metadata] (CoreQC.py lines 183-230)

    [qc_metadata] takes the first [metadata_cols] columns of the cleaned
    log, prints the test type (a [df.loc[1, 'CREP_TESTTYPE']] that raises
    [KeyError] like any other), compares each of the seven columns
    positionally with the template (name first; the unit only when the
    name matches), reads the four identifying fields from the row labelled
    1, checks them against the GENERAL lists and the date pattern, and
    stores them on the object.  The date check is [re.match] of the
    pattern of line 222, with the semantics of [Regex]. *)

From S2P Require Import Prelude Regex Num Table Report Settings Measurement.

(** ** The date pattern (line 222) *)

Definition months : list string :=
  ["JAN"; "FEB"; "MAR"; "APR"; "MAY"; "JUN"; "JUL"; "AUG"; "SEP"; "OCT"; "NOV"; "DEC"].

(** [^\d{2}-(JAN|...|DEC)-\d{4}$]; the [^] is implied by [re.match]. *)
Definition date_pattern : regex :=
  RSeq (RRep 2 (RClass is_digit))
    (RSeq (RLit "-")
      (RSeq (re_alts months)
        (RSeq (RLit "-") (RSeq (RRep 4 (RClass is_digit)) REnd)))).

(** The strings the pattern accepts, written as a concatenation. *)
Definition date_shape (s : string) : Prop :=
  exists (d y nl : list ascii) (m : string),
    list_ascii_of_string s =
      d ++ list_ascii_of_string "-" ++ list_ascii_of_string m ++ list_ascii_of_string "-" ++ y ++ nl /\
    length d = 2 /\ Forall (fun c => is_digit c = true) d /\ m ∈ months /\
    length y = 4 /\ Forall (fun c => is_digit c = true) y /\ (nl = [] \/ nl = [ascii_lf]).

Section Metadata.
Context {F : Type} `{FloatModel F}.
Abbreviation cell := (cell F).
Abbreviation state := (qc_state F).

(** [flag = re.match(pattern, test_date)]: [TypeError] unless a [str]. *)
Definition date_check (v : cell) : result bool :=
  match v with Text s => Ok (py_re_match date_pattern s) | _ => Err TypeError end.

(** The body of [for i in range(self.metadata_cols)] (lines 194-201). *)
Definition check_meta_col (cfg : settings F) (df : table F) (i : nat) : st state unit :=
  df_col ← st_lift (py_index (tcolumns df) i);
  template_col ← st_lift (py_index (template_columns cfg) i);
  df_unit ← st_lift (iloc 0 i df);
  template_unit ← st_lift (py_index (template_units cfg) i);
  if negb (String.eqb df_col template_col) then raise_error "" (Text df_col) "mnemonic" "is invalid"
  else if py_ne df_unit template_unit then raise_error df_col df_unit "unit" "is invalid"
  else mret tt.

(** [if x not in values: report] *)
Definition check_in (x : cell) (values : list cell) (report : st state unit) : st state unit :=
  if py_in x values then mret tt else report.

(** [qc_metadata] *)
Definition qc_metadata (cfg : settings F) : st state unit :=
  s ← st_get;
  let df := take_cols metadata_cols (log_df s) in
  _ ← st_lift (loc 1 "CREP_TESTTYPE" df);
  _ ← st_forM (seq 0 metadata_cols) (check_meta_col cfg df);
  lab_name ← st_lift (loc 1 "CREP_LAB_NAME" df);
  test_type ← st_lift (loc 1 "CREP_TESTTYPE" df);
  sample_type ← st_lift (loc 1 "CREP_SAMPLETYPE" df);
  test_date ← st_lift (loc 1 "CREP_TEST_DATE" df);
  _ ← check_in lab_name (general_lab_name cfg)
        (raise_warning "CREP_LAB_NAME" lab_name "value" "is not recognized");
  _ ← check_in test_type (general_test_type cfg)
        (_ ← st_modify (set_invalid_testtype true);
         raise_error "CREP_TESTTYPE" test_type "value" "is invalid");
  _ ← check_in sample_type (general_sample_type cfg)
        (raise_error "CREP_SAMPLE_TYPE" sample_type "value" "is invalid");
  flag ← st_lift (A:=bool) (date_check test_date);
  _ ← (if (flag : bool) then mret tt else raise_error "CREP_TEST_DATE" test_date "value" "is invalid");
  st_modify (set_identity lab_name test_type sample_type test_date).

End Metadata.

(** ** The date pattern accepts exactly the date shape *)

Lemma re_rests_date l x :
  x ∈ re_rests date_pattern l <->
  exists (d y : list ascii) (m : string),
    l = d ++ list_ascii_of_string "-" ++ list_ascii_of_string m ++ list_ascii_of_string "-" ++ y ++ x /\
    length d = 2 /\ Forall (fun c => is_digit c = true) d /\ m ∈ months /\
    length y = 4 /\ Forall (fun c => is_digit c = true) y /\ (x = [] \/ x = [ascii_lf]).
Proof.
  unfold date_pattern. repeat setoid_rewrite re_rests_seq.
  setoid_rewrite re_rests_rep_class. setoid_rewrite re_rests_lit.
  setoid_rewrite re_rests_alts. setoid_rewrite re_rests_end. split.
  - intros (y1 & (d & -> & ? & ?) & y2 & -> & y3 & (m & ? & ->) & y4 & -> & y5 &
      (y & -> & ? & ?) & -> & ?). exists d, y, m. naive_solver.
  - intros (d & y & m & -> & ? & ? & ? & ? & ? & ?).
    eexists; split; [exists d; by split_and!|].
    eexists; split; [done|]. eexists; split; [exists m; by split_and!|].
    eexists; split; [done|]. eexists; split; [exists y; by split_and!|]. by split.
Qed.

(** C16: [re.match] with the date pattern of line 222 accepts a string
    exactly when it is two digits, a hyphen, one of the twelve month
    abbreviations, a hyphen, four digits, and nothing else or a final line
    feed. *)
Lemma date_pattern_iff s : py_re_match date_pattern s = true <-> date_shape s.
Proof.
  rewrite py_re_match_true. unfold date_shape. setoid_rewrite re_rests_date. naive_solver.
Qed.

Section MetadataLemmas.
Context {F : Type} `{FloatModel F}.

(** The records the column loop can produce: an error of type
    [mnemonic] or [unit]. *)
Definition meta_col_notice (n : notice F) : Prop :=
  n_severity n = SevError /\ (n_type n = "mnemonic" \/ n_type n = "unit")%string.

Lemma check_meta_col_errors cfg df i : errors_grow_by meta_col_notice 1 (check_meta_col cfg df i).
Proof.
  unfold check_meta_col. apply (errors_grow_bind _ 0 1); [apply errors_grow_lift|intros c].
  apply (errors_grow_bind _ 0 1); [apply errors_grow_lift|intros c'].
  apply (errors_grow_bind _ 0 1); [apply errors_grow_lift|intros u].
  apply (errors_grow_bind _ 0 1); [apply errors_grow_lift|intros u'].
  repeat case_match; (apply errors_grow_error; [done | split; [done|]; simpl; auto])
    || apply errors_grow_ret.
Qed.

(** A column whose name and unit match the template reports nothing. *)
Lemma check_meta_col_match cfg df i (c : string) (u u' : cell F) s :
  tcolumns df !! i = Some c -> template_columns cfg !! i = Some c ->
  iloc 0 i df = Ok u -> template_units cfg !! i = Some u' -> py_eq u u' = true ->
  check_meta_col cfg df i s = Ok (tt, s).
Proof.
  intros Hc Hc' Hu Hu' Heq. unfold check_meta_col, py_index, py_ne.
  rewrite Hc, Hc', Hu, Hu'. unfold mbind, st_bind, st_lift. cbn -[py_eq]. by rewrite String.eqb_refl, Heq.
Qed.

(** What a successful run of [qc_metadata] does: it stores the four
    fields read from row 1, sets [invalid_testtype] when the test type is
    not accepted, adds at most one error per metadata column, then the
    lab-name warning and the test-type, sample-type and date errors, each
    exactly when its check fails, and changes nothing else. *)
Lemma qc_metadata_outcome (cfg : settings F) s s' :
  qc_metadata cfg s = Ok (tt, s') ->
  exists (ec : list (notice F)) (lab tt0 smp dt : cell F) (flag : bool),
    loc 1 "CREP_LAB_NAME" (take_cols metadata_cols (log_df s)) = Ok lab /\
    loc 1 "CREP_TESTTYPE" (take_cols metadata_cols (log_df s)) = Ok tt0 /\
    loc 1 "CREP_SAMPLETYPE" (take_cols metadata_cols (log_df s)) = Ok smp /\
    loc 1 "CREP_TEST_DATE" (take_cols metadata_cols (log_df s)) = Ok dt /\
    date_check dt = Ok flag /\ Forall meta_col_notice ec /\ length ec <= metadata_cols /\
    s' = mk_qc_state (log_df s) lab tt0
           (invalid_testtype s || negb (py_in tt0 (general_test_type cfg))) smp dt
           (warnings s ++ (if py_in lab (general_lab_name cfg) then []
                           else [mk_notice SevWarning "CREP_LAB_NAME" lab "value" "is not recognized"]))
           (errors s ++ ec
              ++ (if py_in tt0 (general_test_type cfg) then []
                  else [mk_notice SevError "CREP_TESTTYPE" tt0 "value" "is invalid"])
              ++ (if py_in smp (general_sample_type cfg) then []
                  else [mk_notice SevError "CREP_SAMPLE_TYPE" smp "value" "is invalid"])
              ++ (if flag then [] else [mk_notice SevError "CREP_TEST_DATE" dt "value" "is invalid"])).
Proof.
  intros Hrun. unfold qc_metadata in Hrun.
  apply st_bind_Ok in Hrun as (s0 & s1 & [-> ->]%st_get_Ok & Hrun).
  apply st_bind_Ok in Hrun as (x & s2 & [_ ->]%st_lift_Ok & Hrun).
  apply st_bind_Ok in Hrun as ([] & s3 & Hcols & Hrun).
  apply st_bind_Ok in Hrun as (lab & s4 & [Hlab ->]%st_lift_Ok & Hrun).
  apply st_bind_Ok in Hrun as (tt0 & s5 & [Htt ->]%st_lift_Ok & Hrun).
  apply st_bind_Ok in Hrun as (smp & s6 & [Hsmp ->]%st_lift_Ok & Hrun).
  apply st_bind_Ok in Hrun as (dt & s7 & [Hdt ->]%st_lift_Ok & Hrun).
  apply st_bind_Ok in Hrun as ([] & s8 & Hw & Hrun).
  apply st_bind_Ok in Hrun as ([] & s9 & Ht & Hrun).
  apply st_bind_Ok in Hrun as ([] & s10 & Hs & Hrun).
  apply st_bind_Ok in Hrun as (flag & s11 & [Hflag ->]%st_lift_Ok & Hrun).
  apply st_bind_Ok in Hrun as ([] & s12 & Hd & ->%st_modify_Ok).
  destruct (errors_grow_forM _ _ _ (check_meta_col_errors cfg _) _ _ _ Hcols)
    as (ec & -> & Hec & Hlen).
  rewrite length_seq in Hlen.
  exists ec, lab, tt0, smp, dt, flag. split_and!; try done.
  unfold check_in in Hw, Ht, Hs.
  destruct (py_in lab _); [apply st_ret_Ok in Hw as [_ ->] | apply raise_warning_Ok in Hw as ->];
  (destruct (py_in tt0 _);
     [apply st_ret_Ok in Ht as [_ ->]
     | apply st_bind_Ok in Ht as ([] & ? & ->%st_modify_Ok & ->%raise_error_Ok)]);
  (destruct (py_in smp _); [apply st_ret_Ok in Hs as [_ ->] | apply raise_error_Ok in Hs as ->]);
  (destruct flag; [apply st_ret_Ok in Hd as [_ ->] | apply raise_error_Ok in Hd as ->]);
  destruct s; simpl; by rewrite ?orb_false_r, ?orb_true_r, ?app_nil_r, <- ?app_assoc.
Qed.

(** C15: The column loop over a log whose seven names and units match the
    template positionally reports nothing. *)
Lemma check_meta_cols_clean (cfg : settings F) (df : table F) s :
  (forall i, i < metadata_cols -> exists (c : string) (u u' : cell F),
     tcolumns df !! i = Some c /\ template_columns cfg !! i = Some c /\
     iloc 0 i df = Ok u /\ template_units cfg !! i = Some u' /\ py_eq u u' = true) ->
  st_forM (seq 0 metadata_cols) (check_meta_col cfg df) s = Ok (tt, s).
Proof.
  intros Hmatch. apply st_forM_noop. intros i Hi%elem_of_seq.
  destruct (Hmatch i ltac:(lia)) as (c & u & u' & ? & ? & ? & ? & ?).
  by eapply check_meta_col_match.
Qed.

(** C14: [invalid_testtype] is set exactly when the test type read from row 1
    is not accepted, and then exactly when an error about
    [CREP_TESTTYPE] of type [value] joins the report. *)
Lemma qc_metadata_testtype_flag (cfg : settings F) s s' :
  invalid_testtype s = false -> qc_metadata cfg s = Ok (tt, s') ->
  invalid_testtype s' = negb (py_in (test_type s') (general_test_type cfg)) /\
  exists e, errors s' = errors s ++ e /\
    (invalid_testtype s' = true <->
     exists n, n ∈ e /\ n_item n = "CREP_TESTTYPE"%string /\ n_type n = "value"%string).
Proof.
  intros Hinv (ec & lab & tt0 & smp & dt & flag & _ & _ & _ & _ & _ & Hec & _ & ->)%qc_metadata_outcome.
  simpl. rewrite Hinv. split; [done|]. eexists; split; [done|].
  assert (forall n, n ∈ ec -> n_type n <> "value"%string) as Hcol.
  { intros n Hn. eapply Forall_forall in Hec as [_ [-> | ->]]; [done..|done]. }
  repeat setoid_rewrite elem_of_app. split.
  - destruct (py_in tt0 _); [done|]. intros _. eexists. split; [right; left; by left|done].
  - intros (n & [Hn | [Hn | [Hn | Hn]]] & Hi & Ht); [by apply Hcol in Hn|..];
      repeat case_match; simplify_eq/=; rewrite ?list_elem_of_singleton in Hn;
      try (by apply elem_of_nil in Hn); by subst.
Qed.

(** C21: A run adds at most one warning and at most [metadata_cols + 3] errors. *)
Lemma qc_metadata_bounds (cfg : settings F) s s' :
  qc_metadata cfg s = Ok (tt, s') ->
  exists w e, warnings s' = warnings s ++ w /\ errors s' = errors s ++ e /\
    length w <= 1 /\ length e <= metadata_cols + 3.
Proof.
  intros (ec & lab & tt0 & smp & dt & flag & _ & _ & _ & _ & _ & _ & Hlen & ->)%qc_metadata_outcome.
  do 2 eexists. split_and!; [done|done| |];
    rewrite ?length_app; repeat case_match; simpl; unfold metadata_cols in *; lia.
Qed.

(** C28: a run that returns read a [str] test date from row 1 (a missing
    date, read by pandas as [NaN], or a number makes [re.match] raise
    [TypeError], so the run never returns), stores it, and reports the
    date as invalid exactly when the pattern of line 222 rejects it. *)
Theorem qc_metadata_date_is_text (cfg : settings F) s s' :
  qc_metadata cfg s = Ok (tt, s') ->
  exists (d : string) e,
    loc 1 "CREP_TEST_DATE" (take_cols metadata_cols (log_df s)) = Ok (Text d) /\
    test_date s' = Text d /\ errors s' = errors s ++ e /\
    (py_re_match date_pattern d = false <->
     exists n, n ∈ e /\ n_item n = "CREP_TEST_DATE"%string /\ n_type n = "value"%string).
Proof.
  intros (ec & lab & tt0 & smp & dt & flag & _ & _ & _ & Hdt & Hflag & Hec & _ & ->)%qc_metadata_outcome.
  destruct dt as [|d|x]; simplify_eq/=. exists d. eexists. split_and!; [done..|].
  assert (forall n, n ∈ ec -> n_type n <> "value"%string) as Hcol.
  { intros n Hn. eapply Forall_forall in Hec as [_ [-> | ->]]; [done..|done]. }
  repeat setoid_rewrite elem_of_app. split.
  - intros ->. eexists. split; [right; right; right; by left|done].
  - intros (n & [Hn | [Hn | [Hn | Hn]]] & Hi & Ht); [by apply Hcol in Hn|..];
      repeat case_match; simplify_eq/=; rewrite ?list_elem_of_singleton in Hn;
      try (by apply elem_of_nil in Hn); by subst.
Qed.

(** C30: a metadata column whose unit is missing both in the log and in
    the template is reported with a [unit] error: [nan != nan] holds. *)
Theorem check_meta_col_unitless cfg df i (c : string) s :
  tcolumns df !! i = Some c -> template_columns cfg !! i = Some c ->
  iloc 0 i df = Ok Missing -> template_units cfg !! i = Some Missing ->
  check_meta_col cfg df i s =
    Ok (tt, set_errors (errors s ++ [mk_notice SevError c Missing "unit" "is invalid"]) s).
Proof.
  intros Hc Hc' Hu Hu'. unfold check_meta_col, py_index, py_ne.
  rewrite Hc, Hc', Hu, Hu'. unfold mbind, st_bind, st_lift. cbn -[py_eq]. by rewrite String.eqb_refl.
Qed.

End MetadataLemmas.

(** ** Concrete logs *)

From Stdlib Require Import QArith Qcanon.
Open Scope nat_scope.

Definition meta_units : list string := ["NAME"; "TYPE"; "TYPE"; "DD-MMM-YYYY"; "NAME"; "ID"; "M"]%string.

(** The settings: one lab, one test type (GAMMA, with the mnemonic
    [GRXXXX] in API from 0 to 250), one sample type, and the template. *)
Definition sample_settings : settings Qc :=
  mk_settings [Text "LAB1"] [Text "GAMMA"] [Text "CORE"] meta7 (Text <$> meta_units)
              {[ "GAMMA" := gamma_mnems (Some f_zero) (Some qc250) ]}.

(** A cleaned log with the units row and one data row. *)
Definition sample_log (lab tt smp date : cell Qc) (names units vals : list string) : table Qc :=
  mk_table (meta7 ++ names)
    [(0, (Text <$> meta_units) ++ (Text <$> units));
     (1, [lab; tt; smp; date; Text "W1"; Text "S1"; Text "100.0"] ++ (Text <$> vals))].

Definition sample_state (t : table Qc) : qc_state Qc :=
  mk_qc_state t Missing Missing false Missing Missing [] [].

Definition neutron_log : table Qc :=
  sample_log (Text "LAB1") (Text "NEUTRON") (Text "CORE") (Text "15-JAN-2024") ["NPHI1"] ["PU"] ["30"].

(** The state [qc_metadata] leaves, or the state it started from. *)
Definition after {S A} (m : st S A) (s : S) : S :=
  match m s with Ok (_, s') => s' | Err _ => s end.

Lemma check_meta_cols_clean_witness :
  let df := take_cols metadata_cols neutron_log in
  (forall i, i < metadata_cols -> exists (c : string) (u u' : cell Qc),
     tcolumns df !! i = Some c /\ template_columns sample_settings !! i = Some c /\
     iloc 0 i df = Ok u /\ template_units sample_settings !! i = Some u' /\ py_eq u u' = true) /\
  st_forM (seq 0 metadata_cols) (check_meta_col sample_settings df) (sample_state neutron_log) =
    Ok (tt, sample_state neutron_log).
Proof.
  intros df. assert (forall i, i < metadata_cols -> exists (c : string) (u u' : cell Qc),
     tcolumns df !! i = Some c /\ template_columns sample_settings !! i = Some c /\
     iloc 0 i df = Ok u /\ template_units sample_settings !! i = Some u' /\ py_eq u u' = true) as Hm.
  { unfold metadata_cols. intros i Hi.
    do 7 (destruct i as [|i]; [do 3 eexists; split_and!; reflexivity|]). lia. }
  split; [exact Hm | apply check_meta_cols_clean, Hm].
Defined.

Lemma qc_metadata_testtype_flag_witness :
  let s := sample_state neutron_log in
  let s' := after (qc_metadata sample_settings) s in
  invalid_testtype s = false /\ qc_metadata sample_settings s = Ok (tt, s') /\
  (invalid_testtype s' = negb (py_in (test_type s') (general_test_type sample_settings)) /\
   exists e, errors s' = errors s ++ e /\
     (invalid_testtype s' = true <->
      exists n, n ∈ e /\ n_item n = "CREP_TESTTYPE"%string /\ n_type n = "value"%string)).
Proof.
  intros s s'. assert (qc_metadata sample_settings s = Ok (tt, s')) as Hrun by (vm_compute; reflexivity).
  split; [reflexivity|]. split; [exact Hrun|]. apply qc_metadata_testtype_flag; [reflexivity | exact Hrun].
Defined.

Lemma qc_metadata_bounds_witness :
  let s := sample_state neutron_log in
  let s' := after (qc_metadata sample_settings) s in
  qc_metadata sample_settings s = Ok (tt, s') /\
  exists w e, warnings s' = warnings s ++ w /\ errors s' = errors s ++ e /\
    length w <= 1 /\ length e <= metadata_cols + 3.
Proof.
  intros s s'. assert (qc_metadata sample_settings s = Ok (tt, s')) as Hrun by (vm_compute; reflexivity).
  split; [exact Hrun | exact (qc_metadata_bounds _ _ _ Hrun)].
Defined.

Lemma qc_metadata_date_is_text_witness :
  let s := sample_state neutron_log in
  let s' := after (qc_metadata sample_settings) s in
  qc_metadata sample_settings s = Ok (tt, s') /\
  exists (d : string) e,
    loc 1 "CREP_TEST_DATE" (take_cols metadata_cols (log_df s)) = Ok (Text d) /\
    test_date s' = Text d /\ errors s' = errors s ++ e /\
    (py_re_match date_pattern d = false <->
     exists n, n ∈ e /\ n_item n = "CREP_TEST_DATE"%string /\ n_type n = "value"%string).
Proof.
  intros s s'. assert (qc_metadata sample_settings s = Ok (tt, s')) as Hrun by (vm_compute; reflexivity).
  split; [exact Hrun | exact (qc_metadata_date_is_text _ _ _ Hrun)].
Defined.

Lemma check_meta_col_unitless_witness :
  let cfg := mk_settings [] [] [] ["CREP_WELL"] [Missing] ∅ : settings Qc in
  let df := mk_table ["CREP_WELL"] [(0, [Missing]); (1, [Text "W1"])] : table Qc in
  tcolumns df !! 0 = Some "CREP_WELL"%string /\ template_columns cfg !! 0 = Some "CREP_WELL"%string /\
  iloc 0 0 df = Ok Missing /\ template_units cfg !! 0 = Some Missing /\
  check_meta_col cfg df 0 (sample_state df) =
    Ok (tt, set_errors (errors (sample_state df) ++
                        [mk_notice SevError "CREP_WELL" Missing "unit" "is invalid"]) (sample_state df)).
Proof.
  intros cfg df. split_and!; [reflexivity..|apply check_meta_col_unitless; reflexivity].
Defined.
