(* ===== verification/Pipeline.v ===== *)
(** * The control flow: [main], [run_qc] and the log discovery
    (CoreQC.py lines 42-95, 128-154, 171-181, 297-330)

    [run_qc] runs the stages on one log: [clear_vars], [read_csv],
    [clean_log], [qc_metadata], [qc_data] unless the test type is invalid,
    and [qc_depth].  [main] resets the report, reads a path, loads the
    settings, collects the logs, runs [run_qc] on each, asks whether to
    split, runs [split_export] on each log if so, and waits for a last
    line of input.  An exception raised anywhere ends [main]: nothing
    catches it.

    The object's fields that [main] adds to those of [qc_state] are the
    set [self.logs] and, standing for the files written by [to_csv], the
    list of the tables written with their names.  The world outside the
    object (the file system, [os.walk], [read_csv] and the lines typed at
    the prompts) is a record [env] of functions and a list of input lines
    in the state. *)

From S2P Require Import Prelude Regex Num Table Report Settings Depth Splitter Measurement Metadata.

Section Pipeline.
Context {F : Type} `{FloatModel F}.
Abbreviation cell := (cell F).
Abbreviation table := (table F).
Abbreviation state := (qc_state F).

(** ** One log: [run_qc] *)

(** [clear_vars]: [None] is the empty table and the missing value; the
    fields are all written again before they are read. *)
Definition clear_vars : st state unit :=
  st_modify (fun s => mk_qc_state (mk_table [] []) Missing Missing false Missing Missing
                                  (warnings s) (errors s)).

(** [self.clean_log()]: [clean_log] on [self.log_df]. *)
Definition clean_log_m : st state unit :=
  s ← st_get; df ← st_lift (clean_log (log_df s)); st_modify (set_log_df df).

(** [self.qc_depth()]; the number printed is returned. *)
Definition qc_depth_m : st state nat :=
  s ← st_get; r ← st_lift (qc_depth (log_df s)); _ ← st_modify (set_log_df r.2); mret r.1.

(** [run_qc(log)] *)
Definition run_qc (cfg : settings F) (read_csv : string -> result table) (log : string)
    : st state unit :=
  _ ← clear_vars;
  df ← st_lift (read_csv log);
  _ ← st_modify (set_log_df df);
  _ ← clean_log_m;
  _ ← qc_metadata cfg;
  s ← st_get;
  _ ← (if invalid_testtype s then mret tt else qc_data cfg);
  _ ← qc_depth_m;
  mret tt.

End Pipeline.

(** ** The whole program: [main] *)

(** The object with the fields [main] uses, and the lines still to be read
    from the prompt. *)
Record app_state (F : Type) : Type := mk_app {
  qc : qc_state F;
  logs : list string;
  written : list (string * table F);
  inputs : list string;
}.
Arguments mk_app {F}.
Arguments qc {F} _.
Arguments logs {F} _.
Arguments written {F} _.
Arguments inputs {F} _.

(** The file system and the libraries [main] calls. *)
Record env (F : Type) : Type := mk_env {
  env_exists : string -> bool;
  env_isfile : string -> bool;
  env_isdir : string -> bool;
  env_walk : string -> list (string * list string);
  env_join : string -> string -> string;
  env_read : string -> result (table F);
  env_workbook : workbook F;
}.
Arguments mk_env {F}.
Arguments env_exists {F} _.
Arguments env_isfile {F} _.
Arguments env_isdir {F} _.
Arguments env_walk {F} _.
Arguments env_join {F} _.
Arguments env_read {F} _.
Arguments env_workbook {F} _.

Section Main.
Context {F : Type} `{FloatModel F}.
Abbreviation app := (app_state F).

Definition set_qc (q : qc_state F) (a : app) : app := mk_app q (logs a) (written a) (inputs a).
Definition set_logs (l : list string) (a : app) : app := mk_app (qc a) l (written a) (inputs a).
Definition set_written (w : list (string * table F)) (a : app) : app :=
  mk_app (qc a) (logs a) w (inputs a).
Definition set_inputs (i : list string) (a : app) : app := mk_app (qc a) (logs a) (written a) i.

(** A method of the QC part of the object, run on the whole object. *)
Definition on_qc {A} (m : st (qc_state F) A) : st app A :=
  fun a => match m (qc a) with Ok (x, q) => Ok (x, set_qc q a) | Err e => Err e end.

(** [input(prompt)]: the next line, [EOFError] when there is none. *)
Definition input : st app string :=
  fun a => match inputs a with
           | l :: rest => Ok (l, set_inputs rest a)
           | [] => Err EOFError
           end.

(** [self.logs.add(x)] on a set kept as a list without repetition, in
    the order of insertion. *)
Definition set_add (x : string) (l : list string) : list string :=
  if decide (x ∈ l) then l else l ++ [x].

(** [str.upper().endswith(self.log_indicator)] *)
Definition is_log_name (f : string) : bool := py_endswith log_indicator (py_upper f).

(** [load_single(filepath)] *)
Definition load_single (filepath : string) : st app unit :=
  if is_log_name filepath
  then st_modify (fun a => set_logs (set_add filepath (logs a)) a)
  else st_raise (AssertionError "Not a .csv").

(** The loops of [load_bulk(directory)] over the triples of [os.walk]. *)
Definition bulk_logs (join : string -> string -> string) (walk : list (string * list string))
    (l : list string) : list string :=
  foldl (fun acc '(root, files) =>
           foldl (fun acc f => if is_log_name f then set_add (join root f) acc else acc) acc files)
        l walk.

Definition load_bulk (E : env F) (directory : string) : st app unit :=
  st_modify (fun a => set_logs (bulk_logs (env_join E) (env_walk E directory) (logs a)) a).

(** The loop of [ask_split]: the first answer that is [y] or [n] once
    lowered, and the lines left. *)
Fixpoint ask_split_from (ins : list string) : result (bool * list string) :=
  match ins with
  | [] => Err EOFError
  | l :: rest =>
      let a := py_lower l in
      if String.eqb a "y" then Ok (true, rest)
      else if String.eqb a "n" then Ok (false, rest)
      else ask_split_from rest
  end.

Definition ask_split : st app bool :=
  fun a => match ask_split_from (inputs a) with
           | Ok (b, rest) => Ok (b, set_inputs rest a)
           | Err e => Err e
           end.

(** [split_export(log)]: it reads the file again, stores it in
    [self.log_df], writes it back and writes the parts. *)
Definition split_export_m (E : env F) (log : string) : st app unit :=
  df ← st_lift (env_read E log);
  _ ← on_qc (st_modify (set_log_df df));
  st_modify (fun a => set_written (written a ++ split_export log df) a).

(** [save_report] is [pass]. *)
Definition save_report : st app unit := mret tt.

(** [main] *)
Definition main (E : env F) : st app unit :=
  _ ← st_modify (set_logs []);
  _ ← on_qc (st_modify (fun s => set_errors [] (set_warnings [] s)));
  filepath ← input;
  _ ← (if env_exists E filepath then mret tt else st_raise (AssertionError "Invalid filepath."));
  cfg ← on_qc (load_settings (env_workbook E));
  _ ← (if env_isfile E filepath then load_single filepath
       else if env_isdir E filepath then load_bulk E filepath else mret tt);
  a ← st_get;
  _ ← st_forM (logs a) (fun log => on_qc (run_qc cfg (env_read E) log));
  split ← ask_split;
  a ← st_get;
  _ ← (if (split : bool) then st_forM (logs a) (split_export_m E) else mret tt);
  _ ← save_report;
  _ ← input;
  mret tt.

(** [__init__]: [while True: self.main()] (lines 35-40), for [n] rounds;
    only an exception, such as the [EOFError] of an exhausted input, ends
    the loop of the program. *)
Fixpoint session (E : env F) (n : nat) : st app unit :=
  match n with
  | O => mret tt
  | S n' => _ ← main E; session E n'
  end.

End Main.

(** ** Every stage of [run_qc] keeps what the report holds *)

Section RunQc.
Context {F : Type} `{FloatModel F}.

Lemma qc_metadata_keeps (cfg : settings F) : keeps_report (qc_metadata cfg).
Proof.
  intros s [] s' (? & ? & ? & ? & ? & ? & _ & _ & _ & _ & _ & _ & _ & ->)%qc_metadata_outcome.
  split; eexists; reflexivity.
Qed.

Lemma qc_data_keeps (cfg : settings F) : keeps_report (qc_data cfg).
Proof.
  unfold qc_data. apply keeps_report_bind; [apply keeps_report_get|intros s].
  apply keeps_report_bind; [apply keeps_report_lift|intros m].
  case_bool_decide; eapply only_appends_keeps;
    [apply only_appends_forM; intros; apply check_column_appends|].
  apply (only_appends_error (fun _ => True) (fun _ => True)). done.
Qed.

Lemma set_log_df_keeps (df : table F) : keeps_report (st_modify (set_log_df df)).
Proof. apply keeps_report_modify. by intros []. Qed.

Lemma clear_vars_keeps : keeps_report (clear_vars (F:=F)).
Proof. apply keeps_report_modify. by intros []. Qed.

#[local] Hint Resolve qc_metadata_keeps qc_data_keeps set_log_df_keeps clear_vars_keeps : coreqc.

(** C12: running the QC of a log never removes or rewrites an entry of
    the report: the warnings and errors before the run are a prefix of
    those after it, whatever the log and the settings. *)
Theorem run_qc_extends (cfg : settings F) read_csv log s s' :
  run_qc cfg read_csv log s = Ok (tt, s') -> report_extends s s'.
Proof.
  intros Hrun. enough (keeps_report (run_qc cfg read_csv log)) as Hk by exact (Hk _ _ _ Hrun).
  unfold run_qc, clean_log_m, qc_depth_m.
  repeat (apply keeps_report_bind; [try case_match; eauto with coreqc|intros ?]).
  apply keeps_report_ret.
Qed.

Lemma qc_data_keeps_flag (cfg : settings F) : keeps_field invalid_testtype (qc_data cfg).
Proof.
  unfold qc_data, check_column, check_min, check_max, raise_error, raise_warning. solve_keeps_field.
Qed.

Lemma qc_depth_m_report : keeps_field (fun s : qc_state F => (invalid_testtype s, warnings s, errors s)) qc_depth_m.
Proof. unfold qc_depth_m. solve_keeps_field. Qed.

(** C7: the stages of [run_qc] in order: the log is read and cleaned on a
    state cleared by [clear_vars] (the report kept), [qc_metadata] runs on
    it, [qc_data] runs exactly when [qc_metadata] left the test type
    valid, and [qc_depth] changes neither the flag nor the report. *)
Theorem run_qc_stages (cfg : settings F) read_csv log s s' :
  run_qc cfg read_csv log s = Ok (tt, s') ->
  exists df dfc s2, read_csv log = Ok df /\ clean_log df = Ok dfc /\
    qc_metadata cfg (mk_qc_state dfc Missing Missing false Missing Missing (warnings s) (errors s))
      = Ok (tt, s2) /\
    invalid_testtype s' = invalid_testtype s2 /\
    if invalid_testtype s2 then warnings s' = warnings s2 /\ errors s' = errors s2
    else exists s3, qc_data cfg s2 = Ok (tt, s3) /\ warnings s' = warnings s3 /\ errors s' = errors s3.
Proof.
  intros Hrun. unfold run_qc, clear_vars in Hrun.
  apply st_bind_Ok in Hrun as ([] & s1 & ->%st_modify_Ok & Hrun).
  apply st_bind_Ok in Hrun as (df & s2 & [Hdf ->]%st_lift_Ok & Hrun).
  apply st_bind_Ok in Hrun as ([] & s3 & ->%st_modify_Ok & Hrun).
  apply st_bind_Ok in Hrun as ([] & s4 & Hcl & Hrun). unfold clean_log_m in Hcl.
  apply st_bind_Ok in Hcl as (s0 & s5 & [-> ->]%st_get_Ok & Hcl).
  apply st_bind_Ok in Hcl as (dfc & s6 & [Hc ->]%st_lift_Ok & ->%st_modify_Ok).
  apply st_bind_Ok in Hrun as ([] & s7 & Hmeta & Hrun).
  apply st_bind_Ok in Hrun as (s8 & s9 & [-> ->]%st_get_Ok & Hrun).
  apply st_bind_Ok in Hrun as ([] & s10 & Hdata & Hrun).
  apply st_bind_Ok in Hrun as (n & s11 & Hdepth%qc_depth_m_report & [_ ->]%st_ret_Ok).
  injection Hdepth as Hi Hw He. exists df, dfc, s7. split_and!; [done|done|by cbn in Hmeta| |].
  - rewrite Hi. destruct (invalid_testtype s7) eqn:E.
    + by apply st_ret_Ok in Hdata as [_ ->].
    + apply qc_data_keeps_flag in Hdata. congruence.
  - destruct (invalid_testtype s7); [by apply st_ret_Ok in Hdata as [_ ->]|]. by exists s10.
Qed.

End RunQc.

(** ** [main] runs the QC of every log it collected *)

Section MainRuns.
Context {F : Type} `{FloatModel F}.
Abbreviation app := (app_state F).

Lemma on_qc_Ok {A} (m : st (qc_state F) A) (a : app) x a' :
  on_qc m a = Ok (x, a') <-> exists q, m (qc a) = Ok (x, q) /\ a' = set_qc q a.
Proof.
  unfold on_qc. destruct (m (qc a)) as [[y q]|e]; split; try done.
  - intros [= -> <-]. by eexists.
  - by intros (? & [= -> ->] & ->).
  - by intros (? & ? & _).
Qed.

Lemma on_qc_keeps_logs {A} (m : st (qc_state F) A) : keeps_field (logs (F:=F)) (on_qc m).
Proof. intros a x a' (q & _ & ->)%on_qc_Ok. done. Qed.

Lemma input_keeps_logs : keeps_field (logs (F:=F)) input.
Proof. intros a x a'. unfold input. destruct (inputs a); [done|]. by intros [= _ <-]. Qed.

Lemma input_keeps_qc : keeps_field (qc (F:=F)) input.
Proof. intros a x a'. unfold input. destruct (inputs a); [done|]. by intros [= _ <-]. Qed.

Lemma ask_split_keeps_logs : keeps_field (logs (F:=F)) ask_split.
Proof. intros a x a'. unfold ask_split. destruct (ask_split_from _) as [[]|]; [|done]. by intros [= _ <-]. Qed.

#[local] Hint Resolve on_qc_keeps_logs input_keeps_logs input_keeps_qc ask_split_keeps_logs : coreqc.

Lemma forM_on_qc {A} (xs : list A) (m : A -> st (qc_state F) unit) (a a' : app) :
  st_forM xs (fun x => on_qc (m x)) a = Ok (tt, a') -> st_forM xs m (qc a) = Ok (tt, qc a').
Proof.
  revert a; induction xs as [|x xs IH]; intros a Hrun; simpl in *.
  - by apply st_ret_Ok in Hrun as [_ ->].
  - apply st_bind_Ok in Hrun as ([] & a1 & (q & Hq & ->)%on_qc_Ok & Hrun).
    apply st_bind_Ok. exists tt, q. split; [done|]. exact (IH _ Hrun).
Qed.

(** C1: [main] returns only when the QC of every log it collected ran to
    its end: with the settings loaded on the report [main] has just
    emptied, [run_qc] over the logs of [self.logs], in their order, returns.
    An exception in one log ends the whole run, the logs after it, the
    split and the last prompt included. *)
Theorem main_runs_every_log (E : env F) (a a' : app) :
  main E a = Ok (tt, a') ->
  exists cfg q q0 qn, warnings q = [] /\ errors q = [] /\
    load_settings (env_workbook E) q = Ok (cfg, q0) /\
    st_forM (logs a') (run_qc cfg (env_read E)) q0 = Ok (tt, qn).
Proof.
  intros Hrun. unfold main in Hrun.
  apply st_bind_Ok in Hrun as ([] & a1 & ->%st_modify_Ok & Hrun).
  apply st_bind_Ok in Hrun as ([] & a2 & (q1 & ->%st_modify_Ok & ->)%on_qc_Ok & Hrun).
  apply st_bind_Ok in Hrun as (fp & a3 & Hq3%input_keeps_qc & Hrun).
  apply st_bind_Ok in Hrun as ([] & a4 & Hq4 & Hrun).
  apply st_bind_Ok in Hrun as (cfg & a5 & (q0 & Hcfg & ->)%on_qc_Ok & Hrun).
  apply st_bind_Ok in Hrun as ([] & a6 & Hq6 & Hrun).
  apply st_bind_Ok in Hrun as (a7 & a8 & [-> ->]%st_get_Ok & Hrun).
  apply st_bind_Ok in Hrun as ([] & a9 & Hloop & Hrest).
  assert (logs a' = logs a9) as Hl'.
  { enough (keeps_field (logs (F:=F))
      (split ← ask_split; a ← st_get;
       _ ← (if (split : bool) then st_forM (logs a) (split_export_m E) else mret tt);
       _ ← save_report; _ ← input; mret tt)) as Hk by exact (Hk _ _ _ Hrest).
    unfold split_export_m, save_report. solve_keeps_field. }
  assert (logs a9 = logs a6) as Hl9.
  { enough (keeps_field (logs (F:=F)) (st_forM (logs a6) (fun log => on_qc (run_qc cfg (env_read E) log))))
      as Hk by exact (Hk _ _ _ Hloop).
    solve_keeps_field. }
  assert (qc a6 = q0) as Hq0.
  { revert Hq6. unfold load_single, load_bulk.
    repeat case_match; intros Hq6; (apply st_ret_Ok in Hq6 as [_ ->] || apply st_modify_Ok in Hq6 as ->
                                    || discriminate Hq6); done. }
  exists cfg, (qc a4), q0, (qc a9). split_and!.
  - destruct (env_exists E fp); [apply st_ret_Ok in Hq4 as [_ ->]|done]. by rewrite Hq3.
  - destruct (env_exists E fp); [apply st_ret_Ok in Hq4 as [_ ->]|done]. by rewrite Hq3.
  - done.
  - rewrite Hl', Hl9, <- Hq0. by apply forM_on_qc.
Qed.

End MainRuns.

(** ** The prompt, the log discovery and the split stage *)

(** An answer that ends the loop of [ask_split]. *)
Definition is_answer (l : string) : bool :=
  String.eqb (py_lower l) "y" || String.eqb (py_lower l) "n".

(** C23: [ask_split] returns at the first answer that is [y] or [n]
    (in any case), skipping the others, and returns [True] exactly for
    [y]. *)
Theorem ask_split_from_spec ins b rest :
  ask_split_from ins = Ok (b, rest) <->
  exists pre l, ins = pre ++ l :: rest /\ Forall (fun x => is_answer x = false) pre /\
    is_answer l = true /\ b = String.eqb (py_lower l) "y".
Proof.
  induction ins as [|l ins IH]; simpl.
  - split; [done|]. by intros ([|] & ? & ? & _).
  - destruct (String.eqb (py_lower l) "y") eqn:Hy; [|destruct (String.eqb (py_lower l) "n") eqn:Hn].
    + split; [intros [= <- <-]; exists [], l; unfold is_answer; by rewrite Hy|].
      intros ([|x pre] & l' & Heq & Hpre & Hl & ->); simpl in Heq; injection Heq as -> ->; [by rewrite Hy|].
      apply Forall_cons in Hpre as [Hx _]. unfold is_answer in Hx. by rewrite Hy in Hx.
    + split; [intros [= <- <-]; exists [], l; unfold is_answer; by rewrite Hy, Hn|].
      intros ([|x pre] & l' & Heq & Hpre & Hl & ->); simpl in Heq; injection Heq as -> ->; [by rewrite Hy|].
      apply Forall_cons in Hpre as [Hx _]. unfold is_answer in Hx. by rewrite Hy, Hn in Hx.
    + rewrite IH. split.
      * intros (pre & l' & -> & Hpre & Hl & ->). exists (l :: pre), l'.
        split_and!; [done | constructor; [unfold is_answer; by rewrite Hy, Hn | done] | done | done].
      * intros ([|x pre] & l' & Heq & Hpre & Hl & ->); simpl in Heq; injection Heq as -> ->;
          [unfold is_answer in Hl; by rewrite Hy, Hn in Hl|].
        apply Forall_cons in Hpre as [_ Hpre]. exists pre, l'. by split_and!.
Qed.

(** A set of logs: no repetition, every name ends with [.CSV] in any case. *)
Definition logs_ok (l : list string) : Prop :=
  NoDup l /\ Forall (fun f => is_log_name f = true) l.

Lemma elem_of_set_add x y l : x ∈ set_add y l <-> x = y \/ x ∈ l.
Proof. unfold set_add. case_decide; rewrite ?elem_of_app, ?list_elem_of_singleton; naive_solver. Qed.

Lemma set_add_ok x l : is_log_name x = true -> logs_ok l -> logs_ok (set_add x l).
Proof.
  intros Hx [Hnd Hall]. unfold set_add. case_decide; [done|]. split.
  - apply NoDup_app. split_and!; [done| |by apply NoDup_singleton].
    intros y Hy ->%list_elem_of_singleton. done.
  - apply Forall_app. by split; [|constructor].
Qed.

Section Bulk.
Variable join : string -> string -> string.
(** [os.path.join(root, f)] ends with [f], so it keeps the extension. *)
Hypothesis join_log_name : forall root f, is_log_name f = true -> is_log_name (join root f) = true.

Lemma bulk_files_spec root files acc :
  logs_ok acc ->
  let acc' := foldl (fun acc f => if is_log_name f then set_add (join root f) acc else acc) acc files in
  logs_ok acc' /\
  forall x, x ∈ acc' <-> x ∈ acc \/ exists f, f ∈ files /\ is_log_name f = true /\ x = join root f.
Proof.
  revert acc; induction files as [|f files IH]; intros acc Hacc; simpl.
  - split; [done|]. intros x. split; [by left|]. intros [|(? & ?%elem_of_nil & _)]; done.
  - destruct (is_log_name f) eqn:Hf.
    + destruct (IH (set_add (join root f) acc)) as [Hok Hin]; [by apply set_add_ok; auto|].
      split; [done|]. intros x. rewrite Hin, elem_of_set_add. setoid_rewrite elem_of_cons. split.
      * intros [[->|Hx]|(g & Hg & Hl & ->)]; [right; exists f | by left | right; exists g];
          split_and!; by auto.
      * intros [Hx|(g & [->|Hg] & Hl & ->)]; [left; by right | left; by left | right; by exists g].
    + destruct (IH acc Hacc) as [Hok Hin]. split; [done|]. intros x. rewrite Hin.
      setoid_rewrite elem_of_cons. split.
      * intros [Hx|(g & Hg & Hl & ->)]; [by left | right; exists g; split_and!; by auto].
      * intros [Hx|(g & [->|Hg] & Hl & ->)]; [by left | congruence | right; by exists g].
Qed.

(** C24: [load_bulk] keeps [self.logs] a set of log names, keeps the logs
    it had and adds exactly the files of the walk whose name ends with
    [.CSV] in any case, joined to their directory. *)
Theorem bulk_logs_spec walk l :
  logs_ok l ->
  logs_ok (bulk_logs join walk l) /\
  forall x, x ∈ bulk_logs join walk l <->
    x ∈ l \/ exists root files f, (root, files) ∈ walk /\ f ∈ files /\
                                  is_log_name f = true /\ x = join root f.
Proof.
  unfold bulk_logs. revert l; induction walk as [|[root files] walk IH]; intros l Hl; simpl.
  - split; [done|]. intros x. split; [by left|]. intros [|(? & ? & ? & ?%elem_of_nil & _)]; done.
  - destruct (bulk_files_spec root files l Hl) as [Hok Hin].
    destruct (IH _ Hok) as [Hok' Hin']. split; [done|]. intros x. rewrite Hin', Hin.
    setoid_rewrite elem_of_cons. split.
    + intros [[Hx|(f & Hf & Hn & ->)]|(r & fs & f & Hw & Hf & Hn & ->)];
        [by left | right; exists root, files, f | right; exists r, fs, f]; split_and!; by auto.
    + intros [Hx|(r & fs & f & [[= -> ->]|Hw] & Hf & Hn & ->)];
        [left; by left | left; right; by exists f | right; by exists r, fs, f].
Qed.

End Bulk.

(** ** Concrete runs *)

From Stdlib Require Import QArith Qcanon.
Open Scope nat_scope.

(** [pd.read_csv] over a set of files. *)
Definition reader (files : list (string * table Qc)) (p : string) : result (table Qc) :=
  match (list_to_map files : gmap string (table Qc)) !! p with
  | Some t => Ok t
  | None => Err (FileNotFoundError p)
  end.

Definition gamma_log : table Qc :=
  sample_log (Text "LAB1") (Text "GAMMA") (Text "CORE") (Text "15-JAN-2024") ["NPHI1"] ["PU"] ["30"].

(** The workbook behind [sample_settings]. *)
Definition sample_workbook : workbook Qc :=
  mk_workbook [Text "LAB1"] [Text "GAMMA"] [Text "CORE"] meta7 (Text <$> meta_units)
    [("GAMMA", [mk_mnem_row "GRXXXX" (Text "API") (Some f_zero) (Some qc250)])]%string.

(** A directory with one log and one other file. *)
Definition batch_env : env Qc :=
  mk_env (fun _ => true) (fun _ => false) (fun _ => true)
         (fun _ => [("/d", ["b.CSV"; "notes.txt"])])%string posix_join
         (reader [("/d/b.CSV", gamma_log)])%string sample_workbook.

Definition start_app (ins : list string) : app_state Qc :=
  mk_app (sample_state (mk_table [] [])) [] [] ins.

Lemma run_qc_extends_witness :
  let s := sample_state gamma_log in
  let s' := after (run_qc sample_settings (reader [("g.csv", gamma_log)]) "g.csv") s in
  run_qc sample_settings (reader [("g.csv", gamma_log)]) "g.csv" s = Ok (tt, s') /\
  report_extends s s'.
Proof.
  intros s s'. assert (run_qc sample_settings (reader [("g.csv", gamma_log)]) "g.csv" s = Ok (tt, s'))
    as Hrun by (vm_compute; reflexivity).
  split; [exact Hrun | exact (run_qc_extends _ _ _ _ _ Hrun)].
Defined.

Lemma posix_join_log_name root f : is_log_name f = true -> is_log_name (posix_join root f) = true.
Proof. unfold is_log_name, posix_join. rewrite !py_upper_app. intros. by do 2 apply py_endswith_app. Qed.

Lemma bulk_logs_spec_witness :
  let walk := [("/d", ["a.csv"; "b.CSV"; "notes.txt"]); ("/d/sub", ["a.csv"])]%string in
  (forall root f, is_log_name f = true -> is_log_name (posix_join root f) = true) /\ logs_ok [] /\
  logs_ok (bulk_logs posix_join walk []) /\
  forall x, x ∈ bulk_logs posix_join walk [] <->
    x ∈ [] \/ exists root files f, (root, files) ∈ walk /\ f ∈ files /\
                                  is_log_name f = true /\ x = posix_join root f.
Proof.
  intros walk. assert (logs_ok []) as Hok by (split; constructor).
  split; [exact posix_join_log_name|]. split; [exact Hok|].
  exact (bulk_logs_spec posix_join posix_join_log_name walk [] Hok).
Defined.

Lemma run_qc_stages_witness :
  let s := sample_state neutron_log in
  let rd := reader [("n.csv", neutron_log)] in
  let s' := after (run_qc sample_settings rd "n.csv") s in
  run_qc sample_settings rd "n.csv" s = Ok (tt, s') /\
  exists df dfc s2, rd "n.csv" = Ok df /\ clean_log df = Ok dfc /\
    qc_metadata sample_settings (mk_qc_state dfc Missing Missing false Missing Missing (warnings s) (errors s))
      = Ok (tt, s2) /\
    invalid_testtype s' = invalid_testtype s2 /\
    if invalid_testtype s2 then warnings s' = warnings s2 /\ errors s' = errors s2
    else exists s3, qc_data sample_settings s2 = Ok (tt, s3) /\ warnings s' = warnings s3 /\ errors s' = errors s3.
Proof.
  intros s rd s'. assert (run_qc sample_settings rd "n.csv" s = Ok (tt, s')) as Hrun by (vm_compute; reflexivity).
  split; [exact Hrun | exact (run_qc_stages _ _ _ _ _ Hrun)].
Defined.

Lemma main_runs_every_log_witness :
  let a := start_app ["/d"; "n"; ""]%string in
  let a' := after (main batch_env) a in
  main batch_env a = Ok (tt, a') /\
  exists cfg q q0 qn, warnings q = [] /\ errors q = [] /\
    load_settings (env_workbook batch_env) q = Ok (cfg, q0) /\
    st_forM (logs a') (run_qc cfg (env_read batch_env)) q0 = Ok (tt, qn).
Proof.
  intros a a'. assert (main batch_env a = Ok (tt, a')) as Hrun by (vm_compute; reflexivity).
  split; [exact Hrun | exact (main_runs_every_log _ _ _ Hrun)].
Defined.
